(** * train_ee.py: training and evaluation glue of PSENet

    A shallow embedding of [src/train_ee.py] and the properties of its
    running-mean accumulator, dataset adapter, checkpoint loader,
    evaluation routine, training routine and fold loop.

    Numbers.  Python floats and 0-dim tensors are embedded by the exact
    rational they denote ([Q]); arithmetic on them is exact.  Integers
    (epochs, folds, labels, counts) are [Z].

    Exceptions.  A Python call either returns or raises; [result] keeps
    which exception was raised. *)

From Stdlib Require Import ZArith QArith Qround Qabs List String Ascii Bool Lia.
From Stdlib Require Import DecimalString DecimalPos Lqa Sorted.
From stdpp Require Import gmap strings.
Import ListNotations.

#[local] Open Scope string_scope.
#[local] Open Scope list_scope.
#[local] Open Scope Z_scope.

(** ** Exceptions and results *)

Inductive exn : Type :=
| ValueError
| IndexError
| AttributeError
| KeyError
| TypeError
| NameError
| ZeroDivisionError
| FileNotFoundError
| FileExistsError
| NotADirectoryError
| IsADirectoryError
| UnpicklingError
| RuntimeError.

Inductive result (A : Type) : Type :=
| Ok (a : A)
| Raise (e : exn).
Arguments Ok {A} a.
Arguments Raise {A} e.

Definition rbind {A B} (r : result A) (k : A -> result B) : result B :=
  match r with
  | Ok a => k a
  | Raise e => Raise e
  end.

Notation "'let?' p ':=' m 'in' k" :=
  (rbind m (fun p => k))
  (at level 10, p pattern, m at level 100, k at level 200).

Fixpoint rmapM {A B} (f : A -> result B) (l : list A) : result (list B) :=
  match l with
  | [] => Ok []
  | x :: l' => rbind (f x) (fun y => rbind (rmapM f l') (fun ys => Ok (y :: ys)))
  end.

(** A [for] loop over a list that threads the loop-carried variables [s]
    and stops at the first exception. *)
Fixpoint rfor {X S} (l : list X) (body : X -> S -> result S) (s : S) : result S :=
  match l with
  | [] => Ok s
  | x :: l' => rbind (body x s) (rfor l' body)
  end.

(** ** AverageMeter (lines 12-28) *)

Module AverageMeter.

Record t : Type := mk { val : Q; avg : Q; sum : Q; count : Q }.

(** [reset]: lines 18-22. *)
Definition reset (m : t) : t := mk 0 0 0 0.

(** [__init__]: line 16, [self.reset()] on the new object. *)
Definition init : t := mk 0 0 0 0.

(** [update]: lines 24-28.  The division of line 28 raises when the
    new count is zero. *)
Definition update (m : t) (v : Q) (n : Q) : result t :=
  let s := (sum m + v * n)%Q in
  let c := (count m + n)%Q in
  if Qeq_bool c 0 then Raise ZeroDivisionError
  else Ok (mk v (s / c)%Q s c).




End AverageMeter.

(** ** Strings: the pieces of [str], [os.path] and [format] the script uses *)

Module Str.

(** [str(n)] for an integer. *)
Definition of_Z (z : Z) : string := NilZero.string_of_int (Z.to_int z).

(** Python's notion of white space, restricted to ASCII. *)
Definition is_space (c : ascii) : bool :=
  let n := nat_of_ascii c in
  (Nat.leb 9 n && Nat.leb n 13) || (Nat.leb 28 n && Nat.leb n 32).

Fixpoint lstrip (l : list ascii) : list ascii :=
  match l with
  | c :: l' => if is_space c then lstrip l' else l
  | [] => []
  end.

Definition strip (l : list ascii) : list ascii :=
  rev (lstrip (rev (lstrip l))).

Definition digit_of (c : ascii) : option Z :=
  let n := Z.of_nat (nat_of_ascii c) in
  if (48 <=? n) && (n <=? 57) then Some (n - 48) else None.

(** Decimal digits, with single underscores allowed between two digits;
    [prev] tells whether the previous character was a digit. *)
Fixpoint parse_digits (l : list ascii) (acc : Z) (prev : bool) : option Z :=
  match l with
  | [] => if prev then Some acc else None
  | c :: l' =>
      match digit_of c with
      | Some d => parse_digits l' (10 * acc + d) true
      | None =>
          if Ascii.eqb c "_" && prev then parse_digits l' acc false else None
      end
  end.

(** [int(s)] on a string, base 10: surrounding white space, an optional
    sign, digits.  Non-ASCII digits and white space, which Python also
    accepts, are outside this embedding (they are rejected here). *)
Definition py_int (s : string) : result Z :=
  let body := strip (list_ascii_of_string s) in
  let r :=
    match body with
    | "+"%char :: l => parse_digits l 0 false
    | "-"%char :: l => option_map Z.opp (parse_digits l 0 false)
    | l => parse_digits l 0 false
    end in
  match r with
  | Some z => Ok z
  | None => Raise ValueError
  end.

(** [s.split(c)[0]]: the text before the first [c] (all of [s] when
    there is none). *)
Fixpoint before_first (c : ascii) (s : string) : string :=
  match s with
  | EmptyString => EmptyString
  | String a s' => if Ascii.eqb a c then EmptyString else String a (before_first c s')
  end.

Fixpoint contains (c : ascii) (s : string) : bool :=
  match s with
  | EmptyString => false
  | String a s' => Ascii.eqb a c || contains c s'
  end.

(** [os.path.basename]: the text after the last slash. *)
Fixpoint basename (s : string) : string :=
  match s with
  | EmptyString => EmptyString
  | String a s' =>
      if contains "/" s' then basename s'
      else if Ascii.eqb a "/" then s' else s
  end.

(** [os.path.dirname]: the text before the last slash (no
    normalisation of repeated or trailing slashes). *)
Fixpoint dirname (s : string) : string :=
  match s with
  | EmptyString => EmptyString
  | String a s' =>
      if contains "/" s' then String a (dirname s') else EmptyString
  end.

(** [strip_prefix p s] is [Some r] when [s = p ++ r]. *)
Fixpoint strip_prefix (p s : string) : option string :=
  match p, s with
  | EmptyString, _ => Some s
  | String a p', String b s' => if Ascii.eqb a b then strip_prefix p' s' else None
  | String _ _, EmptyString => None
  end.

Definition starts_with (p s : string) : bool :=
  match strip_prefix p s with Some _ => true | None => false end.

Fixpoint ends_with (suf s : string) : bool :=
  String.eqb suf s ||
  match s with
  | EmptyString => false
  | String _ s' => ends_with suf s'
  end.

(** Nearest integer, ties to even: the rounding of [format]. *)
Definition round_half_even (q : Q) : Z :=
  let f := Qfloor q in
  match Qcompare (q - inject_Z f) (1 # 2) with
  | Lt => f
  | Gt => f + 1
  | Eq => if Z.even f then f else f + 1
  end.

Fixpoint zeros (n : nat) : string :=
  match n with O => EmptyString | S n' => String "0" (zeros n') end.

Definition zfill (w : nat) (s : string) : string :=
  zeros (w - String.length s) +:+ s.

(** ['{:.4f}'.format(q)]. *)
Definition format_4f (q : Q) : string :=
  let n := round_half_even (Qabs q * 10000) in
  (if Qle_bool 0 q then "" else "-")
    +:+ of_Z (n / 10000) +:+ "." +:+ zfill 4 (of_Z (n mod 10000)).

End Str.

(** ** Tensors

    A signal is a list of channels, a channel a list of samples; a batch
    is the list of its examples.  Logits are a list of rows, one per
    example.  Labels are integers. *)

Definition Channel : Type := list Q.
Definition Signal : Type := list Channel.
Definition Logits : Type := list (list Q).

Module Tensor.

(** [data[:, k, :]]: channel [k] of every example of the batch. *)
Definition channel (k : nat) (data : list Signal) : result (list Channel) :=
  rmapM (fun s => match nth_error s k with
                  | Some c => Ok c
                  | None => Raise IndexError
                  end) data.

Fixpoint add_row (a b : list Q) : result (list Q) :=
  match a, b with
  | [], [] => Ok []
  | x :: a', y :: b' => let? r := add_row a' b' in Ok ((x + y)%Q :: r)
  | _, _ => Raise RuntimeError
  end.

(** [c1 + c2] on tensors of one shape; a different shape raises
    (broadcasting is not part of the embedding). *)
Fixpoint add (a b : Logits) : result Logits :=
  match a, b with
  | [], [] => Ok []
  | x :: a', y :: b' =>
      let? r := add_row x y in
      let? rs := add a' b' in
      Ok (r :: rs)
  | _, _ => Raise RuntimeError
  end.

(** Index of the first largest entry of a row, scanning from index [i]
    with [best] at index [bi] so far. *)
Fixpoint argmax_from (row : list Q) (i : Z) (best : Q) (bi : Z) : Z :=
  match row with
  | [] => bi
  | x :: row' =>
      if Qle_bool x best then argmax_from row' (i + 1) best bi
      else argmax_from row' (i + 1) x i
  end.

Definition argmax_row (row : list Q) : result Z :=
  match row with
  | [] => Raise IndexError
  | x :: row' => Ok (argmax_from row' 1 x 0)
  end.

(** [torch.max(t, 1)[1]]. *)
Definition argmax (t : Logits) : result (list Z) := rmapM argmax_row t.

(** [torch.sum(pred == target)]. *)
Fixpoint count_eq (pred target : list Z) : Z :=
  match pred, target with
  | p :: pred', t :: target' =>
      (if Z.eqb p t then 1 else 0) + count_eq pred' target'
  | _, _ => 0
  end.

(** [torch.ones_like(label)]. *)
Definition ones_like (label : list Z) : list Z := List.map (fun _ => 1) label.

End Tensor.

(** ** Python sequences *)

(** [l[idx]] on a list, with Python's negative indices. *)
Definition py_index {A} (l : list A) (idx : Z) : result A :=
  let n := Z.of_nat (length l) in
  let i := if idx <? 0 then idx + n else idx in
  if (0 <=? i) && (i <? n) then
    match nth_error l (Z.to_nat i) with
    | Some x => Ok x
    | None => Raise IndexError
    end
  else Raise IndexError.

(** [range(a, b)]. *)
Definition range (a b : Z) : list Z :=
  List.map (fun i => a + Z.of_nat i) (seq 0 (Z.to_nat (b - a))).

(** ** The dataset adapter [MData] (lines 31-58) *)

(** An attribute of an object that may never have been assigned. *)
Inductive attr (A : Type) : Type :=
| Unset
| Assigned (a : A).
Arguments Unset {A}.
Arguments Assigned {A} a.

Module MData.

Record t : Type := mk {
  data : list Signal;
  label : list Z;
  (** [None] inside [Assigned] is Python's [None]. *)
  transformations : attr (option (Signal -> result Signal))
}.

(** [__init__] (lines 33-39): the two lists start empty and nothing
    else is assigned. *)
Definition init (dataset mode channel : string) (seed : Z) : t :=
  mk [] [] Unset.

(** [__len__] (lines 41-42). *)
Definition len (self : t) : nat := length (label self).

(** [__getitem__] (lines 44-58). *)
Definition getitem (self : t) (idx : Z) : result (Signal * Z) :=
  let? signal := py_index (data self) idx in
  let? label := py_index (label self) idx in
  match transformations self with
  | Unset => Raise AttributeError
  | Assigned None => Ok (signal, label)
  | Assigned (Some f) => let? signal := f signal in Ok (signal, label)
  end.

End MData.

(** The interface of [torch.utils.data.Dataset] that loaders use: a
    length and an item access. *)
Record Dataset : Type := {
  ds_len : nat;
  ds_getitem : Z -> result (Signal * Z)
}.

Definition MData_dataset (m : MData.t) : Dataset :=
  {| ds_len := MData.len m; ds_getitem := MData.getitem m |}.

(** ** DataLoader *)

Fixpoint chunks_fuel {A} (fuel bs : nat) (l : list A) : list (list A) :=
  match fuel with
  | O => []
  | S fuel' =>
      match l with
      | [] => []
      | _ => firstn bs l :: chunks_fuel fuel' bs (skipn bs l)
      end
  end.

(** Consecutive batches of [bs] elements, the last one possibly shorter
    ([drop_last=False]). *)
Definition chunks {A} (bs : nat) (l : list A) : list (list A) :=
  chunks_fuel (length l) bs l.

Record DataLoader : Type := {
  dl_dataset : Dataset;
  dl_batch_size : nat
}.

(** [DataLoader(dataset, batch_size=bs)]: the constructor refuses a
    batch size that is not positive. *)
Definition DataLoader_new (ds : Dataset) (bs : Z) : result DataLoader :=
  if bs <=? 0 then Raise ValueError
  else Ok {| dl_dataset := ds; dl_batch_size := Z.to_nat bs |}.

(** The index batches of one pass of a loader built without [shuffle]
    (the validation and test loaders, lines 141-142). *)
Definition seq_batches (ld : DataLoader) : list (list nat) :=
  chunks (dl_batch_size ld) (seq 0 (ds_len (dl_dataset ld))).

(** Fetching and collating one batch: the items in index order, then
    signals and labels apart. *)
Definition fetch (ds : Dataset) (idxs : list nat)
  : result (list Signal * list Z) :=
  let? items := rmapM (fun i => ds_getitem ds (Z.of_nat i)) idxs in
  Ok (List.map fst items, List.map snd items).

(** ** Command-line arguments (lines 191-206) *)

Record Args : Type := {
  a_resume : bool;
  a_lr : Q;
  a_batch_size : Z;
  a_epoch : Z;
  a_dataset : string;
  a_device_id : Z;
  a_name : string;
  a_weight : list Z;
  a_start : Z;
  a_end : Z;
  a_trans : bool;
  a_loss : string;
  a_loss_weight : string
}.

(** The defaults of the parser. *)
Definition default_args : Args :=
  {| a_resume := true; a_lr := 1 # 10000; a_batch_size := 128;
     a_epoch := 100; a_dataset := "MASS"; a_device_id := 0;
     a_name := "EE"; a_weight := [1; 1; 1]; a_start := 21; a_end := 31;
     a_trans := false; a_loss := "cos"; a_loss_weight := "auto" |}.

(** ** The framework and the modules the script imports

    [net.PSENet], [loss.MutiLoss] and the tensor library are not part of
    the script.  What the script needs of them is an interface: the
    network's parameter state and forward pass, the two loss criteria,
    the optimiser and the random permutation a shuffling loader draws.
    The forward pass is a function of the parameter state, the mode flag
    and the inputs; the parameter state is written by the optimiser step
    and by [load_state_dict] only. *)

Class Framework : Type := {
  (** [model.state_dict()] *)
  Params : Type;
  (** the auxiliary outputs [o1], [o2] *)
  Aux : Type;
  (** the state of the random generator *)
  Rng : Type;
  (** the state of [torch.optim.Adam] *)
  OptState : Type;
  (** a [MutiLoss] object *)
  Criterion : Type;
  (** [MODEL()]: freshly initialised parameters *)
  init_params : Rng -> Params * Rng;
  (** [model(data_eog, data_eeg)] with the mode flag [model.training] *)
  forward : Params -> bool -> list Channel -> list Channel ->
            result (Logits * Logits * Aux * Aux);
  (** [torch.nn.CrossEntropyLoss()(cout, target).item()] *)
  cross_entropy : Logits -> list Z -> result Q;
  (** [MutiLoss(args.loss, args.weight, args.loss_weight)] *)
  MutiLoss : string -> list Z -> string -> result Criterion;
  (** [criterion(c1, label, c2, label, o1, o2, tar).item()] *)
  muti_loss : Criterion -> Logits -> list Z -> Logits -> list Z ->
              Aux -> Aux -> option (list Z) -> result Q;
  (** [torch.optim.Adam(model.parameters(), lr=..., eps=1e-6,
      weight_decay=0.0001)] *)
  Adam : Params -> Q -> result OptState;
  (** [loss.backward(); optimizer.step()] for the loss of one batch *)
  optim_step : Criterion -> OptState -> Params ->
               list Channel -> list Channel -> list Z -> option (list Z) ->
               OptState * Params;
  (** the permutation of [0 .. n-1] a shuffling loader draws for a pass *)
  randperm : Rng -> nat -> list nat * Rng
}.

Section Program.

Context {F : Framework}.

(** *** The model object *)

Record Model : Type := { params : Params; training : bool }.

(** [model.eval()] and [model.train()] set the mode flag. *)
Definition Model_eval (m : Model) : Model :=
  {| params := params m; training := false |}.
Definition Model_train (m : Model) : Model :=
  {| params := params m; training := true |}.
Definition load_state_dict (m : Model) (p : Params) : Model :=
  {| params := p; training := training m |}.

(** *** The world: file system, logging, globals, generator *)

(** A pickled value. *)
Inductive Value : Type :=
| VState (p : Params)
| VInt (z : Z).

Inductive Msg : Type :=
| MsgArgs (a : Args)
| MsgLoad (file : string) (epoch : Z)
| MsgWeight (weight : list Z) (mode : string)
| MsgEpoch (epoch : Z)
    (total_loss train_acc valid_acc valid_loss test_acc test_loss : Q).

(** A formatted record: the logger's name and the message (the time
    stamp is left out). *)
Record LogLine : Type := { ll_name : string; ll_msg : Msg }.

(** A regular file holds what was written to it, in order: lines of
    log text and pickled objects. *)
Inductive chunk : Type :=
| Line (l : LogLine)
| Obj (d : gmap string Value).

Inductive node : Type :=
| Dir
| File (content : list chunk).

(** The file system is the list of its paths in the order a directory
    listing yields them, which is the file system's own and need not
    be sorted.  Paths are compared as written. *)
Definition FS : Type := list (string * node).

Inductive Handler : Type :=
| StreamHandler
| FileHandler (path : string).

(** Ghost records, kept to state properties of runs. *)
Record CritCall : Type := { cc_label : list Z; cc_tar : option (list Z) }.

Record EpochObs : Type := {
  eo_epoch : Z;
  eo_valid_acc : Q;
  eo_test_acc : Q;
  eo_params : Params;
  (** the value of [best_acc] when the epoch reaches line 179 *)
  eo_best_before : Q
}.

Inductive Event : Type :=
| EInitPath (fold : Z)
| EGetModel (fold : Z)
| EGetDataset (fold : Z)
| ETrain (fold : Z).

Record World : Type := {
  fs : FS;
  console : list LogLine;
  (** [logging]'s registry: the handlers of each named logger *)
  loggers : gmap string (list Handler);
  (** the module globals [fold] and [logger] (a logger is known by its
      name in the registry) *)
  g_fold : option Z;
  g_logger : option string;
  rng : Rng;
  (** ghost: the file system after each change, latest first *)
  fs_trace : list FS;
  (** ghost: the label and target arguments of each call of the
      training criterion, latest first *)
  crit_trace : list CritCall;
  (** ghost: what each finished epoch observed, latest first *)
  epoch_trace : list EpochObs;
  (** ghost: the steps of the fold loop, latest first *)
  main_trace : list Event
}.

Definition set_fs (f : FS) (w : World) : World :=
  {| fs := f; console := console w; loggers := loggers w;
     g_fold := g_fold w; g_logger := g_logger w; rng := rng w;
     fs_trace := f :: fs_trace w; crit_trace := crit_trace w;
     epoch_trace := epoch_trace w; main_trace := main_trace w |}.

Definition set_console (c : list LogLine) (w : World) : World :=
  {| fs := fs w; console := c; loggers := loggers w;
     g_fold := g_fold w; g_logger := g_logger w; rng := rng w;
     fs_trace := fs_trace w; crit_trace := crit_trace w;
     epoch_trace := epoch_trace w; main_trace := main_trace w |}.

Definition set_loggers (l : gmap string (list Handler)) (w : World) : World :=
  {| fs := fs w; console := console w; loggers := l;
     g_fold := g_fold w; g_logger := g_logger w; rng := rng w;
     fs_trace := fs_trace w; crit_trace := crit_trace w;
     epoch_trace := epoch_trace w; main_trace := main_trace w |}.

Definition set_g_fold (f : option Z) (w : World) : World :=
  {| fs := fs w; console := console w; loggers := loggers w;
     g_fold := f; g_logger := g_logger w; rng := rng w;
     fs_trace := fs_trace w; crit_trace := crit_trace w;
     epoch_trace := epoch_trace w; main_trace := main_trace w |}.

Definition set_g_logger (l : option string) (w : World) : World :=
  {| fs := fs w; console := console w; loggers := loggers w;
     g_fold := g_fold w; g_logger := l; rng := rng w;
     fs_trace := fs_trace w; crit_trace := crit_trace w;
     epoch_trace := epoch_trace w; main_trace := main_trace w |}.

Definition set_rng (g : Rng) (w : World) : World :=
  {| fs := fs w; console := console w; loggers := loggers w;
     g_fold := g_fold w; g_logger := g_logger w; rng := g;
     fs_trace := fs_trace w; crit_trace := crit_trace w;
     epoch_trace := epoch_trace w; main_trace := main_trace w |}.

Definition set_crit_trace (t : list CritCall) (w : World) : World :=
  {| fs := fs w; console := console w; loggers := loggers w;
     g_fold := g_fold w; g_logger := g_logger w; rng := rng w;
     fs_trace := fs_trace w; crit_trace := t;
     epoch_trace := epoch_trace w; main_trace := main_trace w |}.

Definition set_epoch_trace (t : list EpochObs) (w : World) : World :=
  {| fs := fs w; console := console w; loggers := loggers w;
     g_fold := g_fold w; g_logger := g_logger w; rng := rng w;
     fs_trace := fs_trace w; crit_trace := crit_trace w;
     epoch_trace := t; main_trace := main_trace w |}.

Definition set_main_trace (t : list Event) (w : World) : World :=
  {| fs := fs w; console := console w; loggers := loggers w;
     g_fold := g_fold w; g_logger := g_logger w; rng := rng w;
     fs_trace := fs_trace w; crit_trace := crit_trace w;
     epoch_trace := epoch_trace w; main_trace := t |}.

(** *** The monad of the script: state and exceptions

    An exception keeps the world as it was when it was raised. *)

Definition M (A : Type) : Type := World -> result A * World.

Definition ret {A} (a : A) : M A := fun w => (Ok a, w).

Definition bindM {A B} (m : M A) (k : A -> M B) : M B :=
  fun w =>
    match m w with
    | (Ok a, w') => k a w'
    | (Raise e, w') => (Raise e, w')
    end.

Definition raise {A} (e : exn) : M A := fun w => (Raise e, w).

Definition lift {A} (r : result A) : M A := fun w => (r, w).

Definition gets {A} (f : World -> A) : M A := fun w => (Ok (f w), w).

Definition modify (f : World -> World) : M unit := fun w => (Ok tt, f w).

End Program.

Notation "'let!' p ':=' m 'in' k" :=
  (bindM m (fun p => k))
  (at level 10, p pattern, m at level 100, k at level 200).

Section Effects.

Context {F : Framework}.

Fixpoint for_M {X S} (l : list X) (body : X -> S -> M S) (s : S) : M S :=
  match l with
  | [] => ret s
  | x :: l' => let! s' := body x s in for_M l' body s'
  end.

(** *** File system *)

Fixpoint fs_lookup (p : string) (f : FS) : option node :=
  match f with
  | [] => None
  | (q, n) :: f' => if String.eqb q p then Some n else fs_lookup p f'
  end.

Definition fs_exists (p : string) (f : FS) : bool :=
  match fs_lookup p f with Some _ => true | None => false end.

Definition fs_remove (p : string) (f : FS) : FS :=
  List.filter (fun e => negb (String.eqb (fst e) p)) f.

(** Writing a path keeps its place in the listing when it exists and
    adds it at the end otherwise. *)
Fixpoint fs_write (p : string) (n : node) (f : FS) : FS :=
  match f with
  | [] => [(p, n)]
  | (q, m) :: f' =>
      if String.eqb q p then (p, n) :: f' else (q, m) :: fs_write p n f'
  end.

(** The directory a new entry goes into must exist; a path without a
    slash lives in the current directory. *)
Definition check_parent (p : string) : M unit :=
  let d := Str.dirname p in
  if String.eqb d "" then ret tt
  else
    let! f := gets fs in
    match fs_lookup d f with
    | Some Dir => ret tt
    | Some (File _) => raise NotADirectoryError
    | None => raise FileNotFoundError
    end.

Definition put_fs (f : FS) : M unit := modify (set_fs f).

(** [os.path.exists] *)
Definition os_path_exists (p : string) : M bool :=
  let! f := gets fs in ret (fs_exists p f).

(** [os.mkdir] *)
Definition os_mkdir (p : string) : M unit :=
  let! f := gets fs in
  if fs_exists p f then raise FileExistsError
  else
    let! _ := check_parent p in
    put_fs (f ++ [(p, Dir)]).

(** [os.remove] *)
Definition os_remove (p : string) : M unit :=
  let! f := gets fs in
  match fs_lookup p f with
  | None => raise FileNotFoundError
  | Some Dir => raise IsADirectoryError
  | Some (File _) => put_fs (fs_remove p f)
  end.

(** [torch.save(obj, path)] *)
Definition torch_save (d : gmap string Value) (p : string) : M unit :=
  let! _ := check_parent p in
  let! f := gets fs in
  match fs_lookup p f with
  | Some Dir => raise IsADirectoryError
  | _ => put_fs (fs_write p (File [Obj d]) f)
  end.

(** [torch.load(path)]: the first object pickled in the file. *)
Definition torch_load (p : string) : M (gmap string Value) :=
  let! f := gets fs in
  match fs_lookup p f with
  | None => raise FileNotFoundError
  | Some Dir => raise IsADirectoryError
  | Some (File (Obj d :: _)) => ret d
  | Some (File _) => raise UnpicklingError
  end.

(** The names [*.pt] matches directly under [pth]: any entry whose
    name ends in [.pt] and does not start with a dot.  The directory
    part is matched as written ([pth] is taken to hold no pattern
    character). *)
Definition is_pt_in (pth p : string) : bool :=
  match Str.strip_prefix (pth +:+ "/") p with
  | Some name =>
      negb (Str.contains "/" name) && Str.ends_with ".pt" name
      && negb (Str.starts_with "." name)
  | None => false
  end.

Definition pt_files (pth : string) (f : FS) : list string :=
  List.filter (is_pt_in pth) (List.map fst f).

(** [glob('{}/*.pt'.format(pth))]: the matches in listing order
    ([glob] does not sort). *)
Definition glob_pt (pth : string) : M (list string) :=
  let! f := gets fs in ret (pt_files pth f).

(** *** Logging (lines 61-74) *)

(** [logging.FileHandler(filename=path)] opens the file for appending,
    creating it when it is missing. *)
Definition open_append (p : string) : M unit :=
  let! _ := check_parent p in
  let! f := gets fs in
  match fs_lookup p f with
  | Some Dir => raise IsADirectoryError
  | Some (File _) => ret tt
  | None => put_fs (f ++ [(p, File [])])
  end.

(** One handler writes one record.  A file handler writes to the file
    it opened; when that file is gone from the listing the text goes
    nowhere visible. *)
Definition emit (l : LogLine) (h : Handler) (_ : unit) : M unit :=
  match h with
  | StreamHandler =>
      let! c := gets console in modify (set_console (c ++ [l]))
  | FileHandler p =>
      let! f := gets fs in
      match fs_lookup p f with
      | Some (File c) => put_fs (fs_write p (File (c ++ [Line l])) f)
      | _ => ret tt
      end
  end.

(** [logger.info(msg)] on the logger named [name]. *)
Definition logger_info (name : string) (msg : Msg) : M unit :=
  let! reg := gets loggers in
  let hs := match reg !! name with Some hs => hs | None => [] end in
  for_M hs (emit {| ll_name := name; ll_msg := msg |}) tt.

(** [logger.info(msg)] through the module global [logger]. *)
Definition global_logger_info (msg : Msg) : M unit :=
  let! g := gets g_logger in
  match g with
  | None => raise NameError
  | Some name => logger_info name msg
  end.

(** [get_logger] (lines 61-74). *)
Definition get_logger (path name : string) : M string :=
  let! reg := gets loggers in
  let hs := match reg !! name with Some hs => hs | None => [] end in
  let! _ := modify (set_loggers (<[name := hs]> reg)) in
  let! _ := open_append path in
  let! _ := modify (set_loggers
                      (<[name := hs ++ [StreamHandler; FileHandler path]]> reg)) in
  ret name.

(** The module global [fold]. *)
Definition global_fold : M Z :=
  let! g := gets g_fold in
  match g with
  | None => raise NameError
  | Some fold => ret fold
  end.

(** [init_path] (lines 77-89). *)
Definition init_path (args : Args) : M (string * string) :=
  let name := a_name args +:+ "-" +:+ a_loss args in
  let! fold := global_fold in
  let savepaths :=
    [ name;
      name +:+ "/" +:+ a_dataset args;
      name +:+ "/" +:+ a_dataset args +:+ "/" +:+ Str.of_Z fold ] in
  let! _ := for_M savepaths
              (fun pth _ =>
                 let! ex := os_path_exists pth in
                 if ex then ret tt else os_mkdir pth) tt in
  let save_path := List.last savepaths "" in
  let! fold' := global_fold in
  let! logger := get_logger (save_path +:+ "/log.txt") (Str.of_Z fold') in
  let! _ := logger_info logger (MsgArgs args) in
  ret (logger, save_path).

End Effects.

Section Routines.

Context {F : Framework}.

(** ** The evaluation routine [test] (lines 92-110) *)

(** The body of the loop of lines 99-108; [st] holds [test_loss] and
    [correct]. *)
Definition test_batch (model : Model) (ds : Dataset) (idxs : list nat)
    (st : AverageMeter.t * Z) : result (AverageMeter.t * Z) :=
  let? (data, target) := fetch ds idxs in
  let? data_eeg := Tensor.channel 0 data in
  let? data_eog := Tensor.channel 1 data in
  let? (c1, c2, o1, o2) :=
    forward (params model) (training model) data_eog data_eeg in
  let? cout := Tensor.add c1 c2 in
  let? loss := cross_entropy cout target in
  let? test_loss := AverageMeter.update (fst st) loss 1 in
  let? pred := Tensor.argmax cout in
  Ok (test_loss, snd st + Tensor.count_eq pred target).

(** [test] returns the pair [(acc, test_loss.avg)]; the model object,
    whose mode flag it sets, is returned with it. *)
Definition test (model : Model) (target_test_loader : DataLoader)
    : result (Model * (Q * Q)) :=
  let model := Model_eval model in
  let test_loss := AverageMeter.init in
  let correct := 0 in
  let len_target_dataset := ds_len (dl_dataset target_test_loader) in
  let? (test_loss, correct) :=
    rfor (seq_batches target_test_loader)
      (test_batch model (dl_dataset target_test_loader))
      (test_loss, correct) in
  if Nat.eqb len_target_dataset 0 then Raise ZeroDivisionError
  else
    let acc := (100 * inject_Z correct
                / inject_Z (Z.of_nat len_target_dataset))%Q in
    Ok (model, (acc, AverageMeter.avg test_loss)).

(** What the specification says [test] computes, batch by batch: the
    loss of the batch and the number of its examples whose largest
    summed logit sits at the label. *)
Definition batch_eval (p : Params) (ds : Dataset) (idxs : list nat)
    : result (Q * Z) :=
  let? (data, target) := fetch ds idxs in
  let? data_eeg := Tensor.channel 0 data in
  let? data_eog := Tensor.channel 1 data in
  let? (c1, c2, o1, o2) := forward p false data_eog data_eeg in
  let? cout := Tensor.add c1 c2 in
  let? loss := cross_entropy cout target in
  let? pred := Tensor.argmax cout in
  Ok (loss, Tensor.count_eq pred target).

Definition Qsum (l : list Q) : Q := fold_right Qplus 0%Q l.
Definition Zsum (l : list Z) : Z := fold_right Z.add 0 l.

Definition test_spec (p : Params) (ld : DataLoader) : result (Q * Q) :=
  let? rs := rmapM (batch_eval p (dl_dataset ld)) (seq_batches ld) in
  let correct := Zsum (List.map snd rs) in
  let total := Z.of_nat (ds_len (dl_dataset ld)) in
  Ok ((100 * inject_Z correct / inject_Z total)%Q,
      (Qsum (List.map fst rs) / inject_Z (Z.of_nat (length rs)))%Q).

(** ** The checkpoint loader [get_model] (lines 113-123) *)

(** The file the loader resumes from: the last element of what [glob]
    returned. *)
Definition resume_file (files : list string) : option string :=
  match files with
  | [] => None
  | _ => Some (List.last files "")
  end.

(** [int(os.path.basename(file).split('-')[0])] *)
Definition file_epoch (file : string) : result Z :=
  Str.py_int (Str.before_first "-" (Str.basename file)).

Definition get_model (args : Args) (pth : string) : M (Model * Z) :=
  let start_epoch := 0 in
  let! g := gets rng in
  let '(p, g') := init_params g in
  let! _ := modify (set_rng g') in
  let model := {| params := p; training := true |} in
  let! files := glob_pt pth in
  match (if a_resume args then resume_file files else None) with
  | Some file =>
      let! e := lift (file_epoch file) in
      let epoch := e + 1 in
      let start_epoch := epoch in
      let! _ := global_logger_info (MsgLoad file (epoch - 1)) in
      let! d := torch_load file in
      match d !! "model" with
      | None => raise KeyError
      | Some (VInt _) => raise TypeError
      | Some (VState sd) => ret (load_state_dict model sd, start_epoch)
      end
  | None => ret (model, start_epoch)
  end.

(** ** [get_dataset] (lines 126-132) *)

Definition get_dataset (args : Args) : M (gmap string Dataset) :=
  let! fold1 := global_fold in
  let train := MData.init (a_dataset args) "train" "ALL" fold1 in
  let! fold2 := global_fold in
  let valid := MData.init (a_dataset args) "valid" "ALL" fold2 in
  let! fold3 := global_fold in
  let test := MData.init (a_dataset args) "test" "ALL" fold3 in
  ret (<["train" := MData_dataset train]>
         (<["valid" := MData_dataset valid]>
            (<["test" := MData_dataset test]> ∅))).

(** ** The training routine [train] (lines 135-187) *)

(** [dataset[key]] *)
Definition dict_get (d : gmap string Dataset) (key : string) : M Dataset :=
  match d !! key with
  | Some x => ret x
  | None => raise KeyError
  end.

(** The variables [train] carries across epochs. *)
Record Locals : Type := {
  l_model : Model;
  l_optimizer : OptState;
  l_train_loss_clf : AverageMeter.t;
  l_best_acc : Q;
  l_file_name : string;
  l_tar : option (list Z)
}.

Definition with_model (m : Model) (l : Locals) : Locals :=
  {| l_model := m; l_optimizer := l_optimizer l;
     l_train_loss_clf := l_train_loss_clf l; l_best_acc := l_best_acc l;
     l_file_name := l_file_name l; l_tar := l_tar l |}.

Definition with_meter (a : AverageMeter.t) (l : Locals) : Locals :=
  {| l_model := l_model l; l_optimizer := l_optimizer l;
     l_train_loss_clf := a; l_best_acc := l_best_acc l;
     l_file_name := l_file_name l; l_tar := l_tar l |}.

Definition with_step (o : OptState) (p : Params) (tar : option (list Z))
    (l : Locals) : Locals :=
  {| l_model := load_state_dict (l_model l) p; l_optimizer := o;
     l_train_loss_clf := l_train_loss_clf l; l_best_acc := l_best_acc l;
     l_file_name := l_file_name l; l_tar := tar |}.

Definition with_best (acc : Q) (name : string) (l : Locals) : Locals :=
  {| l_model := l_model l; l_optimizer := l_optimizer l;
     l_train_loss_clf := l_train_loss_clf l; l_best_acc := acc;
     l_file_name := name; l_tar := l_tar l |}.

Definition ghost_crit (c : CritCall) : M unit :=
  let! t := gets crit_trace in modify (set_crit_trace (c :: t)).

Definition ghost_epoch (o : EpochObs) : M unit :=
  let! t := gets epoch_trace in modify (set_epoch_trace (o :: t)).

Definition ghost_event (e : Event) : M unit :=
  let! t := gets main_trace in modify (set_main_trace (e :: t)).

(** The body of the batch loop (lines 157-170); [st] holds the locals
    and [correct]. *)
Definition train_batch (args : Args) (criterion : Criterion)
    (ds : Dataset) (idxs : list nat) (st : Locals * Z) : M (Locals * Z) :=
  let '(loc, correct) := st in
  let! (data, label) := lift (fetch ds idxs) in
  let! data_eeg := lift (Tensor.channel 0 data) in
  let! data_eog := lift (Tensor.channel 1 data) in
  let model := l_model loc in
  let! (c1, c2, o1, o2) :=
    lift (forward (params model) (training model) data_eog data_eeg) in
  let tar :=
    if String.eqb (a_loss args) "cos"
    then Some (Tensor.ones_like label)
    else l_tar loc in
  let! _ := ghost_crit {| cc_label := label; cc_tar := tar |} in
  let! loss := lift (muti_loss criterion c1 label c2 label o1 o2 tar) in
  let '(opt, p) :=
    optim_step criterion (l_optimizer loc) (params model)
      data_eog data_eeg label tar in
  let loc := with_step opt p tar loc in
  let! pred := lift (Tensor.argmax c1) in
  let correct := correct + Tensor.count_eq pred label in
  let! meter := lift (AverageMeter.update (l_train_loss_clf loc) loss 1) in
  ret (with_meter meter loc, correct).

(** The file name of line 184. *)
Definition checkpoint_name (save_path : string) (epoch : Z) (test_acc : Q)
    : string :=
  save_path +:+ "/" +:+ Str.of_Z epoch +:+ "-" +:+ Str.format_4f test_acc
    +:+ ".pt".

(** The record of line 185. *)
Definition checkpoint_record (state_dict : Params) (epoch : Z)
    : gmap string Value :=
  <["model" := VState state_dict]> (<["epoch" := VInt epoch]> ∅).

(** The checkpoint decision (lines 179-185). *)
Definition checkpoint_step (save_path : string) (epoch : Z)
    (valid_acc test_acc : Q) (loc : Locals) : M Locals :=
  if Qle_bool (l_best_acc loc) valid_acc then
    let best_acc := valid_acc in
    let state_dict := params (l_model loc) in
    let! _ :=
      if negb (String.eqb (l_file_name loc) "") then
        let! ex := os_path_exists (l_file_name loc) in
        if ex then os_remove (l_file_name loc) else ret tt
      else ret tt in
    let file_name := checkpoint_name save_path epoch test_acc in
    let! _ := torch_save (checkpoint_record state_dict epoch) file_name in
    ret (with_best best_acc file_name loc)
  else ret loc.

(** The training pass of an epoch (lines 153-171); it returns the
    locals and the training accuracy.  The training loader was built
    with [shuffle=True]: each pass over it draws a new permutation of
    the indices. *)
Definition train_pass (args : Args) (criterion : Criterion)
    (dataset : gmap string Dataset) (train_loader : DataLoader)
    (loc : Locals) : M (Locals * Q) :=
  let loc := with_model (Model_train (l_model loc)) loc in
  let loc := with_meter (AverageMeter.reset (l_train_loss_clf loc)) loc in
  let correct := 0 in
  let! g := gets rng in
  let '(perm, g') := randperm g (ds_len (dl_dataset train_loader)) in
  let! _ := modify (set_rng g') in
  let! (loc, correct) :=
    for_M (chunks (dl_batch_size train_loader) perm)
      (train_batch args criterion (dl_dataset train_loader))
      (loc, correct) in
  let! train_ds := dict_get dataset "train" in
  let! acc :=
    if Nat.eqb (ds_len train_ds) 0 then raise ZeroDivisionError
    else ret (100 * inject_Z correct
              / inject_Z (Z.of_nat (ds_len train_ds)))%Q in
  ret (loc, acc).

(** One pass of the epoch loop (lines 153-187). *)
Definition train_epoch (args : Args) (criterion : Criterion)
    (dataset : gmap string Dataset)
    (train_loader valid_loader test_loader : DataLoader)
    (save_path : string) (epoch : Z) (loc : Locals) : M Locals :=
  let! (loc, acc) := train_pass args criterion dataset train_loader loc in
  let! (model, (valid_acc, valid_loss)) :=
    lift (test (l_model loc) valid_loader) in
  let loc := with_model model loc in
  let! (model, (test_acc, test_loss)) :=
    lift (test (l_model loc) test_loader) in
  let loc := with_model model loc in
  let! _ := ghost_epoch {| eo_epoch := epoch; eo_valid_acc := valid_acc;
                           eo_test_acc := test_acc;
                           eo_params := params (l_model loc);
                           eo_best_before := l_best_acc loc |} in
  let! loc := checkpoint_step save_path epoch valid_acc test_acc loc in
  let! _ := global_logger_info
              (MsgEpoch epoch (AverageMeter.avg (l_train_loss_clf loc)) acc
                 valid_acc valid_loss test_acc test_loss) in
  ret loc.

Definition train (model : Model) (dataset : gmap string Dataset)
    (args : Args) (save_path : string) (start_epoch : Z) : M unit :=
  let best_acc := 0%Q in
  let file_name := "" in
  let! train_ds := dict_get dataset "train" in
  let! train_loader := lift (DataLoader_new train_ds (a_batch_size args)) in
  let! valid_ds := dict_get dataset "valid" in
  let! valid_loader := lift (DataLoader_new valid_ds (a_batch_size args)) in
  let! test_ds := dict_get dataset "test" in
  let! test_loader := lift (DataLoader_new test_ds (a_batch_size args)) in
  let train_loss_clf := AverageMeter.init in
  let! criterion :=
    lift (MutiLoss (a_loss args) (a_weight args) (a_loss_weight args)) in
  let! _ := global_logger_info
              (MsgWeight (a_weight args) (a_loss_weight args)) in
  let! optimizer := lift (Adam (params model) (a_lr args)) in
  let tar := None in
  let loc := {| l_model := model; l_optimizer := optimizer;
                l_train_loss_clf := train_loss_clf; l_best_acc := best_acc;
                l_file_name := file_name; l_tar := tar |} in
  let! _ := for_M (range start_epoch (a_epoch args))
              (train_epoch args criterion dataset
                 train_loader valid_loader test_loader save_path) loc in
  ret tt.

(** ** The entry point (lines 210-214) *)

Definition fold_body (args : Args) (fold : Z) (_ : unit) : M unit :=
  let! _ := modify (set_g_fold (Some fold)) in
  let! _ := ghost_event (EInitPath fold) in
  let! (logger, pth) := init_path args in
  let! _ := modify (set_g_logger (Some logger)) in
  let! _ := ghost_event (EGetModel fold) in
  let! (model, start_epoch) := get_model args pth in
  let! _ := ghost_event (EGetDataset fold) in
  let! dataset := get_dataset args in
  let! _ := ghost_event (ETrain fold) in
  train model dataset args pth start_epoch.

Definition main (args : Args) : M unit :=
  for_M (range (a_start args) (a_end args)) (fold_body args) tt.

End Routines.

(** ** A small instance of the interface, to run the routines on

    Parameters are a step counter; the network returns the two channels
    of each example as its two rows of logits; the evaluation criterion
    counts the examples it gets wrong divided by the batch size; the
    shuffling loader rotates the indices by one. *)

Module Toy.

Definition zero_one (cout : Logits) (target : list Z) : result Q :=
  let? pred := Tensor.argmax cout in
  Ok (inject_Z (Z.of_nat (length target) - Tensor.count_eq pred target)
      / inject_Z (Z.of_nat (length target)))%Q.

Definition rotate (l : list nat) : list nat :=
  match l with
  | [] => []
  | x :: l' => l' ++ [x]
  end.

#[export] Instance framework : Framework := {|
  Params := Z;
  Aux := unit;
  Rng := nat;
  OptState := unit;
  Criterion := unit;
  init_params := fun g => (0, S g);
  forward := fun p tr eog eeg => Ok (eeg, eog, tt, tt);
  cross_entropy := zero_one;
  MutiLoss := fun loss weight mode => Ok tt;
  muti_loss := fun c c1 l1 c2 l2 o1 o2 tar => Ok (1 # 2)%Q;
  Adam := fun p lr => Ok tt;
  optim_step := fun c o p eog eeg label tar => (o, p + 1);
  randperm := fun g n => (rotate (seq 0 n), S g)
|}.

(** A dataset held in two lists, with working item access. *)
Definition list_dataset (items : list (Signal * Z)) : Dataset :=
  {| ds_len := length items; ds_getitem := py_index items |}.

(** Three examples with two channels of two samples each. *)
Definition items3 : list (Signal * Z) :=
  [ ([[1; 0]; [1; 0]]%Q, 0);
    ([[0; 1]; [0; 2]]%Q, 1);
    ([[3; 0]; [0; 1]]%Q, 1) ].

Definition datasets : gmap string Dataset :=
  <["train" := list_dataset items3]>
    (<["valid" := list_dataset items3]>
       (<["test" := list_dataset (firstn 2 items3)]> ∅)).

(** A world with the run directory [d] and a logger [21] writing to
    [d/log.txt]. *)
Definition world0 : World :=
  {| fs := [("d", Dir); ("d/log.txt", File [])];
     console := [];
     loggers := <["21" := [StreamHandler; FileHandler "d/log.txt"]]> ∅;
     g_fold := Some 21;
     g_logger := Some "21";
     rng := O;
     fs_trace := [];
     crit_trace := [];
     epoch_trace := [];
     main_trace := [] |}.

(** The run directory after a run that stopped at epoch 9 and a
    resumed run that saved at epoch 10, listed in creation order. *)
Definition world_two : World :=
  {| fs := [("d", Dir); ("d/log.txt", File []);
            ("d/9-50.0000.pt", File [Obj (checkpoint_record 7 9)]);
            ("d/10-60.0000.pt", File [Obj (checkpoint_record 8 10)])];
     console := [];
     loggers := <["21" := [StreamHandler; FileHandler "d/log.txt"]]> ∅;
     g_fold := Some 21;
     g_logger := Some "21";
     rng := O;
     fs_trace := [];
     crit_trace := [];
     epoch_trace := [];
     main_trace := [] |}.

Definition empty_world : World :=
  {| fs := []; console := []; loggers := ∅; g_fold := None;
     g_logger := None; rng := O; fs_trace := []; crit_trace := [];
     epoch_trace := []; main_trace := [] |}.

Definition model (p : Z) (tr : bool) : @Model framework :=
  @Build_Model framework p tr.

Definition locals (best : Q) (file : string) : @Locals framework :=
  @Build_Locals framework (model 3 true) tt AverageMeter.init best file None.

(** Batches of two, [epochs] epochs, loss mode [loss]. *)
Definition args_n (epochs : Z) (loss : string) : Args :=
  {| a_resume := true; a_lr := 1 # 10000; a_batch_size := 2;
     a_epoch := epochs; a_dataset := "MASS"; a_device_id := 0;
     a_name := "EE"; a_weight := [1; 1; 1]; a_start := 21; a_end := 31;
     a_trans := false; a_loss := loss; a_loss_weight := "auto" |}.

Definition args2 (loss : string) : Args := args_n 2 loss.

End Toy.

(** ** Assertions about computations *)

Section Assertions.

Context {F : Framework}.

(** [m] leaves the part [proj] of the world as it found it, whether it
    returns or raises. *)
Definition keeps {A B} (proj : World -> B) (m : M A) : Prop :=
  forall w, proj (snd (m w)) = proj w.

(** From a world satisfying [P], [m] ends in a world satisfying [Q a]
    when it returns [a] and [E] when it raises. *)
Definition hoare {A} (P : World -> Prop) (m : M A)
    (Q : A -> World -> Prop) (E : World -> Prop) : Prop :=
  forall w, P w ->
    match m w with
    | (Ok a, w') => Q a w'
    | (Raise _, w') => E w'
    end.

(** What [torch.load] makes of a directory entry. *)
Definition load_of (n : option node) : result (gmap string Value) :=
  match n with
  | None => Raise FileNotFoundError
  | Some Dir => Raise IsADirectoryError
  | Some (File (Obj d :: _)) => Ok d
  | Some (File _) => Raise UnpicklingError
  end.

(** The value [get_model] returns, read off the world it starts in. *)
Definition get_model_result (args : Args) (pth : string) (w : World)
    : result (Model * Z) :=
  let model := {| params := fst (init_params (rng w)); training := true |} in
  match (if a_resume args then resume_file (pt_files pth (fs w)) else None) with
  | Some file =>
      let? e := file_epoch file in
      let? _ := match g_logger w with
                | None => Raise NameError
                | Some _ => Ok tt
                end in
      let? d := load_of (fs_lookup file (fs w)) in
      match d !! "model" with
      | None => Raise KeyError
      | Some (VInt _) => Raise TypeError
      | Some (VState sd) => Ok (load_state_dict model sd, e + 1)
      end
  | None => Ok (model, 0)
  end.

(** Rewriting every pickled record in the file system: [g path] is
    applied to the records stored at [path]. *)
Definition map_chunk (h : gmap string Value -> gmap string Value)
    (c : chunk) : chunk :=
  match c with
  | Line l => Line l
  | Obj d => Obj (h d)
  end.

Definition map_node (h : gmap string Value -> gmap string Value)
    (n : node) : node :=
  match n with
  | Dir => Dir
  | File c => File (List.map (map_chunk h) c)
  end.

Definition map_records
    (g : string -> gmap string Value -> gmap string Value) (f : FS) : FS :=
  List.map (fun e => (fst e, map_node (g (fst e)) (snd e))) f.

(** The same world with another file system. *)
Definition with_fs (f : FS) (w : World) : World :=
  {| fs := f; console := console w; loggers := loggers w;
     g_fold := g_fold w; g_logger := g_logger w; rng := rng w;
     fs_trace := fs_trace w; crit_trace := crit_trace w;
     epoch_trace := epoch_trace w; main_trace := main_trace w |}.

(** The steps of the fold loop for one fold, in order. *)
Definition fold_events (fold : Z) : list Event :=
  [EInitPath fold; EGetModel fold; EGetDataset fold; ETrain fold].

(** Logging only appends lines to files: [n'] is [n] with lines
    added at its end. *)
Definition is_line (c : chunk) : bool :=
  match c with Line _ => true | Obj _ => false end.

Definition node_grows (n n' : node) : Prop :=
  match n, n' with
  | Dir, Dir => True
  | File c, File c' =>
      exists ls, c' = c ++ ls /\ forallb is_line ls = true
  | _, _ => False
  end.

Definition fs_grows (f f' : FS) : Prop :=
  Forall2 (fun e e' => fst e = fst e' /\ node_grows (snd e) (snd e')) f f'.

(** What logging may do to the world: files grow by lines, the
    console grows, and each intermediate file system is recorded. *)
Definition logged (w w' : World) : Prop :=
  fs_grows (fs w) (fs w') /\
  loggers w' = loggers w /\
  g_fold w' = g_fold w /\
  g_logger w' = g_logger w /\
  rng w' = rng w /\
  crit_trace w' = crit_trace w /\
  epoch_trace w' = epoch_trace w /\
  main_trace w' = main_trace w /\
  exists new, fs_trace w' = new ++ fs_trace w /\
              Forall (fs_grows (fs w)) new.

(** The calls of the training criterion made since the trace was
    [t0] all had [None] as their target argument. *)
Definition tar_none_since (t0 : list CritCall) (w : World) : Prop :=
  exists calls, crit_trace w = calls ++ t0 /\
                Forall (fun c => cc_tar c = None) calls.

(** Since the trace of the file system was [t0], every file system
    the run went through, and the present one, holds at most one
    checkpoint file under [sp]. *)
Definition trace_ok (sp : string) (t0 : list FS) (w : World) : Prop :=
  (exists new, fs_trace w = new ++ t0 /\
               Forall (fun f => (length (pt_files sp f) <= 1)%nat) new) /\
  (length (pt_files sp (fs w)) <= 1)%nat.

(** [o] is the observation of the best validation accuracy among
    [obs] (in the order of the epochs), the later one on a tie. *)
Definition best_of (obs : list EpochObs) (o : EpochObs) : Prop :=
  exists pre post,
    obs = pre ++ o :: post /\
    Forall (fun x => (eo_valid_acc x <= eo_valid_acc o)%Q) pre /\
    Forall (fun x => (eo_valid_acc x < eo_valid_acc o)%Q) post.





(** The invariant of the epoch loop in a directory that held no
    checkpoint when [train] was called: [e0] is the record of the
    epochs at that time, [done] the epochs run since. *)
Definition ckpt_inv (sp : string) (t0 : list FS) (e0 : list EpochObs)
    (done : list Z) (loc : Locals) (w : World) : Prop :=
  trace_ok sp t0 w /\
  exists obs,
    epoch_trace w = rev obs ++ e0 /\
    List.map eo_epoch obs = done /\
    match obs with
    | [] =>
        l_file_name loc = "" /\ l_best_acc loc = 0%Q /\
        pt_files sp (fs w) = []
    | _ :: _ =>
        exists o,
          best_of obs o /\
          l_best_acc loc = eo_valid_acc o /\
          l_file_name loc
          = checkpoint_name sp (eo_epoch o) (eo_test_acc o) /\
          pt_files sp (fs w) = [l_file_name loc] /\
          load_of (fs_lookup (l_file_name loc) (fs w))
          = Ok (checkpoint_record (eo_params o) (eo_epoch o))
    end.

End Assertions.

(** Characters of a decimal numeral: digits, and a leading minus. *)
Definition numeric (c : ascii) : bool :=
  match Str.digit_of c with Some _ => true | None => Ascii.eqb c "-" end.

Fixpoint all_numeric (s : string) : bool :=
  match s with
  | EmptyString => true
  | String c s' => numeric c && all_numeric s'
  end.

(** The specification has the loader pick the greatest file name: the
    greatest element of a list of names in the order of strings. *)
Definition lex_last (files : list string) : string :=
  fold_right (fun s m => if String.ltb m s then s else m) "" files.

(** A listing in which no name is followed by a smaller one. *)
Definition lex_sorted (files : list string) : Prop :=
  StronglySorted (fun a b => String.ltb b a = false) files.

(** ** Further assertions: extension, bounds and what is kept *)

Section MoreAssertions.

Context {F : Framework}.

(** [f'] holds every entry of [f], in the same order and with files
    grown by lines only, followed by entries that are new. *)
Definition fs_extends (f f' : FS) : Prop :=
  exists g new, f' = g ++ new /\ fs_grows f g.

(** The calls of the training criterion made since the trace was [t0]
    all had a tensor of ones, shaped like their labels, as target. *)
Definition tar_ones_since (t0 : list CritCall) (w : World) : Prop :=
  exists calls, crit_trace w = calls ++ t0 /\
                Forall (fun c => cc_tar c = Some (Tensor.ones_like (cc_label c)))
                  calls.

(** [m] only extends the file system, whether it returns or raises. *)
Definition extends {A} (m : M A) : Prop :=
  forall w, fs_extends (fs w) (fs (snd (m w))).

(** Since the trace of the file system was [t0], every file system
    the run went through, and the present one, holds at most [n]
    checkpoint files under [sp]. *)
Definition trace_bound (n : nat) (sp : string) (t0 : list FS) (w : World)
    : Prop :=
  (exists new, fs_trace w = new ++ t0 /\
               Forall (fun f => (length (pt_files sp f) <= n)%nat) new) /\
  (length (pt_files sp (fs w)) <= n)%nat.

(** The epochs evaluated since the record of the epochs was [e0] are
    [epochs], in this order. *)
Definition epochs_since (e0 : list EpochObs) (epochs : list Z) (w : World)
    : Prop :=
  exists obs, epoch_trace w = rev obs ++ e0 /\ List.map eo_epoch obs = epochs.

(** The invariant of the epoch loop in a directory that held [k]
    checkpoint files when [train] was called: while no file name is
    recorded there are at most [k], afterwards the recorded file is
    among at most [k + 1]. *)
Definition run_inv (sp : string) (k : nat) (t0 : list FS)
    (e0 : list EpochObs) (done : list Z) (loc : Locals) (w : World) : Prop :=
  trace_bound (S k) sp t0 w /\
  (if String.eqb (l_file_name loc) ""
   then (length (pt_files sp (fs w)) <= k)%nat
   else In (l_file_name loc) (pt_files sp (fs w))) /\
  epochs_since e0 done w.

(** What holds when the loop over the epochs [all] stops early. *)
Definition run_stopped (sp : string) (k : nat) (t0 : list FS)
    (e0 : list EpochObs) (all : list Z) (w : World) : Prop :=
  trace_bound (S k) sp t0 w /\
  exists n, epochs_since e0 (firstn n all) w.

(** The run directory of a fold (lines 78-82) and the two handlers
    [get_logger] attaches for it. *)
Definition run_dir (args : Args) (fold : Z) : string :=
  (a_name args +:+ "-" +:+ a_loss args) +:+ "/" +:+ a_dataset args
    +:+ "/" +:+ Str.of_Z fold.



(** The path [p] is in [f'] what it was in [f]: absent, a directory,
    or a file grown by lines only. *)
Definition kept_at (p : string) (f f' : FS) : Prop :=
  match fs_lookup p f, fs_lookup p f' with
  | Some n, Some n' => node_grows n n'
  | None, None => True
  | _, _ => False
  end.

(** Every path that is no checkpoint file of [sp] is kept. *)
Definition others_kept (sp : string) (f f' : FS) : Prop :=
  forall p, is_pt_in sp p = false -> kept_at p f f'.

(** The invariant of the epoch loop on the paths outside the
    checkpoint files of [sp]: the file name recorded is empty or that
    of a checkpoint file of [sp]. *)
Definition others_inv (sp : string) (f0 : FS) (loc : Locals) (w : World)
    : Prop :=
  others_kept sp f0 (fs w) /\
  (l_file_name loc = "" \/ is_pt_in sp (l_file_name loc) = true).


(** Every checkpoint file of [sp] that is in [f] is in [f'], as a
    file that differs by lines added at its end at most. *)
Definition checkpoints_kept (sp : string) (f f' : FS) : Prop :=
  forall p n,
    is_pt_in sp p = true -> fs_lookup p f = Some n ->
    exists n', fs_lookup p f' = Some n' /\ node_grows n n'.

End MoreAssertions.
(** * Properties *)

(** ** AverageMeter *)

Module AverageMeterFacts.
Import AverageMeter.




End AverageMeterFacts.



(** ** The dataset adapter *)

Lemma py_index_raises {A} (l : list A) (idx : Z) (e : exn) :
  py_index l idx = Raise e -> e = IndexError.
Proof.
  unfold py_index.
  destruct (_ && _); [destruct (nth_error _ _)|]; congruence.
Qed.

Lemma py_index_nil {A} (idx : Z) : py_index (@nil A) idx = Raise IndexError.
Proof.
  unfold py_index.
  destruct (_ && _); [destruct (Z.to_nat _)|]; reflexivity.
Qed.

(** C8, as stated, fails: on a freshly constructed instance item access
    raises an index error, not an attribute error. *)
Lemma C8_fresh_getitem_counterexample :
  MData.getitem (MData.init "MASS" "train" "ALL" 21) 0 = Raise IndexError /\
  MData.getitem (MData.init "MASS" "train" "ALL" 21) 0 <> Raise AttributeError.
Proof. split; [reflexivity | discriminate]. Qed.

(** C8 (amended).  On a freshly constructed instance item access raises
    an index error for every index: line 54 indexes the empty [data]
    list before [transformations] is read.  On any instance whose
    [transformations] attribute was never assigned, item access returns
    for no index, and it raises the attribute error exactly when both
    lists hold an item at the index. *)
Theorem C8_getitem_never_returns :
  (forall (dataset mode channel : string) (seed idx : Z),
     MData.getitem (MData.init dataset mode channel seed) idx
     = Raise IndexError) /\
  (forall (self : MData.t) (idx : Z),
     MData.transformations self = Unset ->
     (exists e, MData.getitem self idx = Raise e) /\
     (MData.getitem self idx = Raise AttributeError <->
      exists s l, py_index (MData.data self) idx = Ok s /\
                  py_index (MData.label self) idx = Ok l)).
Proof.
  split.
  - intros. unfold MData.getitem, MData.init. simpl.
    now rewrite py_index_nil.
  - intros self idx Hun. unfold MData.getitem. rewrite Hun.
    destruct (py_index (MData.data self) idx) as [s|e1] eqn:E1; simpl.
    + destruct (py_index (MData.label self) idx) as [l|e2] eqn:E2; simpl.
      * split; [eauto|]. split; [eauto | reflexivity].
      * apply py_index_raises in E2. subst e2.
        split; [eauto|]. split; [discriminate|].
        intros (s' & l' & _ & H). discriminate.
    + apply py_index_raises in E1. subst e1.
      split; [eauto|]. split; [discriminate|].
      intros (s' & l' & H & _). discriminate.
Qed.

(** An instance whose lists were filled by hand: the attribute error
    of line 56 at index 0, the index error at index 5. *)
Lemma C8_getitem_never_returns_witness :
  let self := MData.mk [[[1; 2]; [3; 4]]%Q] [1] Unset in
  MData.getitem self 0 = Raise AttributeError /\
  (exists e, MData.getitem self 5 = Raise e).
Proof.
  intros self.
  destruct C8_getitem_never_returns as [_ H].
  split.
  - apply (H self 0 eq_refl). exists [[1; 2]; [3; 4]]%Q, 1. split; reflexivity.
  - apply (H self 5 eq_refl).
Defined.

(** ** The monad of the script *)

Section MonadFacts.

Context {F : Framework}.

Lemma bindM_run {A B} (m : M A) (k : A -> M B) (w : World) :
  bindM m k w =
  match m w with
  | (Ok a, w') => k a w'
  | (Raise e, w') => (Raise e, w')
  end.
Proof. reflexivity. Qed.

Section Keeps.
Context {B : Type} (proj : World -> B).

Lemma keeps_ret {A} (a : A) : keeps proj (ret a).
Proof. intros w. reflexivity. Qed.

Lemma keeps_raise {A} (e : exn) : keeps proj (@raise F A e).
Proof. intros w. reflexivity. Qed.

Lemma keeps_lift {A} (r : result A) : keeps proj (lift r).
Proof. intros w. reflexivity. Qed.

Lemma keeps_gets {A} (f : World -> A) : keeps proj (gets f).
Proof. intros w. reflexivity. Qed.

Lemma keeps_modify (f : World -> World) :
  (forall w, proj (f w) = proj w) -> keeps proj (modify f).
Proof. intros H w. apply H. Qed.

Lemma keeps_bind {A C} (m : M A) (k : A -> M C) :
  keeps proj m -> (forall a, keeps proj (k a)) -> keeps proj (bindM m k).
Proof.
  intros Hm Hk w. unfold bindM. specialize (Hm w).
  destruct (m w) as [[a|e] w']; simpl in *.
  - now rewrite Hk.
  - exact Hm.
Qed.

Lemma keeps_for_M {X S} (l : list X) (body : X -> S -> M S) :
  (forall x s, keeps proj (body x s)) ->
  forall s, keeps proj (for_M l body s).
Proof.
  intros Hb. induction l as [|x l IH]; intros s; simpl.
  - apply keeps_ret.
  - apply keeps_bind; [apply Hb | exact IH].
Qed.

End Keeps.

Lemma hoare_bind {A C} (P : World -> Prop) (m : M A) (k : A -> M C)
    (R : A -> World -> Prop) (Q : C -> World -> Prop) (E : World -> Prop) :
  hoare P m R E -> (forall a, hoare (R a) (k a) Q E) ->
  hoare P (bindM m k) Q E.
Proof.
  intros Hm Hk w HP. unfold bindM. specialize (Hm w HP).
  destruct (m w) as [[a|e] w']; [now apply Hk | exact Hm].
Qed.

Lemma hoare_ret {A} (P : World -> Prop) (a : A) (Q : A -> World -> Prop)
    (E : World -> Prop) :
  (forall w, P w -> Q a w) -> hoare P (ret a) Q E.
Proof. intros H w HP. now apply H. Qed.

(** The rule of the [for] loop: an invariant over the elements done so
    far and the loop-carried variables. *)
Lemma hoare_for_M {X S} (body : X -> S -> M S)
    (I : list X -> S -> World -> Prop) (E : World -> Prop) (l : list X) :
  (forall done x s,
      (exists rest, l = done ++ x :: rest) ->
      hoare (I done s) (body x s) (fun s' => I (done ++ [x]) s') E) ->
  forall s, hoare (I [] s) (for_M l body s) (fun s' => I l s') E.
Proof.
  intros Hbody.
  assert (H : forall rest done s, l = done ++ rest ->
            hoare (I done s) (for_M rest body s) (fun s' => I l s') E).
  { induction rest as [|x rest IH]; intros done s Hl.
    - rewrite app_nil_r in Hl. subst done. simpl.
      apply hoare_ret. auto.
    - simpl. eapply hoare_bind.
      + apply Hbody. eauto.
      + intros s'. apply IH. rewrite <- app_assoc. exact Hl. }
  intros s. now apply (H l []).
Qed.

End MonadFacts.

(** Steps through a computation to show that it keeps a part of the
    world: binds, loops, case distinctions, and the primitives. *)
Ltac keeps_step :=
  match goal with
  | |- keeps _ (ret _) => apply keeps_ret
  | |- keeps _ (raise _) => apply keeps_raise
  | |- keeps _ (lift _) => apply keeps_lift
  | |- keeps _ (gets _) => apply keeps_gets
  | |- keeps _ (modify _) => apply keeps_modify; intros; reflexivity
  | |- keeps _ (bindM _ _) => apply keeps_bind; [|intros]
  | |- keeps _ (for_M _ _ _) => apply keeps_for_M; intros
  | |- keeps _ (match ?x with _ => _ end) => destruct x
  | |- keeps _ (let (_, _) := ?x in _) => destruct x
  end.

Ltac keeps_tac := repeat keeps_step.

(** ** The file system and logging *)

Section FileSystemFacts.

Context {F : Framework}.

Lemma node_grows_refl (n : node) : node_grows n n.
Proof.
  destruct n as [|c]; simpl; [exact I|].
  exists []. now rewrite app_nil_r.
Qed.

Lemma node_grows_trans (a b c : node) :
  node_grows a b -> node_grows b c -> node_grows a c.
Proof.
  destruct a, b, c; simpl; try tauto.
  intros (l1 & -> & H1) (l2 & -> & H2). exists (l1 ++ l2).
  rewrite app_assoc. split; [reflexivity|].
  rewrite forallb_app. now rewrite H1, H2.
Qed.

Lemma fs_grows_refl (f : FS) : fs_grows f f.
Proof.
  induction f; constructor; auto. split; [reflexivity | apply node_grows_refl].
Qed.

Lemma fs_grows_trans (f g h : FS) :
  fs_grows f g -> fs_grows g h -> fs_grows f h.
Proof.
  intros H. revert h. induction H as [|a b f g [Hk Hn] _ IH]; intros h Hh.
  - inversion Hh. constructor.
  - inversion Hh as [|b' c g' h' [Hk' Hn'] Hgh]; subst. constructor.
    + split; [congruence | eapply node_grows_trans; eauto].
    + now apply IH.
Qed.

Lemma fs_grows_paths (f g : FS) :
  fs_grows f g -> List.map fst f = List.map fst g.
Proof. induction 1 as [|a b f g [Hk _] _ IH]; simpl; congruence. Qed.

Lemma fs_grows_pt_files (pth : string) (f g : FS) :
  fs_grows f g -> pt_files pth g = pt_files pth f.
Proof. intros H. unfold pt_files. now rewrite (fs_grows_paths f g H). Qed.

Lemma fs_grows_lookup (p : string) (f g : FS) :
  fs_grows f g ->
  match fs_lookup p f, fs_lookup p g with
  | Some n, Some n' => node_grows n n'
  | None, None => True
  | _, _ => False
  end.
Proof.
  induction 1 as [|[q n] [q' n'] f g [Hk Hn] _ IH]; simpl; [exact I|].
  simpl in Hk, Hn. subst q'. destruct (String.eqb q p); assumption.
Qed.

Lemma node_grows_load (n n' : node) :
  node_grows n n' -> load_of (Some n') = load_of (Some n).
Proof.
  destruct n as [|c], n' as [|c']; simpl; try tauto.
  intros (ls & -> & Hls). destruct c as [|[l|d] c]; simpl; try reflexivity.
  destruct ls as [|[l|d] ls]; simpl in *; try reflexivity. discriminate.
Qed.

Lemma fs_grows_load (p : string) (f g : FS) :
  fs_grows f g -> load_of (fs_lookup p g) = load_of (fs_lookup p f).
Proof.
  intros H. pose proof (fs_grows_lookup p f g H) as L.
  destruct (fs_lookup p f), (fs_lookup p g); try tauto.
  now apply node_grows_load.
Qed.

(** Appending lines to an existing file. *)
Lemma fs_write_grows (p : string) (c ls : list chunk) (f : FS) :
  fs_lookup p f = Some (File c) ->
  forallb is_line ls = true ->
  fs_grows f (fs_write p (File (c ++ ls)) f).
Proof.
  intros Hl Hls. induction f as [|[q n] f IH]; simpl in *; [discriminate|].
  destruct (String.eqb q p) eqn:E.
  - injection Hl as ->. apply String.eqb_eq in E. subst q. constructor.
    + split; [reflexivity|]. simpl. eauto.
    + apply fs_grows_refl.
  - constructor; [split; [reflexivity | apply node_grows_refl]|]. now apply IH.
Qed.

Lemma logged_refl (w : World) : logged w w.
Proof.
  unfold logged. repeat split; try reflexivity; [apply fs_grows_refl|].
  exists []. split; [reflexivity | constructor].
Qed.

Lemma logged_trans (a b c : World) : logged a b -> logged b c -> logged a c.
Proof.
  unfold logged.
  intros (G1 & ? & ? & ? & ? & ? & ? & ? & n1 & T1 & A1)
         (G2 & ? & ? & ? & ? & ? & ? & ? & n2 & T2 & A2).
  repeat split; try congruence; [eapply fs_grows_trans; eauto|].
  exists (n2 ++ n1). split; [rewrite T2, T1; now rewrite app_assoc|].
  apply Forall_app. split; [|exact A1].
  eapply List.Forall_impl; [|exact A2]. intros g Hg. eapply fs_grows_trans; eauto.
Qed.

Lemma emit_logged (l : LogLine) (h : Handler) (w : World) :
  exists w', emit l h tt w = (Ok tt, w') /\ logged w w'.
Proof.
  destruct h as [|p]; simpl.
  - eexists. split; [reflexivity|].
    unfold logged. simpl. repeat split; try reflexivity; [apply fs_grows_refl|].
    exists []. split; [reflexivity | constructor].
  - unfold bindM, gets. simpl.
    destruct (fs_lookup p (fs w)) as [[|c]|] eqn:E;
      try (eexists; split; [reflexivity | apply logged_refl]).
    eexists. split; [reflexivity|].
    assert (G : fs_grows (fs w) (fs_write p (File (c ++ [Line l])) (fs w)))
      by (apply fs_write_grows; auto).
    unfold logged. simpl. repeat split; try reflexivity; [exact G|].
    exists [fs_write p (File (c ++ [Line l])) (fs w)].
    split; [reflexivity | now constructor].
Qed.

Lemma logger_info_logged (name : string) (msg : Msg) (w : World) :
  exists w', logger_info name msg w = (Ok tt, w') /\ logged w w'.
Proof.
  unfold logger_info, bindM, gets. simpl.
  generalize (match loggers w !! name with Some hs => hs | None => [] end).
  intros hs. revert w. induction hs as [|h hs IH]; intros w; simpl.
  - eexists. split; [reflexivity | apply logged_refl].
  - unfold bindM.
    destruct (emit_logged {| ll_name := name; ll_msg := msg |} h w)
      as (w1 & -> & L1).
    destruct (IH w1) as (w2 & -> & L2).
    eexists. split; [reflexivity | eapply logged_trans; eauto].
Qed.

Lemma global_logger_info_run (msg : Msg) (w : World) :
  match g_logger w with
  | None => global_logger_info msg w = (Raise NameError, w)
  | Some _ => exists w', global_logger_info msg w = (Ok tt, w') /\ logged w w'
  end.
Proof.
  unfold global_logger_info, bindM, gets. simpl.
  destruct (g_logger w) as [name|]; [apply logger_info_logged | reflexivity].
Qed.

Lemma torch_load_run (p : string) (w : World) :
  torch_load p w = (load_of (fs_lookup p (fs w)), w).
Proof.
  unfold torch_load, bindM, gets. simpl.
  destruct (fs_lookup p (fs w)) as [[|[|[l|d] c]]|]; reflexivity.
Qed.

End FileSystemFacts.

(** ** The checkpoint loader *)

Lemma py_int_raises (s : string) (e : exn) :
  Str.py_int s = Raise e -> e = ValueError.
Proof.
  unfold Str.py_int.
  match goal with |- context [match ?r with Some _ => _ | None => _ end] =>
    destruct r end; congruence.
Qed.

Section GetModelFacts.

Context {F : Framework}.

(** The value [get_model] returns is [get_model_result]: logging, the
    only effect between the listing and the load, leaves the listing
    and the first object of every file as they were. *)
Lemma get_model_fst (args : Args) (pth : string) (w : World) :
  fst (get_model args pth w) = get_model_result args pth w.
Proof.
  unfold get_model, get_model_result.
  rewrite bindM_run. unfold gets at 1. cbv beta iota.
  destruct (init_params (rng w)) as [p g'] eqn:Ei. simpl fst.
  rewrite bindM_run. unfold modify at 1. cbv beta iota.
  rewrite bindM_run. unfold glob_pt. rewrite bindM_run.
  unfold gets at 1, ret at 1. cbv beta iota.
  change (fs (set_rng g' w)) with (fs w).
  destruct (if a_resume args then resume_file (pt_files pth (fs w)) else None)
    as [file|]; [|reflexivity].
  rewrite bindM_run. unfold lift at 1.
  destruct (file_epoch file) as [e|err]; [|reflexivity]. simpl rbind.
  rewrite bindM_run.
  pose proof (global_logger_info_run (MsgLoad file (e + 1 - 1)) (set_rng g' w))
    as Hlog. simpl g_logger in Hlog.
  destruct (g_logger w) as [name|].
  - destruct Hlog as (w1 & -> & L). simpl rbind.
    rewrite bindM_run, torch_load_run.
    destruct L as (G & _). simpl fs in G.
    rewrite (fs_grows_load file _ _ G).
    destruct (load_of (fs_lookup file (fs w))) as [d|err]; [|reflexivity].
    simpl rbind. destruct (d !! "model") as [[sd|z]|]; reflexivity.
  - rewrite Hlog. reflexivity.
Qed.

Lemma map_records_paths g (f : FS) :
  List.map fst (map_records g f) = List.map fst f.
Proof. unfold map_records. rewrite List.map_map. reflexivity. Qed.

Lemma map_records_lookup g (p : string) (f : FS) :
  fs_lookup p (map_records g f) = option_map (map_node (g p)) (fs_lookup p f).
Proof.
  induction f as [|[q n] f IH]; simpl; [reflexivity|].
  destruct (String.eqb q p) eqn:E; [|exact IH].
  apply String.eqb_eq in E. now subst q.
Qed.

Lemma load_of_map_node h (n : option node) :
  load_of (option_map (map_node h) n) =
  match load_of n with Ok d => Ok (h d) | Raise e => Raise e end.
Proof. destruct n as [[|[|[l|d] c]]|]; reflexivity. Qed.

Lemma last_strongly_sorted (x : string) (l : list string) :
  lex_sorted (x :: l) -> String.ltb (List.last (x :: l) "") x = false.
Proof.
  intros H. apply StronglySorted_inv in H as [_ H].
  destruct l as [|y l]; simpl.
  - unfold String.ltb. pose proof (String.compare_antisym x x) as A.
    destruct (String.compare x x); simpl in A; congruence.
  - rewrite List.Forall_forall in H. apply H.
    change (In (List.last (y :: l) "") (y :: l)).
    clear. revert y. induction l as [|z l IH]; intros y; simpl; [auto|].
    right. apply IH.
Qed.

Lemma lex_last_sorted (l : list string) :
  l <> [] -> lex_sorted l -> lex_last l = List.last l "".
Proof.
  induction l as [|x l IH]; intros Hne Hs; [congruence|].
  destruct l as [|y l].
  - simpl. unfold String.ltb. destruct x; reflexivity.
  - change (lex_last (x :: y :: l))
      with (if String.ltb (lex_last (y :: l)) x then x else lex_last (y :: l)).
    pose proof (last_strongly_sorted x (y :: l) Hs) as Hx.
    apply StronglySorted_inv in Hs as [Hs _].
    rewrite IH by (congruence || assumption).
    change (List.last (x :: y :: l) "") with (List.last (y :: l) "") in *.
    now rewrite Hx.
Qed.

End GetModelFacts.

(** C2, as stated, fails: with the listing of [Toy.world_two] the name
    that is last in the order of strings is [d/9-50.0000.pt], of epoch 9,
    and the loader resumes at epoch 11, from the file the listing ends
    with. *)
Lemma C2_lexicographic_counterexample :
  let files := pt_files "d" (fs Toy.world_two) in
  a_resume (Toy.args2 "cos") = true /\
  files = ["d/9-50.0000.pt"; "d/10-60.0000.pt"] /\
  lex_last files = "d/9-50.0000.pt" /\
  file_epoch (lex_last files) = Ok 9 /\
  fst (get_model (Toy.args2 "cos") "d" Toy.world_two)
  = Ok (Toy.model 8 true, 11) /\
  11 <> 9 + 1.
Proof. vm_compute. repeat split; congruence. Qed.

(** C2 (amended).  With resume requested and at least one match, the
    loader takes the last element of the list [glob] returned (the
    listing order of the directory, which is the greatest name only when
    that listing is sorted), reads the epoch as the integer before the
    first dash of its base name, and returns that epoch plus one with the
    parameters stored under ['model']; a prefix that is no integer raises
    [ValueError].  Without resume or without a match it returns epoch 0
    and the freshly initialised parameters. *)
Theorem C2_get_model_resume {F : Framework}
    (args : Args) (pth : string) (w : World) :
  let files := pt_files pth (fs w) in
  let file := List.last files "" in
  let fresh := {| params := fst (init_params (rng w)); training := true |} in
  (a_resume args = true -> files <> [] ->
     (forall e name d sd,
        Str.py_int (Str.before_first "-" (Str.basename file)) = Ok e ->
        g_logger w = Some name ->
        load_of (fs_lookup file (fs w)) = Ok d ->
        d !! "model" = Some (VState sd) ->
        fst (get_model args pth w) = Ok (load_state_dict fresh sd, e + 1)) /\
     (forall err,
        Str.py_int (Str.before_first "-" (Str.basename file)) = Raise err ->
        fst (get_model args pth w) = Raise ValueError) /\
     (lex_sorted files -> file = lex_last files)) /\
  (a_resume args = false \/ files = [] ->
     fst (get_model args pth w) = Ok (fresh, 0)).
Proof.
  intros files file fresh. rewrite get_model_fst. unfold get_model_result.
  fold files. split.
  - intros Hr Hne. rewrite Hr. unfold resume_file.
    destruct files as [|f0 fl] eqn:Ef; [congruence|].
    fold file. unfold file_epoch. repeat split.
    + intros e name d sd He Hg Hd Hm.
      rewrite He, Hg, Hd. simpl. now rewrite Hm.
    + intros err He. rewrite He. simpl.
      apply py_int_raises in He. now subst err.
    + intros Hs. symmetry. now apply lex_last_sorted.
  - intros [Hr | He].
    + now rewrite Hr.
    + rewrite He. destruct (a_resume args); reflexivity.
Qed.

(** Resuming in [Toy.world_two]: the last listed file is
    [d/10-60.0000.pt], the run resumes at epoch 11 with its parameters. *)
Lemma C2_get_model_resume_witness :
  fst (get_model (Toy.args2 "cos") "d" Toy.world_two)
  = Ok (Toy.model 8 true, 10 + 1).
Proof.
  destruct (C2_get_model_resume (Toy.args2 "cos") "d" Toy.world_two)
    as [H _].
  destruct (H eq_refl ltac:(discriminate)) as (H1 & _ & _).
  apply (H1 10 "21" (checkpoint_record (F := Toy.framework) 8%Z 10) 8%Z);
    reflexivity.
Defined.

(** C9.  The value the loader returns does not change when the records
    stored in the files are rewritten in any way that leaves their
    ['model'] entry alone (in particular when their ['epoch'] entry is
    changed or dropped); and on a resume the epoch it returns is the
    integer before the first dash of the file's base name, plus one. *)
Theorem C9_epoch_entry_not_read {F : Framework}
    (args : Args) (pth : string) (w : World)
    (g : string -> gmap string Value -> gmap string Value) :
  (forall p d, g p d !! "model" = d !! "model") ->
  fst (get_model args pth (with_fs (map_records g (fs w)) w))
  = fst (get_model args pth w) /\
  (forall m start_epoch,
     a_resume args = true ->
     pt_files pth (fs w) <> [] ->
     fst (get_model args pth w) = Ok (m, start_epoch) ->
     Str.py_int (Str.before_first "-"
                   (Str.basename (List.last (pt_files pth (fs w)) "")))
     = Ok (start_epoch - 1)).
Proof.
  intros Hg. rewrite !get_model_fst. unfold get_model_result. split.
  - simpl. unfold pt_files at 1. rewrite map_records_paths.
    fold (pt_files pth (fs w)).
    destruct (if a_resume args then resume_file (pt_files pth (fs w)) else None)
      as [file|]; [|reflexivity].
    destruct (file_epoch file) as [e|err]; [|reflexivity]. simpl.
    destruct (g_logger w); [|reflexivity]. simpl.
    rewrite map_records_lookup, load_of_map_node.
    destruct (load_of (fs_lookup file (fs w))) as [d|err]; [|reflexivity].
    simpl. now rewrite Hg.
  - intros m se Hr Hne. rewrite Hr. unfold resume_file.
    destruct (pt_files pth (fs w)) as [|f0 fl] eqn:Ef; [congruence|].
    unfold file_epoch.
    destruct (Str.py_int _) as [e|err]; [|discriminate]. simpl.
    destruct (g_logger w); [|discriminate]. simpl.
    destruct (load_of _) as [d|err]; [|discriminate]. simpl.
    destruct (d !! "model") as [[sd|z]|]; try discriminate.
    intros H. injection H as _ <-. f_equal. lia.
  Qed.

(** In [Toy.world_two], with every stored epoch overwritten by 999. *)
Lemma C9_epoch_entry_not_read_witness :
  let g := fun (_ : string) (d : gmap string (@Value Toy.framework)) =>
             <["epoch" := VInt 999]> d in
  fst (get_model (Toy.args2 "cos") "d"
         (with_fs (map_records g (fs Toy.world_two)) Toy.world_two))
  = Ok (Toy.model 8 true, 11) /\
  Str.py_int (Str.before_first "-" (Str.basename "d/10-60.0000.pt")) = Ok (11 - 1).
Proof.
  intros g.
  destruct (C9_epoch_entry_not_read (Toy.args2 "cos") "d" Toy.world_two g)
    as [H1 H2].
  - intros p d. unfold g. now rewrite lookup_insert_ne.
  - split.
    + rewrite H1. reflexivity.
    + apply (H2 (Toy.model 8 true) 11); [reflexivity | discriminate | reflexivity].
Defined.

(** ** The evaluation routine *)

Section TestFacts.

Context {F : Framework}.

Lemma count_eq_nonneg (pred target : list Z) : 0 <= Tensor.count_eq pred target.
Proof.
  revert target. induction pred as [|p pred IH]; intros [|t target]; simpl;
    try lia.
  specialize (IH target). destruct (p =? t); lia.
Qed.

(** With a count that is not negative, the update of line 106 returns. *)
Lemma update_one (m : AverageMeter.t) (loss : Q) :
  (0 <= AverageMeter.count m)%Q ->
  AverageMeter.update m loss 1 =
  Ok (AverageMeter.mk loss
        ((AverageMeter.sum m + loss * 1) / (AverageMeter.count m + 1))
        (AverageMeter.sum m + loss * 1) (AverageMeter.count m + 1)).
Proof.
  intros Hc. unfold AverageMeter.update.
  destruct (Qeq_bool (AverageMeter.count m + 1) 0) eqn:E; [|reflexivity].
  apply Qeq_bool_iff in E. lra.
Qed.

(** One pass of the loop body against the per-batch evaluation. *)
Lemma test_batch_eval (model : Model) (ds : Dataset) (idxs : list nat)
    (m : AverageMeter.t) (c : Z) :
  training model = false ->
  (0 <= AverageMeter.count m)%Q ->
  test_batch model ds idxs (m, c) =
  match batch_eval (params model) ds idxs with
  | Ok (loss, k) =>
      Ok (AverageMeter.mk loss
            ((AverageMeter.sum m + loss * 1) / (AverageMeter.count m + 1))
            (AverageMeter.sum m + loss * 1) (AverageMeter.count m + 1),
          c + k)
  | Raise e => Raise e
  end.
Proof.
  intros Ht Hc. unfold test_batch, batch_eval. rewrite Ht.
  destruct (fetch ds idxs) as [[data target]|e]; [|reflexivity]. simpl.
  destruct (Tensor.channel 0 data) as [eeg|e]; [|reflexivity]. simpl.
  destruct (Tensor.channel 1 data) as [eog|e]; [|reflexivity]. simpl.
  destruct (forward (params model) false eog eeg) as [[[[c1 c2] o1] o2]|e];
    [|reflexivity]. simpl.
  destruct (Tensor.add c1 c2) as [cout|e]; [|reflexivity]. simpl.
  destruct (cross_entropy cout target) as [loss|e]; [|reflexivity]. simpl.
  rewrite (update_one m loss Hc). simpl.
  destruct (Tensor.argmax cout) as [pred|e]; reflexivity.
Qed.

Lemma batch_eval_correct_nonneg (p : Params) (ds : Dataset) (idxs : list nat)
    (loss : Q) (k : Z) :
  batch_eval p ds idxs = Ok (loss, k) -> 0 <= k.
Proof.
  unfold batch_eval.
  destruct (fetch ds idxs) as [[data target]|e]; [|discriminate]. simpl.
  destruct (Tensor.channel 0 data) as [eeg|e]; [|discriminate]. simpl.
  destruct (Tensor.channel 1 data) as [eog|e]; [|discriminate]. simpl.
  destruct (forward p false eog eeg) as [[[[c1 c2] o1] o2]|e];
    [|discriminate]. simpl.
  destruct (Tensor.add c1 c2) as [cout|e]; [|discriminate]. simpl.
  destruct (cross_entropy cout target) as [l|e]; [|discriminate]. simpl.
  destruct (Tensor.argmax cout) as [pred|e]; [|discriminate]. simpl.
  intros H. injection H as _ <-. apply count_eq_nonneg.
Qed.

(** The invariant of the loop of lines 99-108. *)
Lemma test_loop (model : Model) (ds : Dataset) (bs : list (list nat)) :
  training model = false ->
  forall (m : AverageMeter.t) (c : Z),
  (0 <= AverageMeter.count m)%Q ->
  match rfor bs (test_batch model ds) (m, c),
        rmapM (batch_eval (params model) ds) bs with
  | Ok (m', c'), Ok rs =>
      (AverageMeter.sum m' == AverageMeter.sum m + Qsum (List.map fst rs))%Q /\
      (AverageMeter.count m'
       == AverageMeter.count m + inject_Z (Z.of_nat (length rs)))%Q /\
      c' = c + Zsum (List.map snd rs) /\
      0 <= Zsum (List.map snd rs) /\
      (bs = [] -> m' = m) /\
      (bs <> [] ->
       AverageMeter.avg m' == AverageMeter.sum m' / AverageMeter.count m')%Q
  | Raise e, Raise e' => e = e'
  | _, _ => False
  end.
Proof.
  intros Ht. induction bs as [|b bs IH]; intros m c Hc.
  - simpl. repeat split; try ring; try lia. congruence.
  - simpl. rewrite (test_batch_eval model ds b m c Ht Hc).
    destruct (batch_eval (params model) ds b) as [[loss k]|e] eqn:Eb;
      [|reflexivity]. simpl.
    pose proof (batch_eval_correct_nonneg _ _ _ _ _ Eb) as Hk.
    set (m1 := AverageMeter.mk _ _ _ _).
    assert (Hc1 : (0 <= AverageMeter.count m1)%Q) by (simpl; lra).
    specialize (IH m1 (c + k) Hc1).
    destruct (rfor bs (test_batch model ds) (m1, c + k)) as [[m' c']|e];
      destruct (rmapM (batch_eval (params model) ds) bs) as [rs|e'];
      simpl; try assumption; try contradiction.
    destruct IH as (Hs & Hn & Hcor & Hpos & Hnil & Havg). simpl in Hs, Hn.
    split; [rewrite Hs; unfold Qsum; simpl; ring|].
    split.
    { rewrite Hn. rewrite Nat2Z.inj_succ. unfold Z.succ.
      rewrite inject_Z_plus. ring. }
    split; [unfold Zsum in *; simpl; lia|].
    split; [unfold Zsum in *; simpl; lia|].
    split; [congruence|].
    intros _. destruct bs as [|b' bs].
    + rewrite (Hnil eq_refl). reflexivity.
    + apply Havg. congruence.
Qed.



Lemma seq_batches_nonempty (ld : DataLoader) :
  (0 < ds_len (dl_dataset ld))%nat -> seq_batches ld <> [].
Proof.
  unfold seq_batches, chunks. rewrite length_seq.
  destruct (ds_len (dl_dataset ld)) as [|n]; [lia|]. intros _. discriminate.
Qed.

(** [test] against [test_spec], for any loader. *)
Lemma test_refines (model : Model) (ld : DataLoader) :
  (0 < ds_len (dl_dataset ld))%nat ->
  match test model ld, test_spec (params model) ld with
  | Ok (m', (acc, loss)), Ok (acc', loss') =>
      (acc == acc')%Q /\ (loss == loss')%Q /\ (0 <= acc)%Q /\
      m' = Model_eval model
  | Raise e, Raise e' => e = e'
  | _, _ => False
  end.
Proof.
  intros Hlen. unfold test, test_spec.
  pose proof (test_loop (Model_eval model) (dl_dataset ld) (seq_batches ld)
                eq_refl AverageMeter.init 0) as L.
  simpl in L. specialize (L ltac:(lra)).
  destruct (rfor _ _ _) as [[m' c']|e];
    destruct (rmapM _ _) as [rs|e']; simpl; try assumption;
    try contradiction.
  destruct L as (Hs & Hn & Hc & Hpos & _ & Havg).
  destruct (Nat.eqb_spec (ds_len (dl_dataset ld)) 0) as [E|_]; [lia|].
  subst c'. simpl. split; [reflexivity|]. split.
  - rewrite (Havg (seq_batches_nonempty ld Hlen)), Hs, Hn.
    unfold Qdiv. now rewrite !Qplus_0_l.
  - split; [|reflexivity].
    apply Qle_shift_div_l.
    + change 0%Q with (inject_Z 0). rewrite <- Zlt_Qlt. lia.
    + rewrite Qmult_0_l. 
      change 0%Q with (100 * inject_Z 0)%Q.
      apply Qmult_le_l; [reflexivity|]. rewrite <- Zle_Qle. lia.
Qed.

(** The accuracy [test] returns is not negative. *)
Lemma test_acc_nonneg (model m' : Model) (ld : DataLoader) (acc loss : Q) :
  test model ld = Ok (m', (acc, loss)) -> (0 <= acc)%Q.
Proof.
  unfold test.
  destruct (rfor _ _ _) as [[m1 c1]|e] eqn:E; [|discriminate]. simpl.
  destruct (Nat.eqb_spec (ds_len (dl_dataset ld)) 0) as [E0|E0]; [discriminate|].
  pose proof (test_refines model ld ltac:(lia)) as R.
  unfold test in R. rewrite E in R. simpl in R.
  destruct (Nat.eqb_spec (ds_len (dl_dataset ld)) 0) as [E1|_]; [lia|].
  intros H. injection H as _ <- _.
  destruct (test_spec _ _) as [[a l]|e]; [|contradiction].
  tauto.
Qed.


End TestFacts.





(** ** What each routine leaves alone *)

Section Frames.

Context {F : Framework}.

Ltac unfold_prims :=
  unfold global_logger_info, logger_info, emit, get_logger, open_append,
    global_fold, glob_pt, torch_load, torch_save, os_remove, os_mkdir,
    os_path_exists, check_parent, put_fs, dict_get, ghost_crit,
    ghost_epoch, ghost_event.





(** The training pass touches neither the file system nor the record
    of the epochs. *)
Lemma train_pass_keeps_files args criterion dataset train_loader loc :
  keeps (fun w => (fs w, fs_trace w, epoch_trace w))
    (train_pass args criterion dataset train_loader loc).
Proof.
  unfold train_pass, train_batch. unfold_prims. keeps_tac.
Qed.

(** Outside the batch loop nothing writes the record of the criterion
    calls. *)
Lemma checkpoint_step_keeps_crit save_path epoch valid_acc test_acc loc :
  keeps crit_trace (checkpoint_step save_path epoch valid_acc test_acc loc).
Proof. unfold checkpoint_step. unfold_prims. keeps_tac. Qed.

Lemma global_logger_info_keeps_crit msg :
  keeps crit_trace (global_logger_info msg).
Proof. unfold_prims. keeps_tac. Qed.

End Frames.

(** ** The target argument of the training criterion *)

Section TarFacts.

Context {F : Framework}.

(** One pass of the batch loop outside the ['cos'] mode: the variable
    [tar] stays [None] and is what the criterion is called with. *)
Lemma train_batch_tar args criterion ds idxs loc correct t0 :
  a_loss args <> "cos" ->
  l_tar loc = None ->
  hoare (tar_none_since t0)
    (train_batch args criterion ds idxs (loc, correct))
    (fun st w => tar_none_since t0 w /\ l_tar (fst st) = None)
    (tar_none_since t0).
Proof.
  intros Hloss Htar w HP. unfold train_batch.
  apply String.eqb_neq in Hloss. rewrite Hloss, Htar.
  unfold bindM, lift, ghost_crit, gets, modify, ret.
  destruct (fetch ds idxs) as [[data label]|e]; [|exact HP].
  destruct (Tensor.channel 0 data) as [eeg|e]; [|exact HP].
  destruct (Tensor.channel 1 data) as [eog|e]; [|exact HP].
  destruct (forward _ _ eog eeg) as [[[[c1 c2] o1] o2]|e]; [|exact HP].
  assert (HP' : tar_none_since t0
                  (set_crit_trace
                     ({| cc_label := label; cc_tar := None |} :: crit_trace w) w)).
  { destruct HP as (calls & Hc & Hall). unfold tar_none_since. simpl.
    exists ({| cc_label := label; cc_tar := None |} :: calls).
    split; [now rewrite Hc | now constructor]. }
  destruct (muti_loss _ _ _ _ _ _ _ _) as [loss|e]; [|exact HP'].
  destruct (optim_step _ _ _ _ _ _ _) as [opt p].
  destruct (Tensor.argmax c1) as [pred|e]; [|exact HP'].
  destruct (AverageMeter.update _ _ _) as [meter|e]; [|exact HP'].
  split; [exact HP' | reflexivity].
Qed.

Lemma train_pass_tar args criterion dataset train_loader loc t0 :
  a_loss args <> "cos" ->
  l_tar loc = None ->
  hoare (tar_none_since t0)
    (train_pass args criterion dataset train_loader loc)
    (fun r w => tar_none_since t0 w /\ l_tar (fst r) = None)
    (tar_none_since t0).
Proof.
  intros Hloss Htar w HP. unfold train_pass.
  rewrite bindM_run. unfold gets at 1. cbv beta iota.
  destruct (randperm _ _) as [perm g'].
  rewrite bindM_run. unfold modify at 1. cbv beta iota.
  rewrite bindM_run.
  pose proof (hoare_for_M
                (train_batch args criterion (dl_dataset train_loader))
                (fun _ st w => tar_none_since t0 w /\ l_tar (fst st) = None)
                (tar_none_since t0)
                (chunks (dl_batch_size train_loader) perm)) as Hloop.
  match goal with
  | |- context [for_M _ _ ?s0 ?w0] =>
      specialize (fun Hb => Hloop Hb s0 w0); set (run := for_M _ _ s0 w0) in *
  end.
  assert (Hrun : match run with
                 | (Ok st, w') => tar_none_since t0 w' /\ l_tar (fst st) = None
                 | (Raise _, w') => tar_none_since t0 w'
                 end).
  { apply Hloop.
    - intros done x [loc' c'] _ w1 [HP1 Ht1].
      now apply (train_batch_tar args criterion _ x loc' c' t0 Hloss Ht1).
    - split; [exact HP | exact Htar]. }
  clearbody run. clear Hloop.
  destruct run as [[[loc1 correct]|e] w1]; [|exact Hrun].
  destruct Hrun as [HP1 Ht1]. simpl in Ht1.
  unfold dict_get, bindM, ret, raise.
  destruct (dataset !! "train"); [|exact HP1].
  destruct (Nat.eqb _ 0); [exact HP1|].
  split; assumption.
Qed.

Lemma checkpoint_step_tar save_path epoch valid_acc test_acc loc w :
  match checkpoint_step save_path epoch valid_acc test_acc loc w with
  | (Ok loc', _) => l_tar loc' = l_tar loc
  | (Raise _, _) => True
  end.
Proof.
  unfold checkpoint_step.
  destruct (Qle_bool _ _); [|reflexivity].
  rewrite bindM_run.
  match goal with |- context [match ?m w with _ => _ end] =>
    destruct (m w) as [[[]|e] w1] end; [|exact I].
  rewrite bindM_run.
  destruct (torch_save _ _ w1) as [[[]|e] w2]; [reflexivity | exact I].
Qed.

Lemma train_epoch_tar args criterion dataset l1 l2 l3 save_path epoch loc t0 :
  a_loss args <> "cos" ->
  l_tar loc = None ->
  hoare (tar_none_since t0)
    (train_epoch args criterion dataset l1 l2 l3 save_path epoch loc)
    (fun loc' w => tar_none_since t0 w /\ l_tar loc' = None)
    (tar_none_since t0).
Proof.
  intros Hloss Htar w HP. unfold train_epoch.
  rewrite bindM_run.
  pose proof (train_pass_tar args criterion dataset l1 loc t0 Hloss Htar w HP)
    as Hp.
  destruct (train_pass _ _ _ _ _ w) as [[[loc1 acc]|e] w1]; [|exact Hp].
  destruct Hp as [HP1 Ht1]. simpl in Ht1.
  rewrite bindM_run. unfold lift at 1.
  destruct (test (l_model loc1) l2) as [[m2 [va vl]]|e]; [|exact HP1].
  rewrite bindM_run. unfold lift at 1.
  destruct (test _ l3) as [[m3 [ta tl]]|e]; [|exact HP1].
  rewrite bindM_run. unfold ghost_epoch at 1, bindM at 1, gets, modify.
  cbv beta iota.
  rewrite bindM_run.
  match goal with
  | |- context [checkpoint_step ?a ?b ?c ?d ?l ?w0] =>
      pose proof (checkpoint_step_tar a b c d l w0) as Hck;
      pose proof (checkpoint_step_keeps_crit a b c d l w0) as Hkc;
      destruct (checkpoint_step a b c d l w0) as [[loc2|e] w2]
  end; simpl in Hkc.
  2:{ unfold tar_none_since in *. now rewrite Hkc. }
  rewrite bindM_run.
  match goal with
  | |- context [global_logger_info ?m w2] =>
      pose proof (global_logger_info_keeps_crit m w2) as Hkl;
      destruct (global_logger_info m w2) as [[[]|e] w3]
  end; simpl in Hkl; unfold ret, tar_none_since in *; rewrite Hkl, Hkc.
  - split; [exact HP1|]. rewrite Hck. exact Ht1.
  - exact HP1.
Qed.

Lemma train_tar model dataset args save_path start_epoch w :
  a_loss args <> "cos" ->
  tar_none_since (crit_trace w)
    (snd (train model dataset args save_path start_epoch w)).
Proof.
  intros Hloss. set (t0 := crit_trace w).
  assert (HP : tar_none_since t0 w).
  { exists []. split; [reflexivity | constructor]. }
  clearbody t0. unfold train.
  unfold dict_get at 1. rewrite bindM_run.
  destruct (dataset !! "train") as [train_ds|]; [|exact HP].
  unfold ret at 1. rewrite bindM_run. unfold lift at 1.
  destruct (DataLoader_new train_ds _) as [l1|e]; [|exact HP].
  unfold dict_get at 1. rewrite bindM_run.
  destruct (dataset !! "valid") as [valid_ds|]; [|exact HP].
  unfold ret at 1. rewrite bindM_run. unfold lift at 1.
  destruct (DataLoader_new valid_ds _) as [l2|e]; [|exact HP].
  unfold dict_get at 1. rewrite bindM_run.
  destruct (dataset !! "test") as [test_ds|]; [|exact HP].
  unfold ret at 1. rewrite bindM_run. unfold lift at 1.
  destruct (DataLoader_new test_ds _) as [l3|e]; [|exact HP].
  rewrite bindM_run. unfold lift at 1.
  destruct (MutiLoss _ _ _) as [criterion|e]; [|exact HP].
  rewrite bindM_run.
  match goal with
  | |- context [global_logger_info ?m w] =>
      pose proof (global_logger_info_keeps_crit m w) as Hkl;
      destruct (global_logger_info m w) as [[[]|e] w1]
  end; simpl in Hkl.
  2:{ unfold tar_none_since in *. simpl. now rewrite Hkl. }
  assert (HP1 : tar_none_since t0 w1).
  { unfold tar_none_since in *. now rewrite Hkl. }
  rewrite bindM_run. unfold lift at 1.
  destruct (Adam _ _) as [optimizer|e]; [|exact HP1].
  rewrite bindM_run.
  match goal with
  | |- context [for_M ?l ?body ?s0 w1] =>
      pose proof (hoare_for_M body
                    (fun _ loc w => tar_none_since t0 w /\ l_tar loc = None)
                    (tar_none_since t0) l) as Hloop;
      specialize (fun Hb => Hloop Hb s0 w1);
      destruct (for_M l body s0 w1) as [[loc'|e] w2]
  end.
  - apply Hloop; [|split; [exact HP1 | reflexivity]].
    intros done x loc1 _ w' [HPw Ht].
    now apply train_epoch_tar.
  - apply Hloop; [|split; [exact HP1 | reflexivity]].
    intros done x loc1 _ w' [HPw Ht].
    now apply train_epoch_tar.
Qed.

End TarFacts.

(** C10.  In a run whose loss mode is not ['cos'], every call of the
    training criterion, in every batch of every epoch, is made with
    [None] as its target argument: the calls recorded during [train] all
    carry [None]. *)
Theorem C10_tar_is_none_outside_cos {F : Framework}
    (model : Model) (dataset : gmap string Dataset) (args : Args)
    (save_path : string) (start_epoch : Z) (w : World) :
  a_loss args <> "cos" ->
  exists calls,
    crit_trace (snd (train model dataset args save_path start_epoch w))
    = calls ++ crit_trace w /\
    Forall (fun c => cc_tar c = None) calls.
Proof. intros Hloss. now apply train_tar. Qed.

(** Two epochs over the three toy examples in batches of two, in mode
    ['l2']: four calls, each with [None]. *)
Lemma C10_tar_is_none_outside_cos_witness :
  exists calls,
    crit_trace (snd (train (Toy.model 0 true) Toy.datasets (Toy.args2 "l2")
                       "d" 0 Toy.world0))
    = calls ++ [] /\
    length calls = 4%nat /\
    Forall (fun c => cc_tar c = None) calls.
Proof.
  destruct (C10_tar_is_none_outside_cos (Toy.model 0 true) Toy.datasets
              (Toy.args2 "l2") "d" 0 Toy.world0) as (calls & Hc & Hall).
  - discriminate.
  - exists calls. split; [exact Hc|]. split; [|exact Hall].
    rewrite app_nil_r in Hc. rewrite <- Hc. vm_compute. reflexivity.
Defined.


(** ** Names of checkpoint files *)

Section NameFacts.

Lemma sapp_assoc (a b c : string) : (a +:+ b) +:+ c = a +:+ (b +:+ c).
Proof.
  induction a as [|x a IH]; [reflexivity|].
  change (String x ((a +:+ b) +:+ c) = String x (a +:+ (b +:+ c))).
  now rewrite IH.
Qed.

Lemma contains_app (c : ascii) (a b : string) :
  Str.contains c (a +:+ b) = Str.contains c a || Str.contains c b.
Proof.
  induction a as [|x a IH]; simpl; [reflexivity|].
  rewrite IH. now rewrite orb_assoc.
Qed.

Lemma ends_with_app (suf a : string) : Str.ends_with suf (a +:+ suf) = true.
Proof.
  induction a as [|x a IH]; simpl.
  - destruct suf; simpl; rewrite ?String.eqb_refl, ?Ascii.eqb_refl; reflexivity.
  - rewrite IH. apply orb_true_r.
Qed.

Lemma dirname_app (sp rest : string) :
  Str.contains "/" rest = false ->
  Str.dirname (sp +:+ "/" +:+ rest) = sp.
Proof.
  intros Hr. induction sp as [|x sp IH].
  - change (Str.dirname (String "/" rest) = "").
    simpl. now rewrite Hr.
  - change (Str.dirname (String x (sp +:+ "/" +:+ rest)) = String x sp).
    simpl. rewrite contains_app.
    change (Str.contains "/" ("/" +:+ rest)) with true.
    rewrite orb_true_r. now rewrite IH.
Qed.

Lemma uint_numeric (d : Decimal.uint) :
  all_numeric (NilEmpty.string_of_uint d) = true.
Proof. induction d; simpl; auto. Qed.

Lemma of_Z_numeric (z : Z) :
  all_numeric (Str.of_Z z) = true /\ Str.of_Z z <> "".
Proof.
  unfold Str.of_Z, NilZero.string_of_int, NilZero.string_of_uint.
  destruct (Z.to_int z) as [d|d]; destruct d; simpl;
    try (split; [apply uint_numeric || reflexivity | discriminate]).
Qed.

Lemma numeric_contains (c : ascii) (s : string) :
  numeric c = false -> all_numeric s = true -> Str.contains c s = false.
Proof.
  intros Hc. induction s as [|x s IH]; simpl; [reflexivity|].
  intros H. apply andb_true_iff in H as [Hx Hs].
  rewrite (IH Hs), orb_false_r.
  destruct (Ascii.eqb_spec x c); [congruence | reflexivity].
Qed.

Lemma zeros_contains (n : nat) : Str.contains "/" (Str.zeros n) = false.
Proof. induction n; simpl; auto. Qed.

Lemma format_4f_no_slash (q : Q) : Str.contains "/" (Str.format_4f q) = false.
Proof.
  unfold Str.format_4f, Str.zfill. rewrite !contains_app.
  rewrite zeros_contains.
  rewrite !(numeric_contains "/" (Str.of_Z _)) by
    (reflexivity || apply of_Z_numeric).
  destruct (Qle_bool 0 q); reflexivity.
Qed.

Lemma strip_prefix_same (p r : string) : Str.strip_prefix p (p +:+ r) = Some r.
Proof.
  induction p as [|x p IH]; [reflexivity|].
  change (String x p +:+ r) with (String x (p +:+ r)). simpl.
  now rewrite Ascii.eqb_refl.
Qed.

(** The part of a checkpoint name after the directory. *)
Lemma checkpoint_base_ok (epoch : Z) (test_acc : Q) :
  let base := Str.of_Z epoch +:+ "-" +:+ Str.format_4f test_acc +:+ ".pt" in
  Str.contains "/" base = false /\
  Str.ends_with ".pt" base = true /\
  Str.starts_with "." base = false.
Proof.
  intros base. unfold base. repeat split.
  - rewrite !contains_app, format_4f_no_slash.
    rewrite (numeric_contains "/" (Str.of_Z epoch)) by
      (reflexivity || apply of_Z_numeric).
    reflexivity.
  - rewrite <- !sapp_assoc. apply ends_with_app.
  - destruct (of_Z_numeric epoch) as [Hn Hne].
    destruct (Str.of_Z epoch) as [|c s]; [congruence|].
    simpl in Hn. apply andb_true_iff in Hn as [Hc _].
    change (String c s +:+ ?x) with (String c (s +:+ x)).
    unfold Str.starts_with. cbn [Str.strip_prefix].
    destruct (Ascii.eqb_spec "." c) as [<-|_]; [discriminate | reflexivity].
Qed.

End NameFacts.

Section CheckpointNames.

Context {F : Framework}.

Lemma checkpoint_name_split (sp : string) (epoch : Z) (test_acc : Q) :
  checkpoint_name sp epoch test_acc
  = (sp +:+ "/")
      +:+ (Str.of_Z epoch +:+ "-" +:+ Str.format_4f test_acc +:+ ".pt").
Proof. unfold checkpoint_name. now rewrite sapp_assoc. Qed.

Lemma checkpoint_name_is_pt (sp : string) (epoch : Z) (test_acc : Q) :
  is_pt_in sp (checkpoint_name sp epoch test_acc) = true.
Proof.
  rewrite checkpoint_name_split. unfold is_pt_in.
  rewrite strip_prefix_same.
  destruct (checkpoint_base_ok epoch test_acc) as (H1 & H2 & H3).
  now rewrite H1, H2, H3.
Qed.


Lemma checkpoint_name_nonempty (sp : string) (epoch : Z) (test_acc : Q) :
  String.eqb (checkpoint_name sp epoch test_acc) "" = false.
Proof.
  unfold checkpoint_name. destruct sp; reflexivity.
Qed.

Lemma checkpoint_record_entries (p : Params) (epoch : Z) :
  checkpoint_record p epoch !! "model" = Some (VState p) /\
  checkpoint_record p epoch !! "epoch" = Some (VInt epoch).
Proof.
  unfold checkpoint_record. split.
  - apply lookup_insert_eq.
  - rewrite lookup_insert_ne by discriminate. apply lookup_insert_eq.
Qed.

End CheckpointNames.


(** ** Writing and removing files *)

Section FileChanges.

Context {F : Framework}.

Lemma fs_exists_in (p : string) (f : FS) :
  fs_exists p f = true <-> In p (List.map fst f).
Proof.
  unfold fs_exists. induction f as [|[q n] f IH]; simpl.
  - split; [discriminate | tauto].
  - destruct (String.eqb_spec q p) as [->|Hne].
    + split; auto.
    + rewrite IH. split; [auto | intros [H|H]; [congruence | exact H]].
Qed.

Lemma fs_write_paths (p : string) (n : node) (f : FS) :
  List.map fst (fs_write p n f) =
  if fs_exists p f then List.map fst f else List.map fst f ++ [p].
Proof.
  unfold fs_exists. induction f as [|[q m] f IH]; simpl; [reflexivity|].
  destruct (String.eqb_spec q p) as [->|Hne]; simpl; [reflexivity|].
  rewrite IH. destruct (fs_lookup p f); reflexivity.
Qed.

Lemma fs_lookup_write_same (p : string) (n : node) (f : FS) :
  fs_lookup p (fs_write p n f) = Some n.
Proof.
  induction f as [|[q m] f IH]; simpl.
  - now rewrite String.eqb_refl.
  - destruct (String.eqb q p) eqn:E; simpl.
    + now rewrite String.eqb_refl.
    + now rewrite E.
Qed.

Lemma fs_lookup_write_other (p q : string) (n : node) (f : FS) :
  q <> p -> fs_lookup q (fs_write p n f) = fs_lookup q f.
Proof.
  intros Hne. induction f as [|[r m] f IH]; simpl.
  - destruct (String.eqb_spec p q); [congruence | reflexivity].
  - destruct (String.eqb_spec r p) as [->|Hrp]; simpl.
    + destruct (String.eqb_spec p q); [congruence | reflexivity].
    + now rewrite IH.
Qed.

Lemma fs_remove_paths (p : string) (f : FS) :
  List.map fst (fs_remove p f) =
  List.filter (fun q => negb (String.eqb q p)) (List.map fst f).
Proof.
  unfold fs_remove. induction f as [|[q m] f IH]; simpl; [reflexivity|].
  destruct (String.eqb q p); simpl; now rewrite IH.
Qed.

Lemma fs_lookup_remove_other (p q : string) (f : FS) :
  q <> p -> fs_lookup q (fs_remove p f) = fs_lookup q f.
Proof.
  intros Hne. unfold fs_remove. induction f as [|[r m] f IH]; simpl; [reflexivity|].
  destruct (String.eqb_spec r p) as [->|Hrp]; simpl.
  - destruct (String.eqb_spec p q); [congruence | exact IH].
  - now rewrite IH.
Qed.

Lemma filter_comm {A} (P Q : A -> bool) (l : list A) :
  List.filter P (List.filter Q l) = List.filter Q (List.filter P l).
Proof.
  induction l as [|x l IH]; simpl; [reflexivity|].
  destruct (P x) eqn:EP, (Q x) eqn:EQ; simpl; rewrite ?EP, ?EQ, IH; reflexivity.
Qed.

Lemma pt_files_remove (sp p : string) (f : FS) :
  pt_files sp (fs_remove p f) =
  List.filter (fun q => negb (String.eqb q p)) (pt_files sp f).
Proof. unfold pt_files. rewrite fs_remove_paths. apply filter_comm. Qed.

Lemma pt_files_in (sp p : string) (f : FS) :
  is_pt_in sp p = true -> fs_exists p f = true -> In p (pt_files sp f).
Proof.
  intros Hp He. unfold pt_files. apply List.filter_In.
  split; [now apply fs_exists_in | exact Hp].
Qed.

(** Saving a new checkpoint into a directory that holds none. *)
Lemma pt_files_write_first (sp p : string) (n : node) (f : FS) :
  is_pt_in sp p = true -> pt_files sp f = [] ->
  pt_files sp (fs_write p n f) = [p].
Proof.
  intros Hp He. unfold pt_files. rewrite fs_write_paths.
  destruct (fs_exists p f) eqn:Ex.
  - pose proof (pt_files_in sp p f Hp Ex) as Hin. rewrite He in Hin.
    destruct Hin.
  - rewrite List.filter_app. fold (pt_files sp f). rewrite He. simpl.
    now rewrite Hp.
Qed.

Lemma os_remove_run (p : string) (w : World) :
  os_remove p w =
  match fs_lookup p (fs w) with
  | None => (Raise FileNotFoundError, w)
  | Some Dir => (Raise IsADirectoryError, w)
  | Some (File _) => (Ok tt, set_fs (fs_remove p (fs w)) w)
  end.
Proof.
  unfold os_remove, bindM, gets.
  destruct (fs_lookup p (fs w)) as [[|c]|]; reflexivity.
Qed.

Lemma check_parent_world (p : string) (w : World) :
  snd (check_parent p w) = w.
Proof.
  unfold check_parent. destruct (String.eqb _ ""); [reflexivity|].
  unfold bindM, gets. destruct (fs_lookup _ _) as [[|c]|]; reflexivity.
Qed.


Lemma torch_save_run (d : gmap string Value) (p : string) (w : World) :
  (exists e, torch_save d p w = (Raise e, w)) \/
  torch_save d p w = (Ok tt, set_fs (fs_write p (File [Obj d]) (fs w)) w).
Proof.
  unfold torch_save. rewrite bindM_run.
  pose proof (check_parent_world p w) as Hw.
  destruct (check_parent p w) as [[[]|e] w1]; simpl in Hw; subst w1.
  - unfold bindM, gets.
    destruct (fs_lookup p (fs w)) as [[|c]|]; [left; eauto | right .. ];
      reflexivity.
  - left. eauto.
Qed.


End FileChanges.

(** ** The checkpoint decision *)

Section CheckpointStep.

Context {F : Framework}.

Lemma fs_lookup_remove_same (p : string) (f : FS) :
  fs_lookup p (fs_remove p f) = None.
Proof.
  unfold fs_remove. induction f as [|[r m] f IH]; simpl; [reflexivity|].
  destruct (String.eqb r p) eqn:E; simpl; [exact IH|]. now rewrite E.
Qed.

(** The deletion of the previous file (lines 182-183), as a function of
    the world. *)
Lemma removal_run (old : string) (w : World) :
  (if negb (String.eqb old "") then
     let! ex := os_path_exists old in
     if ex then os_remove old else ret tt
   else ret tt) w =
  if String.eqb old "" then (Ok tt, w)
  else
    match fs_lookup old (fs w) with
    | None => (Ok tt, w)
    | Some Dir => (Raise IsADirectoryError, w)
    | Some (File _) => (Ok tt, set_fs (fs_remove old (fs w)) w)
    end.
Proof.
  destruct (String.eqb old ""); simpl; [reflexivity|].
  unfold os_path_exists, bindM, gets, ret, fs_exists.
  pose proof (os_remove_run old w) as Hr.
  destruct (fs_lookup old (fs w)) as [[|c]|]; [exact Hr | exact Hr | reflexivity].
Qed.

Lemma Qle_bool_false (a b : Q) : Qle_bool a b = false -> (b < a)%Q.
Proof.
  intros H. apply Qnot_le_lt. intros Hle.
  apply Qle_bool_iff in Hle. congruence.
Qed.

End CheckpointStep.

(** ** A single checkpoint file *)

Section SingleCheckpoint.

Context {F : Framework}.

Lemma checkpoint_step_run save_path epoch valid_acc test_acc loc w :
  Qle_bool (l_best_acc loc) valid_acc = true ->
  checkpoint_step save_path epoch valid_acc test_acc loc w =
  let (r, w1) :=
    (if String.eqb (l_file_name loc) "" then (Ok tt, w)
     else
       match fs_lookup (l_file_name loc) (fs w) with
       | None => (Ok tt, w)
       | Some Dir => (Raise IsADirectoryError, w)
       | Some (File _) =>
           (Ok tt, set_fs (fs_remove (l_file_name loc) (fs w)) w)
       end) in
  match r with
  | Ok _ =>
      let (r2, w2) :=
        torch_save (checkpoint_record (params (l_model loc)) epoch)
          (checkpoint_name save_path epoch test_acc) w1 in
      match r2 with
      | Ok _ =>
          (Ok (with_best valid_acc
                 (checkpoint_name save_path epoch test_acc) loc), w2)
      | Raise e => (Raise e, w2)
      end
  | Raise e => (Raise e, w1)
  end.
Proof.
  intros Hle. unfold checkpoint_step. rewrite Hle. rewrite bindM_run.
  rewrite (removal_run (l_file_name loc) w).
  destruct (if String.eqb (l_file_name loc) "" then _ else _) as [[[]|e] w1];
    [|reflexivity].
  rewrite bindM_run.
  destruct (torch_save _ _ w1) as [[[]|e] w2]; reflexivity.
Qed.

Lemma load_of_Ok (n : option node) (d : gmap string Value) :
  load_of n = Ok d -> exists c, n = Some (File (Obj d :: c)).
Proof.
  destruct n as [[|[|[l|d'] c]]|]; simpl; try discriminate.
  intros H. injection H as ->. eauto.
Qed.

Lemma train_batch_locals args criterion ds idxs loc correct w :
  match train_batch args criterion ds idxs (loc, correct) w with
  | (Ok (loc', _), _) =>
      l_best_acc loc' = l_best_acc loc /\ l_file_name loc' = l_file_name loc
  | (Raise _, _) => True
  end.
Proof.
  unfold train_batch, bindM, lift, ghost_crit, gets, modify, ret.
  destruct (fetch ds idxs) as [[data label]|e]; [|exact I].
  destruct (Tensor.channel 0 data) as [eeg|e]; [|exact I].
  destruct (Tensor.channel 1 data) as [eog|e]; [|exact I].
  destruct (forward _ _ eog eeg) as [[[[c1 c2] o1] o2]|e]; [|exact I].
  destruct (muti_loss _ _ _ _ _ _ _ _) as [loss|e]; [|exact I].
  destruct (optim_step _ _ _ _ _ _ _) as [opt p].
  destruct (Tensor.argmax c1) as [pred|e]; [|exact I].
  destruct (AverageMeter.update _ _ _) as [meter|e]; [|exact I].
  split; reflexivity.
Qed.

Lemma train_pass_locals args criterion dataset train_loader loc w :
  match train_pass args criterion dataset train_loader loc w with
  | (Ok (loc', _), _) =>
      l_best_acc loc' = l_best_acc loc /\ l_file_name loc' = l_file_name loc
  | (Raise _, _) => True
  end.
Proof.
  unfold train_pass.
  rewrite bindM_run. unfold gets at 1. cbv beta iota.
  destruct (randperm _ _) as [perm g'].
  rewrite bindM_run. unfold modify at 1. cbv beta iota.
  rewrite bindM_run.
  pose proof (hoare_for_M
                (train_batch args criterion (dl_dataset train_loader))
                (fun _ st _ =>
                   l_best_acc (fst st) = l_best_acc loc /\
                   l_file_name (fst st) = l_file_name loc)
                (fun _ => True)
                (chunks (dl_batch_size train_loader) perm)) as Hloop.
  match goal with
  | |- context [for_M _ _ ?s0 ?w0] =>
      specialize (fun Hb => Hloop Hb s0 w0); set (run := for_M _ _ s0 w0) in *
  end.
  assert (Hrun : match run with
                 | (Ok st, _) =>
                     l_best_acc (fst st) = l_best_acc loc /\
                     l_file_name (fst st) = l_file_name loc
                 | (Raise _, _) => True
                 end).
  { apply Hloop; [|split; reflexivity].
    intros done x [loc' c'] _ w1 [Hb Hf].
    pose proof (train_batch_locals args criterion (dl_dataset train_loader)
                  x loc' c' w1) as Hs.
    destruct (train_batch _ _ _ _ _ w1) as [[[loc2 c2]|e] w2]; [|exact I].
    simpl in *. destruct Hs. split; congruence. }
  clearbody run. clear Hloop.
  destruct run as [[[loc1 correct]|e] w1]; [|exact I].
  unfold dict_get, bindM, ret, raise.
  destruct (dataset !! "train"); [|exact I].
  destruct (Nat.eqb _ 0); [exact I | exact Hrun].
Qed.

Lemma trace_ok_logged sp t0 w w' :
  logged w w' -> trace_ok sp t0 w -> trace_ok sp t0 w'.
Proof.
  intros (G & _ & _ & _ & _ & _ & _ & _ & new & Hn & Hall)
         [(old & Ho & Hold) Hlen].
  split.
  - exists (new ++ old). split; [rewrite Hn, Ho; now rewrite app_assoc|].
    apply Forall_app. split; [|exact Hold].
    eapply List.Forall_impl; [|exact Hall].
    intros f Hf. simpl. now rewrite (fs_grows_pt_files sp _ _ Hf).
  - now rewrite (fs_grows_pt_files sp _ _ G).
Qed.

Lemma ckpt_inv_logged sp t0 e0 done loc w w' :
  logged w w' -> ckpt_inv sp t0 e0 done loc w -> ckpt_inv sp t0 e0 done loc w'.
Proof.
  intros L [Ht (obs & He & Hd & Hm)].
  split; [now apply (trace_ok_logged sp t0 w w')|].
  pose proof L as (G & _ & _ & _ & _ & _ & Hep & _).
  exists obs. split; [congruence|]. split; [exact Hd|].
  rewrite (fs_grows_pt_files sp _ _ G).
  destruct obs as [|o1 obs']; [exact Hm|].
  destruct Hm as (o & Hb & H1 & H2 & H3 & H4).
  exists o. repeat split; try assumption.
  now rewrite (fs_grows_load _ _ _ G).
Qed.

(** Outside the checkpoint decision and the logging, the file system,
    its trace and the record of the epochs are what the invariant reads
    of the world, the best accuracy and the file name what it reads of
    the locals. *)
Lemma ckpt_inv_ext sp t0 e0 done loc w loc1 w1 :
  fs w1 = fs w -> fs_trace w1 = fs_trace w -> epoch_trace w1 = epoch_trace w ->
  l_best_acc loc1 = l_best_acc loc -> l_file_name loc1 = l_file_name loc ->
  ckpt_inv sp t0 e0 done loc w -> ckpt_inv sp t0 e0 done loc1 w1.
Proof.
  intros H1 H2 H3 H4 H5. unfold ckpt_inv, trace_ok.
  now rewrite H1, H2, H3, H4, H5.
Qed.

Lemma trace_ok_ext sp t0 w w1 :
  fs w1 = fs w -> fs_trace w1 = fs_trace w ->
  trace_ok sp t0 w -> trace_ok sp t0 w1.
Proof. intros H1 H2. unfold trace_ok. now rewrite H1, H2. Qed.

(** A change of the file system to one with at most one checkpoint. *)
Lemma trace_ok_set_fs sp t0 f w :
  (length (pt_files sp f) <= 1)%nat ->
  trace_ok sp t0 w -> trace_ok sp t0 (set_fs f w).
Proof.
  intros Hf [(new & Hn & Hall) _]. split; [|exact Hf].
  exists (f :: new). simpl. split; [now rewrite Hn | now constructor].
Qed.

Lemma best_of_later (obs : list EpochObs) (o o' : EpochObs) :
  best_of obs o -> (eo_valid_acc o' < eo_valid_acc o)%Q ->
  best_of (obs ++ [o']) o.
Proof.
  intros (pre & post & -> & Hpre & Hpost) Hlt.
  exists pre, (post ++ [o']). split; [now rewrite <- app_assoc|].
  split; [exact Hpre|]. apply Forall_app. split; [exact Hpost|].
  now constructor.
Qed.

Lemma best_of_new (obs : list EpochObs) (o o' : EpochObs) :
  best_of obs o -> (eo_valid_acc o <= eo_valid_acc o')%Q ->
  best_of (obs ++ [o']) o'.
Proof.
  intros (pre & post & -> & Hpre & Hpost) Hle.
  exists (pre ++ o :: post), []. split; [reflexivity|].
  split; [|constructor].
  apply Forall_app. split.
  - eapply List.Forall_impl; [|exact Hpre]. intros x Hx. simpl in *. lra.
  - constructor; [exact Hle|].
    eapply List.Forall_impl; [|exact Hpost]. intros x Hx. simpl in *. lra.
Qed.

(** The checkpoint decision of an epoch, after its observation was
    recorded, re-establishes the invariant. *)
Lemma checkpoint_step_inv sp t0 e0 done epoch valid_acc test_acc loc w0 :
  (0 <= valid_acc)%Q ->
  ckpt_inv sp t0 e0 done loc w0 ->
  let o' := {| eo_epoch := epoch; eo_valid_acc := valid_acc;
               eo_test_acc := test_acc; eo_params := params (l_model loc);
               eo_best_before := l_best_acc loc |} in
  match checkpoint_step sp epoch valid_acc test_acc loc
          (set_epoch_trace (o' :: epoch_trace w0) w0) with
  | (Ok loc', w') => ckpt_inv sp t0 e0 (done ++ [epoch]) loc' w'
  | (Raise _, w') => trace_ok sp t0 w'
  end.
Proof.
  intros Hv [Ht (obs & He & Hd & Hm)] o'.
  set (w := set_epoch_trace (o' :: epoch_trace w0) w0).
  assert (Htw : trace_ok sp t0 w) by exact Ht.
  assert (Hew : forall f, epoch_trace (set_fs f w) = rev (obs ++ [o']) ++ e0).
  { intros f. simpl. rewrite He, rev_app_distr. reflexivity. }
  assert (Hdw : List.map eo_epoch (obs ++ [o']) = done ++ [epoch]).
  { rewrite List.map_app, Hd. reflexivity. }
  set (name := checkpoint_name sp epoch test_acc).
  set (record := checkpoint_record (params (l_model loc)) epoch).
  (* the world after a successful save into a directory without
     checkpoint *)
  assert (Hsave : forall w1 x,
             trace_ok sp t0 w1 ->
             epoch_trace w1 = rev (obs ++ [o']) ++ e0 ->
             pt_files sp (fs w1) = [] ->
             best_of (obs ++ [o']) o' ->
             obs ++ [o'] = x :: List.tl (obs ++ [o']) ->
             match (let (r2, w2) := torch_save record name w1 in
                    match r2 with
                    | Ok _ => (Ok (with_best valid_acc name loc), w2)
                    | Raise e => (Raise e, w2)
                    end) with
             | (Ok loc', w') => ckpt_inv sp t0 e0 (done ++ [epoch]) loc' w'
             | (Raise _, w') => trace_ok sp t0 w'
             end).
  { intros w1 x Ht1 He1 Hp1 Hbest Hcons.
    destruct (torch_save_run record name w1) as [[e ->] | ->]; [exact Ht1|].
    assert (Hpt : pt_files sp (fs_write name (File [Obj record]) (fs w1))
                  = [name]).
    { apply pt_files_write_first; [apply checkpoint_name_is_pt | exact Hp1]. }
    split.
    - apply trace_ok_set_fs; [|exact Ht1]. rewrite Hpt. simpl. lia.
    - exists (obs ++ [o']). split; [exact He1|]. split; [exact Hdw|].
      rewrite Hcons. exists o'. rewrite <- Hcons.
      split; [exact Hbest|]. simpl.
      split; [reflexivity|]. split; [reflexivity|].
      split; [exact Hpt|]. now rewrite fs_lookup_write_same. }
  destruct (Qle_bool (l_best_acc loc) valid_acc) eqn:Ele.
  - rewrite (checkpoint_step_run sp epoch valid_acc test_acc loc w Ele).
    fold name record.
    destruct obs as [|o1 obs1].
    + destruct Hm as (Hf & Hb & Hp). rewrite Hf. simpl String.eqb. cbv iota.
      apply (Hsave w o'); try assumption; try reflexivity.
      * now rewrite <- (Hew (fs w)).
      * exists [], []. repeat split; constructor.
    + destruct Hm as (o & Hbest & Hb & Hf & Hp & Hl).
      assert (Hne : String.eqb (l_file_name loc) "" = false)
        by (rewrite Hf; apply checkpoint_name_nonempty).
      rewrite Hne.
      destruct (load_of_Ok _ _ Hl) as [c Hc].
      change (fs w) with (fs w0). rewrite Hc.
      apply (Hsave (set_fs (fs_remove (l_file_name loc) (fs w0)) w) o1).
      * apply trace_ok_set_fs; [|exact Htw].
        rewrite pt_files_remove, Hp. simpl. rewrite String.eqb_refl. simpl. lia.
      * apply Hew.
      * simpl. rewrite pt_files_remove, Hp. simpl.
        now rewrite String.eqb_refl.
      * apply (best_of_new _ o o' Hbest). simpl. rewrite <- Hb.
        now apply Qle_bool_iff.
      * reflexivity.
  - assert (Hstep : checkpoint_step sp epoch valid_acc test_acc loc w
                    = (Ok loc, w)).
    { unfold checkpoint_step. now rewrite Ele. }
    rewrite Hstep. apply Qle_bool_false in Ele.
    destruct obs as [|o1 obs1].
    + destruct Hm as (_ & Hb & _). rewrite Hb in Ele. lra.
    + destruct Hm as (o & Hbest & Hb & Hf & Hp & Hl).
      split; [exact Htw|].
      exists ((o1 :: obs1) ++ [o']). split; [now rewrite <- (Hew (fs w))|].
      split; [exact Hdw|]. simpl app.
      exists o. split.
      * apply (best_of_later (o1 :: obs1) o o' Hbest). simpl. now rewrite <- Hb.
      * repeat split; assumption.
Qed.

(** One epoch re-establishes the invariant. *)
Lemma train_epoch_inv args criterion dataset l1 l2 l3 sp t0 e0 done epoch loc :
  hoare (ckpt_inv sp t0 e0 done loc)
    (train_epoch args criterion dataset l1 l2 l3 sp epoch loc)
    (fun loc' => ckpt_inv sp t0 e0 (done ++ [epoch]) loc')
    (trace_ok sp t0).
Proof.
  intros w Hinv. unfold train_epoch. rewrite bindM_run.
  pose proof (train_pass_keeps_files args criterion dataset l1 loc w) as Hk.
  pose proof (train_pass_locals args criterion dataset l1 loc w) as Hl.
  destruct (train_pass _ _ _ _ _ w) as [[[loc1 acc]|e] w1]; simpl in Hk.
  2:{ injection Hk as H1 H2 _. apply (trace_ok_ext sp t0 w w1 H1 H2).
      apply Hinv. }
  injection Hk as H1 H2 H3. destruct Hl as [Hb Hf].
  assert (Hinv1 : ckpt_inv sp t0 e0 done loc1 w1)
    by (apply (ckpt_inv_ext sp t0 e0 done loc w); assumption).
  clear Hinv H1 H2 H3 Hb Hf.
  rewrite bindM_run. unfold lift at 1.
  destruct (test (l_model loc1) l2) as [[m2 [va vl]]|e] eqn:Ev;
    [|apply Hinv1].
  apply test_acc_nonneg in Ev.
  rewrite bindM_run. unfold lift at 1.
  destruct (test _ l3) as [[m3 [ta tl]]|e]; [|apply Hinv1].
  rewrite bindM_run. unfold ghost_epoch at 1, bindM at 1, gets, modify.
  cbv beta iota.
  rewrite bindM_run.
  set (loc3 := with_model m3 (with_model m2 loc1)).
  assert (Hinv3 : ckpt_inv sp t0 e0 done loc3 w1)
    by (apply (ckpt_inv_ext sp t0 e0 done loc1 w1); auto).
  pose proof (checkpoint_step_inv sp t0 e0 done epoch va ta loc3 w1 Ev Hinv3)
    as Hstep.
  cbv zeta in Hstep.
  destruct (checkpoint_step sp epoch va ta loc3 _) as [[loc4|e] w4];
    [|exact Hstep].
  rewrite bindM_run.
  match goal with
  | |- context [global_logger_info ?m w4] =>
      pose proof (global_logger_info_run m w4) as Hlog
  end.
  destruct (g_logger w4).
  - destruct Hlog as (w5 & -> & L). unfold ret.
    now apply (ckpt_inv_logged sp t0 e0 _ loc4 w4 w5).
  - rewrite Hlog. apply Hstep.
Qed.

(** [train] in a directory without checkpoint. *)
Lemma train_inv model dataset args sp start_epoch w :
  pt_files sp (fs w) = [] ->
  match train model dataset args sp start_epoch w with
  | (Ok _, w') =>
      exists loc',
        ckpt_inv sp (fs_trace w) (epoch_trace w)
          (range start_epoch (a_epoch args)) loc' w'
  | (Raise _, w') => trace_ok sp (fs_trace w) w'
  end.
Proof.
  intros Hfresh.
  assert (HT : trace_ok sp (fs_trace w) w).
  { split; [|rewrite Hfresh; simpl; lia].
    exists []. split; [reflexivity | constructor]. }
  unfold train.
  unfold dict_get at 1. rewrite bindM_run.
  destruct (dataset !! "train") as [train_ds|]; [|exact HT].
  unfold ret at 1. rewrite bindM_run. unfold lift at 1.
  destruct (DataLoader_new train_ds _) as [l1|e]; [|exact HT].
  unfold dict_get at 1. rewrite bindM_run.
  destruct (dataset !! "valid") as [valid_ds|]; [|exact HT].
  unfold ret at 1. rewrite bindM_run. unfold lift at 1.
  destruct (DataLoader_new valid_ds _) as [l2|e]; [|exact HT].
  unfold dict_get at 1. rewrite bindM_run.
  destruct (dataset !! "test") as [test_ds|]; [|exact HT].
  unfold ret at 1. rewrite bindM_run. unfold lift at 1.
  destruct (DataLoader_new test_ds _) as [l3|e]; [|exact HT].
  rewrite bindM_run. unfold lift at 1.
  destruct (MutiLoss _ _ _) as [criterion|e]; [|exact HT].
  rewrite bindM_run.
  match goal with
  | |- context [global_logger_info ?m w] =>
      pose proof (global_logger_info_run m w) as Hlog
  end.
  destruct (g_logger w); [|rewrite Hlog; exact HT].
  destruct Hlog as (w1 & -> & L).
  rewrite bindM_run. unfold lift at 1.
  pose proof (trace_ok_logged sp _ w w1 L HT) as HT1.
  destruct (Adam _ _) as [optimizer|e]; [|exact HT1].
  rewrite bindM_run.
  match goal with
  | |- context [for_M ?l ?body ?s0 w1] =>
      pose proof (hoare_for_M body
                    (ckpt_inv sp (fs_trace w) (epoch_trace w))
                    (trace_ok sp (fs_trace w)) l) as Hloop;
      specialize (fun Hb => Hloop Hb s0 w1);
      assert (Hrun : match for_M l body s0 w1 with
                     | (Ok loc', w') =>
                         ckpt_inv sp (fs_trace w) (epoch_trace w) l loc' w'
                     | (Raise _, w') => trace_ok sp (fs_trace w) w'
                     end);
      [|destruct (for_M l body s0 w1) as [[loc'|e] w2]]
  end.
  - apply Hloop.
    + intros done x loc1 _. apply train_epoch_inv.
    + split; [exact HT1|]. exists [].
      destruct L as (G & _ & _ & _ & _ & _ & Hep & _).
      split; [exact Hep|]. split; [reflexivity|]. simpl.
      repeat split. now rewrite (fs_grows_pt_files sp _ _ G).
  - unfold ret. eauto.
  - exact Hrun.
Qed.

End SingleCheckpoint.

(** C1, as stated, fails on a resumed run.  A first run of one epoch in
    an empty directory leaves [d/0-100.0000.pt]; the loader then resumes
    at epoch 1; the resumed run saves [d/1-100.0000.pt] and does not
    delete the file it resumed from, whose name it never recorded: two
    checkpoint files. *)
Lemma C1_resumed_run_counterexample :
  let w1 := snd (train (Toy.model 0 true) Toy.datasets
                   (Toy.args_n 1 "cos") "d" 0 Toy.world0) in
  let r := get_model (Toy.args_n 2 "cos") "d" w1 in
  let r2 := train (Toy.model 2 true) Toy.datasets
              (Toy.args_n 2 "cos") "d" 1 (snd r) in
  pt_files "d" (fs w1) = ["d/0-100.0000.pt"] /\
  fst r = Ok (Toy.model 2 true, 1) /\
  fst r2 = Ok tt /\
  pt_files "d" (fs (snd r2)) = ["d/0-100.0000.pt"; "d/1-100.0000.pt"] /\
  ~ (length (pt_files "d" (fs (snd r2))) <= 1)%nat.
Proof. vm_compute. repeat split. lia. Qed.

(** C1 (amended).  When the fold directory holds no checkpoint file at
    the start of [train], every file system the run goes through, and
    the one it ends in, holds at most one checkpoint file in that
    directory, whether the run returns or raises.  When the run returns
    and had at least one epoch to run, exactly one checkpoint file is
    there; it is named after, and stores the epoch and parameters of,
    the epoch of the best validation accuracy among the epochs of this
    run, the later one on a tie. *)
Theorem C1_single_checkpoint_fresh_directory {F : Framework}
    (model : Model) (dataset : gmap string Dataset) (args : Args)
    (save_path : string) (start_epoch : Z) (w : World) :
  pt_files save_path (fs w) = [] ->
  let run := train model dataset args save_path start_epoch w in
  let w' := snd run in
  (exists new,
     fs_trace w' = new ++ fs_trace w /\
     Forall (fun f => (length (pt_files save_path f) <= 1)%nat) new) /\
  (length (pt_files save_path (fs w')) <= 1)%nat /\
  (fst run = Ok tt -> start_epoch < a_epoch args ->
   exists obs o,
     epoch_trace w' = rev obs ++ epoch_trace w /\
     List.map eo_epoch obs = range start_epoch (a_epoch args) /\
     best_of obs o /\
     pt_files save_path (fs w')
     = [checkpoint_name save_path (eo_epoch o) (eo_test_acc o)] /\
     load_of (fs_lookup (checkpoint_name save_path (eo_epoch o) (eo_test_acc o))
                (fs w'))
     = Ok (checkpoint_record (eo_params o) (eo_epoch o)) /\
     checkpoint_record (eo_params o) (eo_epoch o) !! "epoch"
     = Some (VInt (eo_epoch o))).
Proof.
  intros Hfresh run w'.
  pose proof (train_inv model dataset args save_path start_epoch w Hfresh) as H.
  fold run in H. unfold w'. destruct run as [[[]|e] w1]; simpl.
  - destruct H as (loc' & [Ht1 Ht2] & obs & He & Hd & Hm).
    split; [exact Ht1|]. split; [exact Ht2|].
    intros _ Hlt. destruct obs as [|o1 obs1].
    + exfalso. unfold range in Hd.
      destruct (Z.to_nat (a_epoch args - start_epoch)) eqn:En; [lia|].
      discriminate.
    + destruct Hm as (o & Hb & _ & Hf & Hp & Hl). rewrite Hf in *.
      exists (o1 :: obs1), o.
      split; [exact He|]. split; [exact Hd|]. split; [exact Hb|].
      split; [exact Hp|]. split; [exact Hl|].
      apply checkpoint_record_entries.
  - destruct H as [Ht1 Ht2]. split; [exact Ht1|]. split; [exact Ht2|].
    discriminate.
Qed.

(** Two epochs of the toy run in the empty directory [d]: both reach a
    validation accuracy of 200/3, the later one is kept. *)
Lemma C1_single_checkpoint_fresh_directory_witness :
  let w' := snd (train (Toy.model 0 true) Toy.datasets (Toy.args2 "cos")
                   "d" 0 Toy.world0) in
  (length (pt_files "d" (fs w')) <= 1)%nat /\
  exists (obs : list (@EpochObs Toy.framework)) o,
    List.map eo_epoch obs = [0; 1] /\
    best_of obs o /\
    pt_files "d" (fs w') = [checkpoint_name "d" (eo_epoch o) (eo_test_acc o)] /\
    pt_files "d" (fs w') = ["d/1-100.0000.pt"].
Proof.
  intros w'.
  destruct (C1_single_checkpoint_fresh_directory (Toy.model 0 true)
              Toy.datasets (Toy.args2 "cos") "d" 0 Toy.world0)
    as (_ & Hlen & Hone).
  - reflexivity.
  - split; [exact Hlen|].
    destruct Hone as (obs & o & _ & Hd & Hb & Hp & _).
    + vm_compute. reflexivity.
    + reflexivity.
    + exists obs, o. split; [exact Hd|]. split; [exact Hb|].
      split; [exact Hp|]. vm_compute. reflexivity.
Defined.

(** ** The best accuracy of a run *)

Section BestAccuracy.

Context {F : Framework}.





Lemma checkpoint_step_keeps_epochs save_path epoch valid_acc test_acc loc :
  keeps epoch_trace (checkpoint_step save_path epoch valid_acc test_acc loc).
Proof.
  unfold checkpoint_step, os_path_exists, os_remove, torch_save,
    check_parent, put_fs.
  keeps_tac.
Qed.




End BestAccuracy.



(** ** The fold loop *)

Section FoldLoop.

Context {F : Framework}.


Lemma range_In (a b f : Z) : In f (range a b) <-> a <= f < b.
Proof.
  unfold range. rewrite in_map_iff. split.
  - intros (i & <- & Hi). apply in_seq in Hi. lia.
  - intros H. exists (Z.to_nat (f - a)). split; [lia|].
    apply in_seq. lia.
Qed.

Lemma range_sorted (a b : Z) : StronglySorted Z.lt (range a b).
Proof.
  unfold range. generalize (Z.to_nat (b - a)) as n. generalize 0%nat as s.
  intros s n. revert s. induction n as [|n IH]; intros s; simpl.
  - constructor.
  - constructor; [apply IH|].
    apply List.Forall_forall. intros x Hx.
    apply in_map_iff in Hx as (i & <- & Hi). apply in_seq in Hi. lia.
Qed.

Lemma fs_lookup_app (p : string) (f g : FS) :
  fs_lookup p (f ++ g) =
  match fs_lookup p f with Some n => Some n | None => fs_lookup p g end.
Proof.
  induction f as [|[q n] f IH]; simpl; [reflexivity|].
  destruct (String.eqb q p); [reflexivity | exact IH].
Qed.

Lemma check_parent_inv (p : string) (w w' : World) :
  check_parent p w = (Ok tt, w') ->
  w' = w /\
  (Str.dirname p = "" \/ fs_lookup (Str.dirname p) (fs w) = Some Dir).
Proof.
  unfold check_parent.
  destruct (String.eqb_spec (Str.dirname p) "") as [E|E].
  - intros H. injection H as <-. auto.
  - unfold bindM, gets, ret, raise.
    destruct (fs_lookup _ _) as [[|c]|]; try discriminate.
    intros H. injection H as <-. auto.
Qed.

(** What opening the log file leaves: the directory of the file is a
    directory, the file is a regular file. *)
Lemma open_append_inv (d : string) (w w' : World) :
  d <> "" ->
  open_append (d +:+ "/" +:+ "log.txt") w = (Ok tt, w') ->
  fs_lookup d (fs w') = Some Dir /\
  (exists c, fs_lookup (d +:+ "/" +:+ "log.txt") (fs w') = Some (File c)) /\
  loggers w' = loggers w /\ g_fold w' = g_fold w.
Proof.
  intros Hd. unfold open_append. rewrite bindM_run.
  destruct (check_parent _ w) as [[[]|e] w1] eqn:Ec; [|discriminate].
  apply check_parent_inv in Ec as [-> Hp].
  rewrite (dirname_app d "log.txt" eq_refl) in Hp.
  destruct Hp as [Hp|Hp]; [congruence|].
  unfold bindM, gets, ret, raise, put_fs, modify.
  destruct (fs_lookup (d +:+ "/" +:+ "log.txt") (fs w)) as [[|c]|] eqn:El;
    try discriminate; intros H; injection H as <-.
  - repeat split; eauto.
  - simpl. rewrite !fs_lookup_app, Hp, El. simpl.
    rewrite String.eqb_refl. repeat split; eauto.
Qed.

Lemma sapp_nonempty (a b : string) : a +:+ "/" +:+ b <> "".
Proof. destruct a; discriminate. Qed.

Lemma mkdirs_keep_globals (paths : list string) :
  keeps (fun w => (g_fold w, loggers w))
    (for_M paths
       (fun pth (_ : unit) =>
          let! ex := os_path_exists pth in
          if ex then ret tt else os_mkdir pth) tt).
Proof.
  unfold os_path_exists, os_mkdir, check_parent, put_fs. keeps_tac.
Qed.

(** [init_path], when it returns: the run directory of the fold is a
    directory, its log file exists, and the logger named after the fold
    writes to the console and to that file. *)
Lemma init_path_returns (args : Args) (w w' : World) (logger pth : string) :
  init_path args w = (Ok (logger, pth), w') ->
  exists fold,
    g_fold w = Some fold /\
    pth = (a_name args +:+ "-" +:+ a_loss args) +:+ "/" +:+ a_dataset args
            +:+ "/" +:+ Str.of_Z fold /\
    logger = Str.of_Z fold /\
    fs_lookup pth (fs w') = Some Dir /\
    (exists c, fs_lookup (pth +:+ "/" +:+ "log.txt") (fs w') = Some (File c)) /\
    (exists hs,
       loggers w' !! logger
       = Some (hs ++ [StreamHandler; FileHandler (pth +:+ "/" +:+ "log.txt")])).
Proof.
  unfold init_path. rewrite bindM_run.
  unfold global_fold at 1, bindM at 1, gets at 1. cbv beta iota.
  destruct (g_fold w) as [fold|] eqn:Eg; [|discriminate].
  unfold ret at 1. cbv beta iota.
  set (name := a_name args +:+ "-" +:+ a_loss args).
  set (pth0 := name +:+ "/" +:+ a_dataset args +:+ "/" +:+ Str.of_Z fold).
  rewrite bindM_run.
  match goal with
  | |- context [for_M ?l ?b tt w] =>
      pose proof (mkdirs_keep_globals l w) as Hk;
      destruct (for_M l b tt w) as [[[]|e] w1]
  end; [|discriminate].
  simpl in Hk. injection Hk as Hg1 Hl1.
  rewrite bindM_run.
  unfold global_fold at 1, bindM at 1, gets at 1. cbv beta iota.
  rewrite Hg1, Eg. unfold ret at 1. cbv beta iota.
  change (List.last [name; name +:+ "/" +:+ a_dataset args; pth0] "")
    with pth0.
  rewrite bindM_run. unfold get_logger.
  rewrite bindM_run. unfold gets at 1. cbv beta iota.
  rewrite bindM_run. unfold modify at 1. cbv beta iota.
  rewrite bindM_run.
  change (pth0 +:+ "/log.txt") with (pth0 +:+ "/" +:+ "log.txt").
  match goal with
  | |- context [open_append ?p ?w0] =>
      destruct (open_append p w0) as [[[]|e] w2] eqn:Eo
  end; [|discriminate].
  apply open_append_inv in Eo as (Hdir & [c Hfile] & Hlg & _);
    [|unfold pth0; apply sapp_nonempty].
  rewrite bindM_run. unfold modify at 1. cbv beta iota.
  unfold ret at 1. cbv beta iota.
  rewrite bindM_run.
  match goal with
  | |- context [logger_info ?n ?m ?w0] =>
      destruct (logger_info_logged n m w0) as (w3 & -> & L)
  end.
  unfold ret. intros H. injection H as <- <- <-.
  exists fold. split; [reflexivity|].
  split; [unfold pth0, name; now rewrite !sapp_assoc|].
  split; [reflexivity|].
  destruct L as (G & HL & _). simpl in G, HL.
  pose proof (fs_grows_lookup pth0 _ _ G) as G1.
  pose proof (fs_grows_lookup (pth0 +:+ "/" +:+ "log.txt") _ _ G) as G2.
  rewrite Hdir in G1. rewrite Hfile in G2.
  split.
  - destruct (fs_lookup pth0 (fs w3)) as [[|c']|]; simpl in G1; tauto.
  - split.
    + destruct (fs_lookup (pth0 +:+ "/" +:+ "log.txt") (fs w3)) as [[|c']|];
        simpl in G2; try tauto.
      exists c'. reflexivity.
    + rewrite HL. eexists. apply lookup_insert_eq.
Qed.




End FoldLoop.



(** With the defaults of the parser the run stops in the first fold: the
    dataset adapter holds no example, and the training accuracy of the
    first epoch divides by the size of the training set. *)
Remark default_run_stops_in_first_fold :
  let run := main (F := Toy.framework) default_args Toy.empty_world in
  fst run = Raise ZeroDivisionError /\
  rev (main_trace (snd run)) = fold_events 21.
Proof. vm_compute. split; reflexivity. Qed.

(** * Further properties of the script *)

(** ** The running mean: when it raises *)

Module AverageMeterMore.
Import AverageMeter.




End AverageMeterMore.



(** ** Item access on a filled dataset *)

Lemma py_index_in_range {A} (l : list A) (idx : Z) :
  - Z.of_nat (length l) <= idx < Z.of_nat (length l) ->
  exists x,
    py_index l idx = Ok x /\
    nth_error l (Z.to_nat (idx mod Z.of_nat (length l))) = Some x.
Proof.
  intros H. unfold py_index.
  set (n := Z.of_nat (length l)) in *.
  assert (Hi : (if idx <? 0 then idx + n else idx) = idx mod n).
  { destruct (Z.ltb_spec idx 0).
    - apply Z.mod_unique with (q := -1); lia.
    - symmetry. apply Z.mod_small. lia. }
  rewrite Hi.
  assert (Hm : 0 <= idx mod n < n) by (apply Z.mod_pos_bound; lia).
  destruct (Z.leb_spec 0 (idx mod n)); [|lia].
  destruct (Z.ltb_spec (idx mod n) n); [|lia]. simpl.
  destruct (nth_error l (Z.to_nat (idx mod n))) as [x|] eqn:E; [eauto|].
  apply nth_error_None in E. lia.
Qed.

Lemma py_index_out_of_range {A} (l : list A) (idx : Z) :
  idx < - Z.of_nat (length l) \/ Z.of_nat (length l) <= idx ->
  py_index l idx = Raise IndexError.
Proof.
  intros H. unfold py_index.
  destruct (_ && _) eqn:E; [|reflexivity].
  apply andb_true_iff in E as [E1 E2].
  apply Z.leb_le in E1. apply Z.ltb_lt in E2.
  destruct (Z.ltb_spec idx 0); lia.
Qed.

(** X2.  On an instance whose two lists have the same length n and
    whose [transformations] is [None], item access returns the signal
    and the label at the index for every index from -n to n-1, a
    negative index counting from the end; every other index raises
    [IndexError].  With a transformation assigned, the signal returned
    is the transformed one. *)
Theorem X2_getitem_on_filled_dataset (self : MData.t) (idx : Z) :
  length (MData.data self) = length (MData.label self) ->
  let n := Z.of_nat (MData.len self) in
  (- n <= idx < n ->
   exists s l,
     nth_error (MData.data self) (Z.to_nat (idx mod n)) = Some s /\
     nth_error (MData.label self) (Z.to_nat (idx mod n)) = Some l /\
     (MData.transformations self = Assigned None ->
      MData.getitem self idx = Ok (s, l)) /\
     (forall f, MData.transformations self = Assigned (Some f) ->
      MData.getitem self idx = let? s' := f s in Ok (s', l))) /\
  (idx < - n \/ n <= idx -> MData.getitem self idx = Raise IndexError).
Proof.
  intros Hlen n. unfold MData.len in n. split.
  - intros Hr.
    destruct (py_index_in_range (MData.data self) idx) as (s & Hs & Ns);
      [rewrite Hlen; exact Hr|].
    destruct (py_index_in_range (MData.label self) idx) as (l & Hl & Nl);
      [exact Hr|].
    rewrite Hlen in Ns. exists s, l. fold n in Ns, Nl.
    split; [exact Ns|]. split; [exact Nl|].
    unfold MData.getitem. rewrite Hs, Hl. simpl.
    split; [intros -> | intros f ->]; reflexivity.
  - intros Hr. unfold MData.getitem.
    rewrite py_index_out_of_range; [reflexivity|].
    rewrite Hlen. exact Hr.
Qed.

(** Two examples: index -1 is the second one, index 2 is out of
    range. *)
Lemma X2_getitem_on_filled_dataset_witness :
  let self := MData.mk [[[1; 2]]%Q; [[3; 4]]%Q] [0; 1] (Assigned None) in
  MData.getitem self (-1) = Ok ([[3; 4]]%Q, 1) /\
  MData.getitem self 2 = Raise IndexError.
Proof.
  intros self.
  destruct (X2_getitem_on_filled_dataset self (-1) eq_refl) as [H _].
  destruct (X2_getitem_on_filled_dataset self 2 eq_refl) as [_ H2].
  split.
  - destruct H as (s & l & Hs & Hl & Hg & _); [unfold self, MData.len; simpl; lia|].
    rewrite (Hg eq_refl). simpl in Hs, Hl.
    injection Hs as <-. injection Hl as <-. reflexivity.
  - apply H2. unfold self, MData.len. simpl. lia.
Defined.

(** ** The evaluation routine: the empty dataset, the range of the accuracy *)

Section TestMore.

Context {F : Framework}.








End TestMore.

(** X3.  On a loader whose dataset is empty, [test] raises
    [ZeroDivisionError], whatever the model: no batch is evaluated and
    line 109 divides by the size of the dataset. *)
Theorem X3_test_on_empty_dataset_raises {F : Framework}
    (model : Model) (ld : DataLoader) :
  ds_len (dl_dataset ld) = 0%nat ->
  test model ld = Raise ZeroDivisionError.
Proof.
  intros H. unfold test, seq_batches, chunks. rewrite H. reflexivity.
Qed.

(** The dataset adapter as constructed holds no example. *)
Lemma X3_test_on_empty_dataset_raises_witness :
  test (Toy.model 0 true)
    {| dl_dataset := MData_dataset (MData.init "MASS" "valid" "ALL" 21);
       dl_batch_size := 128 |}
  = Raise ZeroDivisionError.
Proof.
  apply (X3_test_on_empty_dataset_raises (F := Toy.framework)). reflexivity.
Defined.



(** ** From a checkpoint name back to its epoch *)

Section EpochOfName.

Lemma lstrip_head (c : ascii) (l : list ascii) :
  Str.is_space c = false -> Str.lstrip (c :: l) = c :: l.
Proof. intros H. simpl. now rewrite H. Qed.

(** Text without white space is left as it is. *)
Lemma strip_no_space (l : list ascii) :
  Forall (fun c => Str.is_space c = false) l -> Str.strip l = l.
Proof.
  intros H. unfold Str.strip.
  assert (E : forall l0, Forall (fun c => Str.is_space c = false) l0 ->
                         Str.lstrip l0 = l0).
  { intros [|c l0] H0; [reflexivity|].
    inversion H0; subst. now apply lstrip_head. }
  rewrite (E l H), E, rev_involutive; [reflexivity|].
  now apply Forall_rev.
Qed.

Lemma uint_no_space (d : Decimal.uint) :
  Forall (fun c => Str.is_space c = false)
    (list_ascii_of_string (NilEmpty.string_of_uint d)).
Proof. induction d; simpl; constructor; auto. Qed.

Lemma uint_no_dash (d : Decimal.uint) :
  Str.contains "-" (NilEmpty.string_of_uint d) = false.
Proof. induction d; simpl; auto. Qed.

(** The digits of a numeral, read after other digits. *)
Lemma parse_uint_acc (d : Decimal.uint) : forall p : positive,
  Str.parse_digits (list_ascii_of_string (NilEmpty.string_of_uint d))
    (Z.pos p) true
  = Some (Z.pos (Pos.of_uint_acc d p)).
Proof.
  induction d; intros p; cbn [NilEmpty.string_of_uint list_ascii_of_string
                               Str.parse_digits Pos.of_uint_acc];
    [reflexivity|..];
    match goal with
    | |- context [Str.digit_of ?c] =>
        let v := eval vm_compute in (Str.digit_of c) in
        change (Str.digit_of c) with v; cbv beta iota
    end;
    rewrite <- IHd; f_equal; lia.
Qed.

Lemma parse_uint (d : Decimal.uint) :
  Str.parse_digits (list_ascii_of_string (NilEmpty.string_of_uint d)) 0 true
  = Some (Z.of_N (Pos.of_uint d)).
Proof.
  induction d; cbn [NilEmpty.string_of_uint list_ascii_of_string
                    Str.parse_digits Pos.of_uint];
    [reflexivity|..];
    match goal with
    | |- context [Str.digit_of ?c] =>
        let v := eval vm_compute in (Str.digit_of c) in
        change (Str.digit_of c) with v; cbv beta iota
    end;
    [exact IHd | apply parse_uint_acc ..].
Qed.

(** A numeral that is not empty starts with a digit. *)
Lemma parse_uint_start (d : Decimal.uint) :
  d <> Decimal.Nil ->
  Str.parse_digits (list_ascii_of_string (NilEmpty.string_of_uint d)) 0 false
  = Str.parse_digits (list_ascii_of_string (NilEmpty.string_of_uint d)) 0 true.
Proof. destruct d; [congruence | reflexivity ..]. Qed.

Lemma py_int_uint (d : Decimal.uint) :
  d <> Decimal.Nil ->
  Str.py_int (NilEmpty.string_of_uint d) = Ok (Z.of_N (Pos.of_uint d)).
Proof.
  intros Hd. unfold Str.py_int.
  rewrite (strip_no_space _ (uint_no_space d)).
  pose proof (parse_uint d) as P. rewrite <- (parse_uint_start d Hd) in P.
  destruct d; [congruence|..];
    cbn [NilEmpty.string_of_uint list_ascii_of_string] in *;
    cbv beta iota zeta; rewrite P; reflexivity.
Qed.

Lemma string_of_uint_nonnil (d : Decimal.uint) :
  d <> Decimal.Nil ->
  NilZero.string_of_uint d = NilEmpty.string_of_uint d.
Proof. destruct d; [congruence | reflexivity ..]. Qed.

(** [int(str(z))] is [z]. *)
Lemma py_int_of_Z (z : Z) : Str.py_int (Str.of_Z z) = Ok z.
Proof.
  unfold Str.of_Z. destruct z as [|p|p]; [reflexivity| |];
    pose proof (Unsigned.to_uint_nonnil p) as Hn;
    unfold Z.to_int, NilZero.string_of_int;
    rewrite (string_of_uint_nonnil _ Hn).
  - rewrite (py_int_uint _ Hn), DecimalPos.Unsigned.of_to. reflexivity.
  - unfold Str.py_int.
    change (list_ascii_of_string (String "-" ?s))
      with ("-"%char :: list_ascii_of_string s).
    rewrite strip_no_space
      by (constructor; [reflexivity | apply uint_no_space]).
    cbv beta iota zeta.
    rewrite (parse_uint_start _ Hn), parse_uint,
      DecimalPos.Unsigned.of_to. reflexivity.
Qed.

Lemma of_Z_no_dash (z : Z) : 0 <= z -> Str.contains "-" (Str.of_Z z) = false.
Proof.
  intros Hz. unfold Str.of_Z. destruct z as [|p|p]; [reflexivity| |lia].
  unfold Z.to_int, NilZero.string_of_int.
  rewrite (string_of_uint_nonnil _ (Unsigned.to_uint_nonnil p)).
  apply uint_no_dash.
Qed.

Lemma of_Z_negative (z : Z) :
  z < 0 -> exists s, Str.of_Z z = String "-" s.
Proof.
  intros Hz. unfold Str.of_Z. destruct z as [|p|p]; [lia | lia |].
  unfold Z.to_int, NilZero.string_of_int. eauto.
Qed.

Lemma basename_app (sp rest : string) :
  Str.contains "/" rest = false ->
  Str.basename (sp +:+ "/" +:+ rest) = rest.
Proof.
  intros Hr. induction sp as [|x sp IH].
  - change (Str.basename (String "/" rest) = rest).
    simpl. now rewrite Hr.
  - change (Str.basename (String x (sp +:+ "/" +:+ rest)) = rest).
    simpl. rewrite contains_app.
    change (Str.contains "/" ("/" +:+ rest)) with true.
    rewrite orb_true_r. exact IH.
Qed.

Lemma before_first_app (c : ascii) (a b : string) :
  Str.contains c a = false ->
  Str.before_first c (a +:+ String c b) = a.
Proof.
  induction a as [|x a IH]; intros H.
  - change (Str.before_first c (String c b) = "").
    simpl. now rewrite Ascii.eqb_refl.
  - change (Str.before_first c (String x (a +:+ String c b)) = String x a).
    simpl in *. apply orb_false_iff in H as [Hx Ha].
    rewrite Hx. now rewrite IH.
Qed.

End EpochOfName.

Section EpochOfNameMore.

Context {F : Framework}.

Lemma file_epoch_checkpoint_name (sp : string) (epoch : Z) (test_acc : Q) :
  0 <= epoch -> file_epoch (checkpoint_name sp epoch test_acc) = Ok epoch.
Proof.
  intros He. unfold file_epoch, checkpoint_name.
  rewrite basename_app by apply (checkpoint_base_ok epoch test_acc).
  change ("-" +:+ ?x) with (String "-" x).
  rewrite before_first_app by now apply of_Z_no_dash.
  apply py_int_of_Z.
Qed.

Lemma file_epoch_negative (sp : string) (epoch : Z) (test_acc : Q) :
  epoch < 0 ->
  file_epoch (checkpoint_name sp epoch test_acc) = Raise ValueError.
Proof.
  intros He. unfold file_epoch, checkpoint_name.
  rewrite basename_app by apply (checkpoint_base_ok epoch test_acc).
  destruct (of_Z_negative epoch He) as [s ->]. reflexivity.
Qed.

End EpochOfNameMore.

(** X5.  The name [train] gives a checkpoint (line 184) and the epoch
    [get_model] reads from a name (line 119) fit together: from the
    name of the checkpoint of an epoch that is not negative the loader
    reads that epoch back, in any directory and for any accuracy, so
    two epochs never share a name; a negative epoch would give a name
    that starts with a dash, from which the loader reads the empty
    text and raises [ValueError]. *)
Theorem X5_checkpoint_name_gives_back_epoch
    (sp : string) (epoch : Z) (test_acc : Q) :
  (0 <= epoch ->
   file_epoch (checkpoint_name sp epoch test_acc) = Ok epoch) /\
  (epoch < 0 ->
   file_epoch (checkpoint_name sp epoch test_acc) = Raise ValueError) /\
  (forall (epoch' : Z) (test_acc' : Q),
     0 <= epoch -> 0 <= epoch' ->
     checkpoint_name sp epoch test_acc = checkpoint_name sp epoch' test_acc' ->
     epoch = epoch').
Proof.
  split; [apply file_epoch_checkpoint_name|].
  split; [apply file_epoch_negative|].
  intros epoch' test_acc' He He' Hn.
  pose proof (file_epoch_checkpoint_name sp epoch test_acc He) as H1.
  pose proof (file_epoch_checkpoint_name sp epoch' test_acc' He') as H2.
  rewrite Hn in H1. congruence.
Qed.

(** Epoch 10 with a test accuracy of 60 in the directory [d]. *)
Lemma X5_checkpoint_name_gives_back_epoch_witness :
  checkpoint_name "d" 10 60 = "d/10-60.0000.pt" /\
  file_epoch (checkpoint_name "d" 10 60) = Ok 10 /\
  file_epoch (checkpoint_name "d" (-1) 60) = Raise ValueError.
Proof.
  split; [reflexivity|].
  split.
  - apply (X5_checkpoint_name_gives_back_epoch "d" 10 60). lia.
  - apply (X5_checkpoint_name_gives_back_epoch "d" (-1) 60). lia.
Defined.

(** ** The epoch a run resumes at is not negative *)

Section StartEpoch.

Context {F : Framework}.

Lemma digit_of_nonneg (c : ascii) (d : Z) : Str.digit_of c = Some d -> 0 <= d.
Proof.
  unfold Str.digit_of.
  destruct (_ && _) eqn:E; [|discriminate].
  apply andb_true_iff in E as [E1 _]. apply Z.leb_le in E1.
  intros H. injection H as <-. lia.
Qed.

Lemma parse_digits_nonneg (l : list ascii) : forall (acc : Z) (prev : bool) z,
  0 <= acc -> Str.parse_digits l acc prev = Some z -> 0 <= z.
Proof.
  induction l as [|c l IH]; intros acc prev z Ha; simpl.
  - destruct prev; [|discriminate]. intros H. injection H as <-. exact Ha.
  - destruct (Str.digit_of c) as [d|] eqn:Ed.
    + apply digit_of_nonneg in Ed. apply IH. lia.
    + destruct (_ && _); [|discriminate]. now apply IH.
Qed.

Lemma lstrip_In (c : ascii) (l : list ascii) :
  In c (Str.lstrip l) -> In c l.
Proof.
  induction l as [|x l IH]; simpl; [tauto|].
  destruct (Str.is_space x); [right; now apply IH | tauto].
Qed.

Lemma strip_In (c : ascii) (l : list ascii) : In c (Str.strip l) -> In c l.
Proof.
  unfold Str.strip. intros H.
  apply in_rev, lstrip_In in H. apply in_rev in H. now apply lstrip_In.
Qed.

Lemma contains_In (c : ascii) (s : string) :
  Str.contains c s = false -> ~ In c (list_ascii_of_string s).
Proof.
  induction s as [|x s IH]; simpl; [tauto|].
  intros H. apply orb_false_iff in H as [Hx Hs].
  intros [->|Hin]; [now rewrite Ascii.eqb_refl in Hx | now apply IH].
Qed.

Lemma before_first_none (c : ascii) (s : string) :
  Str.contains c (Str.before_first c s) = false.
Proof.
  induction s as [|x s IH]; simpl; [reflexivity|].
  destruct (Ascii.eqb x c) eqn:E; [reflexivity|]. simpl. now rewrite E.
Qed.

(** The three cases of the sign of a numeral. *)
Lemma sign_cases {A} (p1 p2 p3 : list ascii -> A) (body : list ascii) :
  match body with
  | "+"%char :: l => p1 l
  | "-"%char :: l => p2 l
  | l => p3 l
  end
  = match body with
    | [] => p3 []
    | c :: l =>
        if Ascii.eqb c "+" then p1 l
        else if Ascii.eqb c "-" then p2 l else p3 (c :: l)
    end.
Proof.
  destruct body as [|[[] [] [] [] [] [] [] []] l]; reflexivity.
Qed.

(** Text without a dash is read as an integer that is not negative. *)
Lemma py_int_nonneg (s : string) (z : Z) :
  Str.contains "-" s = false -> Str.py_int s = Ok z -> 0 <= z.
Proof.
  intros Hs. apply contains_In in Hs. unfold Str.py_int.
  pose proof (strip_In "-" (list_ascii_of_string s)) as Hin.
  set (body := Str.strip (list_ascii_of_string s)) in *.
  cbv zeta.
  rewrite (sign_cases (fun l => Str.parse_digits l 0 false)
             (fun l => option_map Z.opp (Str.parse_digits l 0 false))
             (fun l => Str.parse_digits l 0 false) body).
  destruct body as [|c l]; [discriminate|].
  destruct (Ascii.eqb_spec c "+") as [->|_].
  - destruct (Str.parse_digits l 0 false) as [v|] eqn:E; [|discriminate].
    intros H. injection H as <-.
    eapply parse_digits_nonneg; [|exact E]. lia.
  - destruct (Ascii.eqb_spec c "-") as [->|_].
    + exfalso. apply Hs, Hin. now left.
    + destruct (Str.parse_digits (c :: l) 0 false) as [v|] eqn:E;
        [|discriminate].
      intros H. injection H as <-.
      eapply parse_digits_nonneg; [|exact E]. lia.
Qed.

Lemma file_epoch_nonneg (file : string) (e : Z) :
  file_epoch file = Ok e -> 0 <= e.
Proof.
  unfold file_epoch. apply py_int_nonneg, before_first_none.
Qed.

End StartEpoch.

(** X6.  The epoch [get_model] returns is never negative, and it is at
    least 1 when the run resumes from a file: the text it reads the
    epoch from stops before the first dash, so it holds no minus sign. *)
Theorem X6_start_epoch_not_negative {F : Framework}
    (args : Args) (pth : string) (w : World) (model : Model) (e : Z) :
  fst (get_model args pth w) = Ok (model, e) ->
  0 <= e /\
  (a_resume args = true -> pt_files pth (fs w) <> [] -> 1 <= e).
Proof.
  rewrite get_model_fst. unfold get_model_result.
  destruct (a_resume args).
  - unfold resume_file.
    destruct (pt_files pth (fs w)) as [|f0 fl].
    + intros H. injection H as _ <-. split; [lia | congruence].
    + destruct (file_epoch _) as [e0|err] eqn:E; [|discriminate].
      apply file_epoch_nonneg in E. simpl.
      destruct (g_logger w); [|discriminate]. simpl.
      destruct (load_of _) as [d|err]; [|discriminate]. simpl.
      destruct (d !! "model") as [[sd|z]|]; try discriminate.
      intros H. injection H as _ <-. split; intros; lia.
  - intros H. injection H as _ <-. split; [lia | discriminate].
Qed.

(** Resuming in [Toy.world_two], at epoch 11. *)
Lemma X6_start_epoch_not_negative_witness :
  fst (get_model (Toy.args2 "cos") "d" Toy.world_two)
  = Ok (Toy.model 8 true, 11) /\ 0 <= 11.
Proof.
  split; [vm_compute; reflexivity|].
  destruct (X6_start_epoch_not_negative (F := Toy.framework)
              (Toy.args2 "cos") "d" Toy.world_two (Toy.model 8 true) 11)
    as [H _]; [vm_compute; reflexivity | exact H].
Defined.

(** ** What the checkpoint loader does to the world *)

Section GetModelWorld.

Context {F : Framework}.

Lemma get_model_snd (args : Args) (pth : string) (w : World) :
  logged (set_rng (snd (init_params (rng w))) w)
    (snd (get_model args pth w)).
Proof.
  unfold get_model.
  rewrite bindM_run. unfold gets at 1. cbv beta iota.
  destruct (init_params (rng w)) as [p g'] eqn:Ei. simpl snd.
  rewrite bindM_run. unfold modify at 1. cbv beta iota.
  rewrite bindM_run. unfold glob_pt. rewrite bindM_run.
  unfold gets at 1, ret at 1. cbv beta iota.
  destruct (if a_resume args then _ else None) as [file|];
    [|apply logged_refl].
  rewrite bindM_run. unfold lift at 1.
  destruct (file_epoch file) as [e|err]; [|apply logged_refl].
  rewrite bindM_run.
  pose proof (global_logger_info_run (MsgLoad file (e + 1 - 1)) (set_rng g' w))
    as Hlog.
  destruct (g_logger (set_rng g' w)) as [name|].
  - destruct Hlog as (w1 & -> & L).
    rewrite bindM_run, torch_load_run.
    destruct (load_of _) as [d|err]; [|exact L].
    destruct (d !! "model") as [[sd|z]|]; exact L.
  - rewrite Hlog. apply logged_refl.
Qed.

End GetModelWorld.

(** X7.  [get_model] creates, removes and rewrites no file: whether it
    returns or raises, the file system holds the same paths in the same
    order afterwards, files differing by log lines added at their end
    only, so the checkpoint files matched in any directory and the
    record stored in each are as before.  It draws one parameter
    initialisation from the random generator, also when the parameters
    are then replaced by those of a checkpoint. *)
Theorem X7_get_model_leaves_files_alone {F : Framework}
    (args : Args) (pth : string) (w : World) :
  let w' := snd (get_model args pth w) in
  fs_grows (fs w) (fs w') /\
  List.map fst (fs w') = List.map fst (fs w) /\
  (forall dir, pt_files dir (fs w') = pt_files dir (fs w)) /\
  (forall p, load_of (fs_lookup p (fs w')) = load_of (fs_lookup p (fs w))) /\
  rng w' = snd (init_params (rng w)).
Proof.
  intros w'. pose proof (get_model_snd args pth w) as L. fold w' in L.
  destruct L as (G & _ & _ & _ & Hr & _). simpl in G, Hr.
  split; [exact G|].
  split; [symmetry; now apply fs_grows_paths|].
  split; [intros dir; now apply fs_grows_pt_files|].
  split; [intros p; now apply fs_grows_load | exact Hr].
Qed.

(** ** Resuming after a run *)

Section ResumeAfterTrain.

Context {F : Framework}.




End ResumeAfterTrain.



(** ** Handlers add up *)

Section LoggerHandlers.

Context {F : Framework}.

Lemma open_append_run (p : string) (w w' : World) :
  open_append p w = (Ok tt, w') ->
  loggers w' = loggers w /\ console w' = console w /\
  exists c, fs_lookup p (fs w') = Some (File c).
Proof.
  unfold open_append. rewrite bindM_run.
  destruct (check_parent p w) as [[[]|e] w1] eqn:Ec; [|discriminate].
  apply check_parent_inv in Ec as [-> _].
  unfold bindM, gets, ret, raise, put_fs, modify.
  destruct (fs_lookup p (fs w)) as [[|c]|] eqn:El;
    try discriminate; intros H; injection H as <-.
  - eauto.
  - simpl. rewrite fs_lookup_app, El. simpl.
    rewrite String.eqb_refl. eauto.
Qed.

Lemma get_logger_run (path name lg : string) (w w' : World) :
  get_logger path name w = (Ok lg, w') ->
  lg = name /\
  loggers w'
  = <[name := match loggers w !! name with Some hs => hs | None => [] end
              ++ [StreamHandler; FileHandler path]]> (loggers w) /\
  console w' = console w /\
  exists c, fs_lookup path (fs w') = Some (File c).
Proof.
  unfold get_logger.
  rewrite bindM_run. unfold gets at 1. cbv beta iota.
  rewrite bindM_run. unfold modify at 1. cbv beta iota.
  rewrite bindM_run.
  match goal with
  | |- context [open_append path ?w0] =>
      destruct (open_append path w0) as [[[]|e] w1] eqn:Eo; [|discriminate]
  end.
  apply open_append_run in Eo as (_ & Hc & c & Hl).
  rewrite bindM_run. unfold modify at 1, ret. cbv beta iota.
  intros H. injection H as <- <-. simpl.
  split; [reflexivity|]. split; [reflexivity|]. split; [exact Hc | eauto].
Qed.

(** A record through a stream handler and a file handler. *)
Lemma emit_pair_run (l : LogLine) (path : string) (c : list chunk)
    (rest : list Handler) (w : World) :
  fs_lookup path (fs w) = Some (File c) ->
  exists w1,
    for_M (StreamHandler :: FileHandler path :: rest) (emit l) tt w
    = for_M rest (emit l) tt w1 /\
    console w1 = console w ++ [l] /\
    fs_lookup path (fs w1) = Some (File (c ++ [Line l])).
Proof.
  intros Hl. cbn [for_M emit].
  rewrite bindM_run. unfold bindM at 1, gets at 1, modify at 1.
  cbv beta iota.
  rewrite bindM_run. unfold bindM at 1, gets at 1. cbv beta iota.
  change (fs (set_console (console w ++ [l]) w)) with (fs w).
  rewrite Hl. unfold put_fs, modify. cbv beta iota.
  eexists. split; [reflexivity|]. simpl.
  split; [reflexivity | apply fs_lookup_write_same].
Qed.

End LoggerHandlers.

(** X9.  Every call of [get_logger] adds a stream handler and a file
    handler to the logger of the given name and removes none, so a
    second call with the same name and path leaves four: a message
    logged afterwards is printed twice and written twice to the file. *)
Theorem X9_get_logger_twice_logs_twice {F : Framework}
    (path name lg1 lg2 : string) (msg : Msg) (w w1 w2 : World) :
  loggers w !! name = None ->
  get_logger path name w = (Ok lg1, w1) ->
  get_logger path name w1 = (Ok lg2, w2) ->
  let line := {| ll_name := name; ll_msg := msg |} in
  loggers w2 !! name
  = Some [StreamHandler; FileHandler path; StreamHandler; FileHandler path] /\
  exists c w3,
    fs_lookup path (fs w2) = Some (File c) /\
    logger_info name msg w2 = (Ok tt, w3) /\
    console w3 = console w2 ++ [line; line] /\
    fs_lookup path (fs w3) = Some (File (c ++ [Line line; Line line])).
Proof.
  intros Hnone H1 H2 line.
  apply get_logger_run in H1 as (_ & L1 & _ & _).
  apply get_logger_run in H2 as (_ & L2 & _ & c & Hc).
  rewrite Hnone in L1. rewrite L1, lookup_insert_eq in L2. simpl in L2.
  assert (Hh : loggers w2 !! name
               = Some [StreamHandler; FileHandler path;
                       StreamHandler; FileHandler path]).
  { rewrite L2. apply lookup_insert_eq. }
  split; [exact Hh|].
  unfold logger_info. rewrite bindM_run. unfold gets at 1. cbv beta iota.
  rewrite Hh. fold line.
  destruct (emit_pair_run line path c [StreamHandler; FileHandler path] w2 Hc)
    as (wa & -> & Ca & Fa).
  destruct (emit_pair_run line path (c ++ [Line line]) [] wa Fa)
    as (wb & -> & Cb & Fb).
  exists c, wb. split; [exact Hc|]. split; [reflexivity|].
  split.
  - rewrite Cb, Ca, <- app_assoc. reflexivity.
  - rewrite Fb, <- app_assoc. reflexivity.
Qed.

(** Two calls for the logger [21] of the run directory [d]. *)
Lemma X9_get_logger_twice_logs_twice_witness :
  let w := with_fs [("d", Dir)] Toy.empty_world in
  let w2 := snd (get_logger "d/log.txt" "21"
                   (snd (get_logger "d/log.txt" "21" w))) in
  let line := {| ll_name := "21"; ll_msg := MsgWeight [1; 1; 1] "auto" |} in
  exists w3,
    logger_info "21" (MsgWeight [1; 1; 1] "auto") w2 = (Ok tt, w3) /\
    console w3 = [line; line] /\
    fs_lookup "d/log.txt" (fs w3) = Some (File [Line line; Line line]).
Proof.
  intros w w2 line.
  destruct (X9_get_logger_twice_logs_twice (F := Toy.framework)
              "d/log.txt" "21" "21" "21" (MsgWeight [1; 1; 1] "auto")
              w (snd (get_logger "d/log.txt" "21" w)) w2)
    as (_ & c & w3 & Hc & Hi & Hcon & Hf).
  - reflexivity.
  - reflexivity.
  - reflexivity.
  - exists w3. split; [exact Hi|].
    assert (Ec : c = []) by (vm_compute in Hc; now injection Hc).
    subst c. split; [exact Hcon | exact Hf].
Defined.

(** ** Setting up the run directory keeps what is there *)

Section InitPathKeeps.

Context {F : Framework}.

Lemma fs_extends_refl (f : FS) : fs_extends f f.
Proof.
  exists f, []. split; [now rewrite app_nil_r | apply fs_grows_refl].
Qed.

Lemma fs_grows_extends (f g : FS) : fs_grows f g -> fs_extends f g.
Proof. intros H. exists g, []. split; [now rewrite app_nil_r | exact H]. Qed.

Lemma fs_extends_app (f new : FS) : fs_extends f (f ++ new).
Proof. exists f, new. split; [reflexivity | apply fs_grows_refl]. Qed.

Lemma fs_extends_trans (f g h : FS) :
  fs_extends f g -> fs_extends g h -> fs_extends f h.
Proof.
  intros (g0 & n0 & -> & G0) (h0 & n1 & -> & G1).
  unfold fs_grows in G1.
  apply List.Forall2_app_inv_l in G1 as (h1 & h2 & G1 & G2 & ->).
  exists h1, (h2 ++ n1). split; [now rewrite app_assoc|].
  eapply fs_grows_trans; eauto.
Qed.

Lemma fs_extends_lookup (p : string) (f f' : FS) (n : node) :
  fs_extends f f' -> fs_lookup p f = Some n ->
  exists n', fs_lookup p f' = Some n' /\ node_grows n n'.
Proof.
  intros (g & new & -> & G) Hl.
  pose proof (fs_grows_lookup p f g G) as L. rewrite Hl in L.
  rewrite fs_lookup_app.
  destruct (fs_lookup p g) as [n'|]; [eauto | contradiction].
Qed.

Lemma pt_files_app (dir : string) (f g : FS) :
  pt_files dir (f ++ g) = pt_files dir f ++ pt_files dir g.
Proof. unfold pt_files. now rewrite map_app, List.filter_app. Qed.

Lemma extends_ret {A} (a : A) : extends (ret a).
Proof. intros w. apply fs_extends_refl. Qed.

Lemma extends_raise {A} (e : exn) : extends (@raise F A e).
Proof. intros w. apply fs_extends_refl. Qed.

Lemma extends_gets {A} (f : World -> A) : extends (gets f).
Proof. intros w. apply fs_extends_refl. Qed.

Lemma extends_modify (f : World -> World) :
  (forall w, fs (f w) = fs w) -> extends (modify f).
Proof. intros H w. simpl. rewrite H. apply fs_extends_refl. Qed.

Lemma extends_bind {A B} (m : M A) (k : A -> M B) :
  extends m -> (forall a, extends (k a)) -> extends (bindM m k).
Proof.
  intros Hm Hk w. unfold bindM. specialize (Hm w).
  destruct (m w) as [[a|e] w']; simpl in *; [|exact Hm].
  eapply fs_extends_trans; [exact Hm | apply Hk].
Qed.

Lemma extends_for_M {X S} (l : list X) (body : X -> S -> M S) :
  (forall x s, extends (body x s)) -> forall s, extends (for_M l body s).
Proof.
  intros Hb. induction l as [|x l IH]; intros s; simpl.
  - apply extends_ret.
  - apply extends_bind; [apply Hb | exact IH].
Qed.

Lemma os_mkdir_extends (p : string) : extends (os_mkdir p).
Proof.
  intros w. unfold os_mkdir. rewrite bindM_run. unfold gets at 1.
  cbv beta iota.
  destruct (fs_exists p (fs w)); [apply fs_extends_refl|].
  rewrite bindM_run. pose proof (check_parent_world p w) as Hw.
  destruct (check_parent p w) as [[[]|e] w1]; simpl in Hw; subst w1;
    [|apply fs_extends_refl].
  simpl. apply fs_extends_app.
Qed.

Lemma open_append_extends (p : string) : extends (open_append p).
Proof.
  intros w. unfold open_append. rewrite bindM_run.
  pose proof (check_parent_world p w) as Hw.
  destruct (check_parent p w) as [[[]|e] w1]; simpl in Hw; subst w1;
    [|apply fs_extends_refl].
  unfold bindM, gets.
  destruct (fs_lookup p (fs w)) as [[|c]|]; try apply fs_extends_refl.
  simpl. apply fs_extends_app.
Qed.

Lemma logger_info_extends (name : string) (msg : Msg) :
  extends (logger_info name msg).
Proof.
  intros w. destruct (logger_info_logged name msg w) as (w' & -> & L).
  apply fs_grows_extends, L.
Qed.

Lemma get_logger_extends (path name : string) : extends (get_logger path name).
Proof.
  unfold get_logger.
  apply extends_bind; [apply extends_gets | intros reg].
  apply extends_bind; [now apply extends_modify | intros _].
  apply extends_bind; [apply open_append_extends | intros _].
  apply extends_bind; [now apply extends_modify | intros _].
  apply extends_ret.
Qed.

Lemma global_fold_extends : extends global_fold.
Proof.
  unfold global_fold.
  apply extends_bind; [apply extends_gets | intros [fold|]];
    [apply extends_ret | apply extends_raise].
Qed.

Lemma init_path_extends (args : Args) : extends (init_path args).
Proof.
  unfold init_path.
  apply extends_bind; [apply global_fold_extends | intros fold].
  apply extends_bind.
  { apply extends_for_M. intros pth _.
    apply extends_bind.
    - unfold os_path_exists.
      apply extends_bind; [apply extends_gets | intros f; apply extends_ret].
    - intros [|]; [apply extends_ret | apply os_mkdir_extends]. }
  intros _.
  apply extends_bind; [apply global_fold_extends | intros fold'].
  apply extends_bind; [apply get_logger_extends | intros logger].
  apply extends_bind; [apply logger_info_extends | intros _].
  apply extends_ret.
Qed.

End InitPathKeeps.

(** X10.  [init_path] removes and overwrites nothing, whether it
    returns or raises: afterwards the file system holds every path it
    held before, in the same order, a file differing by log lines added
    at its end only (the log file is opened for appending), followed by
    what the call created.  In particular a record stored in a file is
    still the one [torch.load] reads from it, and the checkpoint files
    of any directory are still listed, in the same order and first. *)
Theorem X10_init_path_keeps_existing_files {F : Framework}
    (args : Args) (w : World) :
  let w' := snd (init_path args w) in
  fs_extends (fs w) (fs w') /\
  (forall p n, fs_lookup p (fs w) = Some n ->
     exists n', fs_lookup p (fs w') = Some n' /\ node_grows n n') /\
  (forall p d, load_of (fs_lookup p (fs w)) = Ok d ->
     load_of (fs_lookup p (fs w')) = Ok d) /\
  (forall dir, exists more,
     pt_files dir (fs w') = pt_files dir (fs w) ++ more).
Proof.
  intros w'. pose proof (init_path_extends args w) as E. fold w' in E.
  split; [exact E|]. split; [|split].
  - intros p n. now apply fs_extends_lookup.
  - intros p d Hd.
    destruct (fs_lookup p (fs w)) as [n|] eqn:El; [|discriminate].
    destruct (fs_extends_lookup p _ _ n E El) as (n' & -> & G).
    now rewrite (node_grows_load n n' G).
  - intros dir. destruct E as (g & new & -> & G).
    exists (pt_files dir new).
    now rewrite pt_files_app, (fs_grows_pt_files dir _ _ G).
Qed.

(** ** The target argument of the training criterion in the ['cos'] mode *)

Section CosFacts.

Context {F : Framework}.

Lemma tar_ones_keep (t0 : list CritCall) (w w' : World) :
  crit_trace w' = crit_trace w -> tar_ones_since t0 w -> tar_ones_since t0 w'.
Proof. unfold tar_ones_since. now intros ->. Qed.

Lemma train_batch_cos args criterion ds idxs st t0 :
  a_loss args = "cos" ->
  hoare (tar_ones_since t0)
    (train_batch args criterion ds idxs st)
    (fun _ => tar_ones_since t0)
    (tar_ones_since t0).
Proof.
  intros Hloss w HP. unfold train_batch. destruct st as [loc correct].
  rewrite Hloss. change ("cos" =? "cos")%string with true. cbv iota.
  unfold bindM, lift, ghost_crit, gets, modify, ret.
  destruct (fetch ds idxs) as [[data label]|e]; [|exact HP].
  destruct (Tensor.channel 0 data) as [eeg|e]; [|exact HP].
  destruct (Tensor.channel 1 data) as [eog|e]; [|exact HP].
  destruct (forward _ _ eog eeg) as [[[[c1 c2] o1] o2]|e]; [|exact HP].
  assert (HP' : tar_ones_since t0
                  (set_crit_trace
                     ({| cc_label := label;
                         cc_tar := Some (Tensor.ones_like label) |}
                      :: crit_trace w) w)).
  { destruct HP as (calls & Hc & Hall). unfold tar_ones_since. simpl.
    eexists (_ :: calls).
    split; [now rewrite Hc | now constructor]. }
  destruct (muti_loss _ _ _ _ _ _ _ _) as [loss|e]; [|exact HP'].
  destruct (optim_step _ _ _ _ _ _ _) as [opt p].
  destruct (Tensor.argmax c1) as [pred|e]; [|exact HP'].
  destruct (AverageMeter.update _ _ _) as [meter|e]; exact HP'.
Qed.

Lemma train_pass_cos args criterion dataset train_loader loc t0 :
  a_loss args = "cos" ->
  hoare (tar_ones_since t0)
    (train_pass args criterion dataset train_loader loc)
    (fun _ => tar_ones_since t0)
    (tar_ones_since t0).
Proof.
  intros Hloss w HP. unfold train_pass.
  rewrite bindM_run. unfold gets at 1. cbv beta iota.
  destruct (randperm _ _) as [perm g'].
  rewrite bindM_run. unfold modify at 1. cbv beta iota.
  rewrite bindM_run.
  pose proof (hoare_for_M
                (train_batch args criterion (dl_dataset train_loader))
                (fun _ _ => tar_ones_since t0)
                (tar_ones_since t0)
                (chunks (dl_batch_size train_loader) perm)) as Hloop.
  match goal with
  | |- context [for_M _ _ ?s0 ?w0] =>
      specialize (fun Hb => Hloop Hb s0 w0); set (run := for_M _ _ s0 w0) in *
  end.
  assert (Hrun : match run with
                 | (Ok _, w') => tar_ones_since t0 w'
                 | (Raise _, w') => tar_ones_since t0 w'
                 end).
  { apply Hloop.
    - intros done x st _. now apply train_batch_cos.
    - exact HP. }
  clearbody run. clear Hloop.
  destruct run as [[[loc1 correct]|e] w1]; [|exact Hrun].
  unfold dict_get, bindM, ret, raise.
  destruct (dataset !! "train"); [|exact Hrun].
  destruct (Nat.eqb _ 0); exact Hrun.
Qed.

Lemma train_epoch_cos args criterion dataset l1 l2 l3 save_path epoch loc t0 :
  a_loss args = "cos" ->
  hoare (tar_ones_since t0)
    (train_epoch args criterion dataset l1 l2 l3 save_path epoch loc)
    (fun _ => tar_ones_since t0)
    (tar_ones_since t0).
Proof.
  intros Hloss w HP. unfold train_epoch.
  rewrite bindM_run.
  pose proof (train_pass_cos args criterion dataset l1 loc t0 Hloss w HP)
    as Hp.
  destruct (train_pass _ _ _ _ _ w) as [[[loc1 acc]|e] w1]; [|exact Hp].
  rewrite bindM_run. unfold lift at 1.
  destruct (test (l_model loc1) l2) as [[m2 [va vl]]|e]; [|exact Hp].
  rewrite bindM_run. unfold lift at 1.
  destruct (test _ l3) as [[m3 [ta tl]]|e]; [|exact Hp].
  rewrite bindM_run. unfold ghost_epoch at 1, bindM at 1, gets, modify.
  cbv beta iota.
  rewrite bindM_run.
  match goal with
  | |- context [checkpoint_step ?a ?b ?c ?d ?l ?w0] =>
      pose proof (checkpoint_step_keeps_crit a b c d l w0) as Hkc;
      destruct (checkpoint_step a b c d l w0) as [[loc2|e] w2]
  end; simpl in Hkc.
  2:{ eapply tar_ones_keep; [exact Hkc | exact Hp]. }
  rewrite bindM_run.
  match goal with
  | |- context [global_logger_info ?m w2] =>
      pose proof (global_logger_info_keeps_crit m w2) as Hkl;
      destruct (global_logger_info m w2) as [[[]|e] w3]
  end; simpl in Hkl; unfold ret;
    (eapply tar_ones_keep; [rewrite Hkl; exact Hkc | exact Hp]).
Qed.

Lemma train_cos model dataset args save_path start_epoch w :
  a_loss args = "cos" ->
  tar_ones_since (crit_trace w)
    (snd (train model dataset args save_path start_epoch w)).
Proof.
  intros Hloss. set (t0 := crit_trace w).
  assert (HP : tar_ones_since t0 w).
  { exists []. split; [reflexivity | constructor]. }
  clearbody t0. unfold train.
  unfold dict_get at 1. rewrite bindM_run.
  destruct (dataset !! "train") as [train_ds|]; [|exact HP].
  unfold ret at 1. rewrite bindM_run. unfold lift at 1.
  destruct (DataLoader_new train_ds _) as [l1|e]; [|exact HP].
  unfold dict_get at 1. rewrite bindM_run.
  destruct (dataset !! "valid") as [valid_ds|]; [|exact HP].
  unfold ret at 1. rewrite bindM_run. unfold lift at 1.
  destruct (DataLoader_new valid_ds _) as [l2|e]; [|exact HP].
  unfold dict_get at 1. rewrite bindM_run.
  destruct (dataset !! "test") as [test_ds|]; [|exact HP].
  unfold ret at 1. rewrite bindM_run. unfold lift at 1.
  destruct (DataLoader_new test_ds _) as [l3|e]; [|exact HP].
  rewrite bindM_run. unfold lift at 1.
  destruct (MutiLoss _ _ _) as [criterion|e]; [|exact HP].
  rewrite bindM_run.
  match goal with
  | |- context [global_logger_info ?m w] =>
      pose proof (global_logger_info_keeps_crit m w) as Hkl;
      destruct (global_logger_info m w) as [[[]|e] w1]
  end; simpl in Hkl.
  2:{ eapply tar_ones_keep; [exact Hkl | exact HP]. }
  assert (HP1 : tar_ones_since t0 w1)
    by (eapply tar_ones_keep; [exact Hkl | exact HP]).
  rewrite bindM_run. unfold lift at 1.
  destruct (Adam _ _) as [optimizer|e]; [|exact HP1].
  rewrite bindM_run.
  match goal with
  | |- context [for_M ?l ?body ?s0 w1] =>
      pose proof (hoare_for_M body
                    (fun _ _ => tar_ones_since t0)
                    (tar_ones_since t0) l) as Hloop;
      specialize (fun Hb => Hloop Hb s0 w1);
      destruct (for_M l body s0 w1) as [[loc'|e] w2]
  end.
  - apply Hloop; [|exact HP1].
    intros done x loc1 _. now apply train_epoch_cos.
  - apply Hloop; [|exact HP1].
    intros done x loc1 _. now apply train_epoch_cos.
Qed.

End CosFacts.

(** X11.  In a run whose loss mode is ['cos'], every call of the
    training criterion, in every batch of every epoch, is made with a
    tensor of ones of the shape of the batch's labels as its target
    argument (line 164), whatever the variable held before. *)
Theorem X11_tar_is_ones_in_cos_mode {F : Framework}
    (model : Model) (dataset : gmap string Dataset) (args : Args)
    (save_path : string) (start_epoch : Z) (w : World) :
  a_loss args = "cos" ->
  exists calls,
    crit_trace (snd (train model dataset args save_path start_epoch w))
    = calls ++ crit_trace w /\
    Forall (fun c => cc_tar c = Some (Tensor.ones_like (cc_label c))) calls.
Proof. intros Hloss. now apply train_cos. Qed.

(** Two epochs over the three toy examples in batches of two, in mode
    ['cos']: four calls, each with ones. *)
Lemma X11_tar_is_ones_in_cos_mode_witness :
  exists calls,
    crit_trace (snd (train (Toy.model 0 true) Toy.datasets (Toy.args2 "cos")
                       "d" 0 Toy.world0))
    = calls ++ [] /\
    length calls = 4%nat /\
    Forall (fun c => cc_tar c = Some (Tensor.ones_like (cc_label c))) calls.
Proof.
  destruct (X11_tar_is_ones_in_cos_mode (Toy.model 0 true) Toy.datasets
              (Toy.args2 "cos") "d" 0 Toy.world0) as (calls & Hc & Hall).
  - reflexivity.
  - exists calls. split; [exact Hc|]. split; [|exact Hall].
    rewrite app_nil_r in Hc. rewrite <- Hc. vm_compute. reflexivity.
Defined.

(** ** A call with no epoch left *)

Section NoEpochLeft.

Context {F : Framework}.

Lemma range_nil (a b : Z) : b <= a -> range a b = [].
Proof.
  intros H. unfold range. now replace (Z.to_nat (b - a)) with 0%nat by lia.
Qed.



End NoEpochLeft.



(** ** Training on the dataset adapter as it is written *)

Section StubTraining.

Context {F : Framework}.

Lemma DataLoader_new_inv (ds : Dataset) (bs : Z) (ld : DataLoader) :
  DataLoader_new ds bs = Ok ld ->
  dl_dataset ld = ds /\ (0 < dl_batch_size ld)%nat.
Proof.
  unfold DataLoader_new. destruct (Z.leb_spec bs 0) as [|Hbs]; [discriminate|].
  intros Hn. injection Hn as <-. simpl. split; [reflexivity | lia].
Qed.

(** What [get_dataset] returns: under every key a dataset without
    example, whose item access raises at every index. *)
Lemma get_dataset_empty (args : Args) (w : World)
    (dataset : gmap string Dataset) (key : string) (ds : Dataset) :
  fst (get_dataset args w) = Ok dataset ->
  dataset !! key = Some ds ->
  ds_len ds = 0%nat /\ forall idx, ds_getitem ds idx = Raise IndexError.
Proof.
  unfold get_dataset, global_fold.
  destruct (g_fold w) as [fold|] eqn:Eg.
  2:{ rewrite bindM_run. unfold bindM at 1, gets at 1. rewrite Eg.
      discriminate. }
  repeat (rewrite bindM_run; unfold bindM at 1, gets at 1; rewrite Eg;
          unfold ret at 1; cbv beta iota).
  unfold ret. simpl fst.
  intros Hd. injection Hd as <-. intros Hk.
  apply lookup_insert_Some in Hk as [[_ <-]|[_ Hk]];
    [|apply lookup_insert_Some in Hk as [[_ <-]|[_ Hk]];
      [|apply lookup_insert_Some in Hk as [[_ <-]|[_ Hk]];
        [|now rewrite lookup_empty in Hk]]];
    (split; [reflexivity|]); intros idx; simpl;
    unfold MData.getitem, MData.init; simpl; now rewrite py_index_nil.
Qed.

(** The training pass over an empty training set raises: with no index
    drawn at line 171, with an index drawn at the item access. *)
Lemma train_pass_empty args criterion dataset train_loader loc w train_ds :
  ds_len (dl_dataset train_loader) = 0%nat ->
  (forall idx, ds_getitem (dl_dataset train_loader) idx = Raise IndexError) ->
  (0 < dl_batch_size train_loader)%nat ->
  dataset !! "train" = Some train_ds ->
  ds_len train_ds = 0%nat ->
  exists e g,
    train_pass args criterion dataset train_loader loc w
    = (Raise e, set_rng g w).
Proof.
  intros Hlen Hget Hbs Hd Hlen'. unfold train_pass.
  rewrite bindM_run. unfold gets at 1. cbv beta iota.
  destruct (randperm _ _) as [perm g'].
  rewrite bindM_run. unfold modify at 1. cbv beta iota.
  rewrite bindM_run.
  destruct perm as [|i perm].
  - unfold chunks. cbn [length chunks_fuel for_M]. unfold ret at 1.
    cbv beta iota. rewrite bindM_run. unfold dict_get. rewrite Hd.
    unfold ret at 1. cbv beta iota. rewrite Hlen'. cbn [Nat.eqb].
    rewrite bindM_run. unfold raise. eauto.
  - unfold chunks. cbn [length chunks_fuel for_M].
    destruct (dl_batch_size train_loader) as [|k]; [lia|].
    cbn [firstn]. rewrite bindM_run.
    unfold train_batch at 1. rewrite bindM_run. unfold lift at 1.
    unfold fetch. cbn [rmapM]. rewrite Hget. cbn [rbind]. eauto.
Qed.

Lemma train_empty_run model args save_path start_epoch w dataset :
  (forall key ds, dataset !! key = Some ds ->
     ds_len ds = 0%nat /\ forall idx, ds_getitem ds idx = Raise IndexError) ->
  start_epoch < a_epoch args ->
  match train model dataset args save_path start_epoch w with
  | (r, w') =>
      (exists e, r = Raise e) /\
      crit_trace w' = crit_trace w /\
      epoch_trace w' = epoch_trace w /\
      fs_grows (fs w) (fs w')
  end.
Proof.
  intros Hds Hlt.
  assert (Stop : forall e,
            (exists e0 : exn, @Raise unit e = Raise e0) /\
            crit_trace w = crit_trace w /\
            epoch_trace w = epoch_trace w /\ fs_grows (fs w) (fs w)).
  { intros e. repeat split; eauto. apply fs_grows_refl. }
  unfold train.
  unfold dict_get at 1. rewrite bindM_run.
  destruct (dataset !! "train") as [train_ds|] eqn:Ht; [|apply Stop].
  unfold ret at 1. rewrite bindM_run. unfold lift at 1.
  destruct (DataLoader_new train_ds _) as [l1|e] eqn:E1; [|apply Stop].
  unfold dict_get at 1. rewrite bindM_run.
  destruct (dataset !! "valid") as [valid_ds|]; [|apply Stop].
  unfold ret at 1. rewrite bindM_run. unfold lift at 1.
  destruct (DataLoader_new valid_ds _) as [l2|e]; [|apply Stop].
  unfold dict_get at 1. rewrite bindM_run.
  destruct (dataset !! "test") as [test_ds|]; [|apply Stop].
  unfold ret at 1. rewrite bindM_run. unfold lift at 1.
  destruct (DataLoader_new test_ds _) as [l3|e]; [|apply Stop].
  rewrite bindM_run. unfold lift at 1.
  destruct (MutiLoss _ _ _) as [criterion|e]; [|apply Stop].
  rewrite bindM_run.
  match goal with
  | |- context [global_logger_info ?m w] =>
      pose proof (global_logger_info_run m w) as Hlog
  end.
  destruct (g_logger w) as [name|]; [|rewrite Hlog; apply Stop].
  destruct Hlog as (w1 & -> & L).
  destruct L as (G & _ & _ & _ & _ & Hc & He & _).
  rewrite bindM_run. unfold lift at 1.
  destruct (Adam _ _) as [optimizer|e];
    [|split; [eauto | split; [exact Hc | split; [exact He | exact G]]]].
  rewrite bindM_run.
  unfold range.
  destruct (Z.to_nat (a_epoch args - start_epoch)) as [|n] eqn:En; [lia|].
  cbn [seq List.map for_M]. rewrite bindM_run.
  unfold train_epoch at 1. rewrite bindM_run.
  apply DataLoader_new_inv in E1 as [Ed Hbs].
  destruct (Hds "train" train_ds Ht) as [Hlen Hget].
  match goal with
  | |- context [train_pass args criterion dataset l1 ?loc w1] =>
      destruct (train_pass_empty args criterion dataset l1 loc w1 train_ds)
        as (e & g & ->)
  end; try assumption; try (rewrite Ed; assumption).
  simpl. split; [eauto|]. split; [exact Hc|]. split; [exact He | exact G].
Qed.

End StubTraining.

(** X13.  With the datasets [get_dataset] builds (the adapter as it is
    written holds no example), a call of [train] that has an epoch to
    train never returns: it raises before any batch reaches the
    criterion, before an epoch is evaluated and before a checkpoint is
    written; the file system keeps its paths, files differing by log
    lines only. *)
Theorem X13_training_on_written_adapter_raises {F : Framework}
    (model : Model) (args : Args) (save_path : string) (start_epoch : Z)
    (w0 w : World) (dataset : gmap string Dataset) :
  fst (get_dataset args w0) = Ok dataset ->
  start_epoch < a_epoch args ->
  let run := train model dataset args save_path start_epoch w in
  (exists e, fst run = Raise e) /\
  crit_trace (snd run) = crit_trace w /\
  epoch_trace (snd run) = epoch_trace w /\
  fs_grows (fs w) (fs (snd run)) /\
  (forall dir, pt_files dir (fs (snd run)) = pt_files dir (fs w)).
Proof.
  intros Hd Hlt run.
  pose proof (train_empty_run model args save_path start_epoch w dataset) as H.
  fold run in H. destruct run as [r w']. simpl.
  destruct H as (He & Hc & Hep & G); [|exact Hlt|].
  { intros key ds. now apply (get_dataset_empty args w0 dataset). }
  split; [exact He|]. split; [exact Hc|]. split; [exact Hep|].
  split; [exact G|]. intros dir. now apply fs_grows_pt_files.
Qed.

(** The default arguments in the world of the toy run: the first
    epoch stops in the training pass. *)
Lemma X13_training_on_written_adapter_raises_witness :
  exists dataset,
    fst (get_dataset default_args Toy.world0) = Ok dataset /\
    let run := train (Toy.model 0 true) dataset default_args "d" 0
                 Toy.world0 in
    (exists e, fst run = Raise e) /\ pt_files "d" (fs (snd run)) = [].
Proof.
  eexists. split; [reflexivity|]. intros run.
  destruct (X13_training_on_written_adapter_raises (Toy.model 0 true)
              default_args "d" 0 Toy.world0 Toy.world0 _ eq_refl)
    as (He & _ & _ & _ & Hp); [simpl; lia|].
  split; [exact He|]. unfold run. rewrite Hp. reflexivity.
Defined.

(** ** The previous checkpoint is deleted before the new one is written *)

(** X14.  In the checkpoint decision the file recorded before is
    removed (line 183) before the new one is written (line 185): when
    the step raises after the accuracy qualified and the recorded file
    was there, that file is gone and nothing was written in its place;
    the file system is the one before the step without the recorded
    file. *)
Theorem X14_failed_save_loses_previous_checkpoint {F : Framework}
    (save_path : string) (epoch : Z) (valid_acc test_acc : Q)
    (loc : Locals) (w : World) (c : list chunk) (e : exn) :
  (l_best_acc loc <= valid_acc)%Q ->
  l_file_name loc <> "" ->
  fs_lookup (l_file_name loc) (fs w) = Some (File c) ->
  let run := checkpoint_step save_path epoch valid_acc test_acc loc w in
  fst run = Raise e ->
  fs_lookup (l_file_name loc) (fs (snd run)) = None /\
  fs (snd run) = fs_remove (l_file_name loc) (fs w).
Proof.
  intros Hle Hne Hl run. apply Qle_bool_iff in Hle.
  unfold run. rewrite (checkpoint_step_run _ _ _ _ _ _ Hle).
  apply String.eqb_neq in Hne. rewrite Hne, Hl.
  match goal with
  | |- context [torch_save ?d ?p ?w1] =>
      destruct (torch_save_run d p w1) as [[e' ->]| ->]
  end; simpl.
  - intros _. split; [apply fs_lookup_remove_same | reflexivity].
  - discriminate.
Qed.

(** The directory [d] with the checkpoint of epoch 0 and a directory
    that has the name the checkpoint of epoch 1 is to get: the step
    removes the first and cannot write the second. *)
Lemma X14_failed_save_loses_previous_checkpoint_witness :
  let w := with_fs [("d", Dir);
                    ("d/0-50.0000.pt",
                     File [Obj (checkpoint_record (F := Toy.framework)
                                  1%Z 0)]);
                    ("d/1-100.0000.pt", Dir)] Toy.world0 in
  let run := checkpoint_step "d" 1 60 100
               (Toy.locals 50 "d/0-50.0000.pt") w in
  fst run = Raise IsADirectoryError /\
  pt_files "d" (fs w) = ["d/0-50.0000.pt"; "d/1-100.0000.pt"] /\
  fs_lookup "d/0-50.0000.pt" (fs (snd run)) = None.
Proof.
  intros w run.
  assert (Hr : fst run = Raise IsADirectoryError) by (vm_compute; reflexivity).
  split; [exact Hr|]. split; [vm_compute; reflexivity|].
  apply (X14_failed_save_loses_previous_checkpoint (F := Toy.framework)
           "d" 1 60 100 (Toy.locals 50 "d/0-50.0000.pt") w
           [Obj (checkpoint_record (F := Toy.framework) 1%Z 0)]
           IsADirectoryError).
  - vm_compute. discriminate.
  - discriminate.
  - reflexivity.
  - exact Hr.
Defined.

(** ** Saving, listing and loading a checkpoint *)

Section SaveAndFind.

Context {F : Framework}.


End SaveAndFind.



(** ** An empty range of folds *)

(** X16.  When [--end] is not above [--start] the fold loop has
    nothing to do: the entry point returns at once and leaves the
    world as it is, no directory and no log file created. *)
Theorem X16_main_with_empty_fold_range {F : Framework}
    (args : Args) (w : World) :
  a_end args <= a_start args -> main args w = (Ok tt, w).
Proof.
  intros H. unfold main. now rewrite (range_nil _ _ H).
Qed.

(** [--start 31 --end 21] on the defaults. *)
Lemma X16_main_with_empty_fold_range_witness :
  let args := {| a_resume := true; a_lr := 1 # 10000; a_batch_size := 128;
                 a_epoch := 100; a_dataset := "MASS"; a_device_id := 0;
                 a_name := "EE"; a_weight := [1; 1; 1]; a_start := 31;
                 a_end := 21; a_trans := false; a_loss := "cos";
                 a_loss_weight := "auto" |} in
  main (F := Toy.framework) args Toy.empty_world = (Ok tt, Toy.empty_world).
Proof.
  intros args.
  apply (X16_main_with_empty_fold_range (F := Toy.framework)).
  simpl. lia.
Defined.

(** ** Any directory: one more checkpoint at most, the epochs in order *)

Section AnyDirectory.

Context {F : Framework}.

Lemma trace_bound_logged n sp t0 w w' :
  logged w w' -> trace_bound n sp t0 w -> trace_bound n sp t0 w'.
Proof.
  intros (G & _ & _ & _ & _ & _ & _ & _ & new & Hn & Hall)
         [(old & Ho & Hold) Hlen].
  split.
  - exists (new ++ old). split; [rewrite Hn, Ho; now rewrite app_assoc|].
    apply Forall_app. split; [|exact Hold].
    eapply List.Forall_impl; [|exact Hall].
    intros f Hf. simpl. now rewrite (fs_grows_pt_files sp _ _ Hf).
  - now rewrite (fs_grows_pt_files sp _ _ G).
Qed.

Lemma trace_bound_ext n sp t0 w w1 :
  fs w1 = fs w -> fs_trace w1 = fs_trace w ->
  trace_bound n sp t0 w -> trace_bound n sp t0 w1.
Proof. intros H1 H2. unfold trace_bound. now rewrite H1, H2. Qed.

Lemma trace_bound_set_fs n sp t0 f w :
  (length (pt_files sp f) <= n)%nat ->
  trace_bound n sp t0 w -> trace_bound n sp t0 (set_fs f w).
Proof.
  intros Hf [(new & Hn & Hall) _]. split; [|exact Hf].
  exists (f :: new). simpl. split; [now rewrite Hn | now constructor].
Qed.

Lemma run_inv_ext sp k t0 e0 done loc w loc1 w1 :
  fs w1 = fs w -> fs_trace w1 = fs_trace w -> epoch_trace w1 = epoch_trace w ->
  l_file_name loc1 = l_file_name loc ->
  run_inv sp k t0 e0 done loc w -> run_inv sp k t0 e0 done loc1 w1.
Proof.
  intros H1 H2 H3 H4. unfold run_inv, trace_bound, epochs_since.
  now rewrite H1, H2, H3, H4.
Qed.

Lemma run_inv_logged sp k t0 e0 done loc w w' :
  logged w w' -> run_inv sp k t0 e0 done loc w -> run_inv sp k t0 e0 done loc w'.
Proof.
  intros L (Ht & Hf & He).
  split; [now apply (trace_bound_logged _ sp t0 w w')|].
  destruct L as (G & _ & _ & _ & _ & _ & Hep & _).
  rewrite (fs_grows_pt_files sp _ _ G).
  split; [exact Hf|]. unfold epochs_since. now rewrite Hep.
Qed.

Lemma remove_listed_length (p : string) (l : list string) :
  In p l ->
  (length (List.filter (fun q => negb (String.eqb q p)) l) < length l)%nat.
Proof.
  induction l as [|x l IH]; simpl; [tauto|].
  intros [->|Hin].
  - rewrite String.eqb_refl. simpl.
    pose proof (List.filter_length_le (fun q => negb (String.eqb q p)) l).
    lia.
  - specialize (IH Hin). destruct (negb _); simpl; lia.
Qed.

Lemma pt_files_write_length (sp p : string) (n : node) (f : FS) :
  (length (pt_files sp (fs_write p n f)) <= S (length (pt_files sp f)))%nat.
Proof.
  unfold pt_files. rewrite fs_write_paths.
  destruct (fs_exists p f); [lia|].
  rewrite List.filter_app, length_app. simpl.
  destruct (is_pt_in sp p); simpl; lia.
Qed.

Lemma pt_files_write_in (sp p : string) (n : node) (f : FS) :
  is_pt_in sp p = true -> In p (pt_files sp (fs_write p n f)).
Proof.
  intros Hp. unfold pt_files. apply List.filter_In. split; [|exact Hp].
  rewrite fs_write_paths. destruct (fs_exists p f) eqn:E.
  - now apply fs_exists_in.
  - apply in_or_app. right. now left.
Qed.

Lemma pt_files_listed_exists (sp p : string) (f : FS) :
  In p (pt_files sp f) -> fs_lookup p f <> None.
Proof.
  unfold pt_files. intros H. apply List.filter_In in H as [H _].
  apply fs_exists_in in H. unfold fs_exists in H.
  destruct (fs_lookup p f); [discriminate | discriminate].
Qed.

(** The checkpoint decision in any directory. *)
Lemma checkpoint_step_any sp k t0 epoch valid_acc test_acc loc w :
  trace_bound (S k) sp t0 w ->
  (if String.eqb (l_file_name loc) ""
   then (length (pt_files sp (fs w)) <= k)%nat
   else In (l_file_name loc) (pt_files sp (fs w))) ->
  match checkpoint_step sp epoch valid_acc test_acc loc w with
  | (Ok loc', w') =>
      trace_bound (S k) sp t0 w' /\
      (if String.eqb (l_file_name loc') ""
       then (length (pt_files sp (fs w')) <= k)%nat
       else In (l_file_name loc') (pt_files sp (fs w')))
  | (Raise _, w') => trace_bound (S k) sp t0 w'
  end.
Proof.
  intros Ht Hf.
  set (name := checkpoint_name sp epoch test_acc).
  set (record := checkpoint_record (params (l_model loc)) epoch).
  assert (Hsave : forall w1,
             trace_bound (S k) sp t0 w1 ->
             (length (pt_files sp (fs w1)) <= k)%nat ->
             match (let (r2, w2) := torch_save record name w1 in
                    match r2 with
                    | Ok _ => (Ok (with_best valid_acc name loc), w2)
                    | Raise e => (Raise e, w2)
                    end) with
             | (Ok loc', w') =>
                 trace_bound (S k) sp t0 w' /\
                 (if String.eqb (l_file_name loc') ""
                  then (length (pt_files sp (fs w')) <= k)%nat
                  else In (l_file_name loc') (pt_files sp (fs w')))
             | (Raise _, w') => trace_bound (S k) sp t0 w'
             end).
  { intros w1 Ht1 Hk1.
    destruct (torch_save_run record name w1) as [[e ->] | ->]; [exact Ht1|].
    split.
    - apply trace_bound_set_fs; [|exact Ht1].
      pose proof (pt_files_write_length sp name (File [Obj record]) (fs w1)).
      lia.
    - simpl l_file_name. unfold name at 1.
      rewrite checkpoint_name_nonempty. simpl fs.
      apply pt_files_write_in, checkpoint_name_is_pt. }
  destruct (Qle_bool (l_best_acc loc) valid_acc) eqn:Ele.
  - rewrite (checkpoint_step_run sp epoch valid_acc test_acc loc w Ele).
    fold name record.
    destruct (String.eqb (l_file_name loc) "") eqn:En.
    + now apply Hsave.
    + pose proof (pt_files_listed_exists _ _ _ Hf) as Hex.
      destruct (fs_lookup (l_file_name loc) (fs w)) as [[|c]|];
        [exact Ht | | congruence].
      assert (Hk1 : (length (pt_files sp (fs_remove (l_file_name loc) (fs w)))
                     <= k)%nat).
      { rewrite pt_files_remove.
        pose proof (remove_listed_length _ _ Hf). destruct Ht as [_ Hlen].
        lia. }
      apply Hsave; [|exact Hk1].
      apply trace_bound_set_fs; [lia | exact Ht].
  - unfold checkpoint_step. rewrite Ele. unfold ret. split; assumption.
Qed.

Lemma firstn_done {A} (done rest : list A) (x : A) :
  firstn (length done) (done ++ x :: rest) = done /\
  firstn (S (length done)) (done ++ x :: rest) = done ++ [x].
Proof.
  split.
  - rewrite firstn_app, Nat.sub_diag, firstn_all. simpl. apply app_nil_r.
  - rewrite firstn_app, firstn_all2 by lia.
    replace (S (length done) - length done)%nat with 1%nat by lia.
    reflexivity.
Qed.

(** One epoch in any directory. *)
Lemma train_epoch_any args criterion dataset l1 l2 l3 sp k t0 e0 all
    done epoch loc :
  (exists rest, all = done ++ epoch :: rest) ->
  hoare (run_inv sp k t0 e0 done loc)
    (train_epoch args criterion dataset l1 l2 l3 sp epoch loc)
    (fun loc' => run_inv sp k t0 e0 (done ++ [epoch]) loc')
    (run_stopped sp k t0 e0 all).
Proof.
  intros [rest Hall] w Hinv. unfold train_epoch. rewrite bindM_run.
  destruct (firstn_done done rest epoch) as [Fd Fx]. rewrite <- Hall in Fd, Fx.
  pose proof (train_pass_keeps_files args criterion dataset l1 loc w) as Hk.
  pose proof (train_pass_locals args criterion dataset l1 loc w) as Hl.
  destruct (train_pass _ _ _ _ _ w) as [[[loc1 acc]|e] w1]; simpl in Hk.
  2:{ injection Hk as H1 H2 H3. destruct Hinv as (Ht & _ & He).
      split; [now apply (trace_bound_ext _ sp t0 w w1)|].
      exists (length done). rewrite Fd. unfold epochs_since. now rewrite H3. }
  injection Hk as H1 H2 H3. destruct Hl as [_ Hf].
  assert (Hinv1 : run_inv sp k t0 e0 done loc1 w1)
    by (apply (run_inv_ext sp k t0 e0 done loc w); assumption).
  clear Hinv H1 H2 H3 Hf.
  assert (Hstop1 : run_stopped sp k t0 e0 all w1).
  { destruct Hinv1 as (Ht & _ & He). split; [exact Ht|].
    exists (length done). now rewrite Fd. }
  rewrite bindM_run. unfold lift at 1.
  destruct (test (l_model loc1) l2) as [[m2 [va vl]]|e]; [|exact Hstop1].
  rewrite bindM_run. unfold lift at 1.
  destruct (test _ l3) as [[m3 [ta tl]]|e]; [|exact Hstop1].
  rewrite bindM_run. unfold ghost_epoch at 1, bindM at 1, gets, modify.
  cbv beta iota.
  rewrite bindM_run.
  set (loc3 := with_model m3 (with_model m2 loc1)).
  match goal with
  | |- context [set_epoch_trace (?o :: _) w1] =>
      set (o' := o); set (w2 := set_epoch_trace (o' :: epoch_trace w1) w1)
  end.
  destruct Hinv1 as (Ht & Hf & (obs & He & Hd)).
  assert (He2 : epochs_since e0 (done ++ [epoch]) w2).
  { exists (obs ++ [o']). split.
    - simpl. rewrite He, rev_app_distr. reflexivity.
    - rewrite List.map_app, Hd. reflexivity. }
  pose proof (checkpoint_step_any sp k t0 epoch va ta loc3 w2 Ht Hf) as Hstep.
  pose proof (checkpoint_step_keeps_epochs sp epoch va ta loc3 w2) as Hke.
  destruct (checkpoint_step sp epoch va ta loc3 w2) as [[loc4|e] w4];
    cbn [snd] in Hke.
  2:{ split; [exact Hstep|]. exists (S (length done)). rewrite Fx.
      unfold epochs_since. now rewrite Hke. }
  destruct Hstep as [Ht4 Hf4].
  assert (Hinv4 : run_inv sp k t0 e0 (done ++ [epoch]) loc4 w4).
  { split; [exact Ht4|]. split; [exact Hf4|].
    unfold epochs_since. now rewrite Hke. }
  rewrite bindM_run.
  match goal with
  | |- context [global_logger_info ?m w4] =>
      pose proof (global_logger_info_run m w4) as Hlog
  end.
  destruct (g_logger w4).
  - destruct Hlog as (w5 & -> & L). unfold ret.
    now apply (run_inv_logged sp k t0 e0 _ loc4 w4 w5).
  - rewrite Hlog. destruct Hinv4 as (Ht' & _ & He').
    split; [exact Ht'|]. exists (S (length done)). now rewrite Fx.
Qed.

(** [train] in any directory. *)
Lemma train_any model dataset args sp start_epoch w :
  let k := length (pt_files sp (fs w)) in
  let all := range start_epoch (a_epoch args) in
  match train model dataset args sp start_epoch w with
  | (Ok _, w') =>
      trace_bound (S k) sp (fs_trace w) w' /\
      epochs_since (epoch_trace w) all w'
  | (Raise _, w') => run_stopped sp k (fs_trace w) (epoch_trace w) all w'
  end.
Proof.
  intros k all.
  assert (HT : trace_bound (S k) sp (fs_trace w) w).
  { split; [|unfold k; lia].
    exists []. split; [reflexivity | constructor]. }
  assert (HS : forall w1, logged w w1 ->
                 run_stopped sp k (fs_trace w) (epoch_trace w) all w1).
  { intros w1 L. split; [now apply (trace_bound_logged _ sp _ w w1)|].
    exists 0%nat, []. destruct L as (_ & _ & _ & _ & _ & _ & Hep & _).
    split; [exact Hep | reflexivity]. }
  pose proof (HS w (logged_refl w)) as HS0.
  unfold train.
  unfold dict_get at 1. rewrite bindM_run.
  destruct (dataset !! "train") as [train_ds|]; [|exact HS0].
  unfold ret at 1. rewrite bindM_run. unfold lift at 1.
  destruct (DataLoader_new train_ds _) as [l1|e]; [|exact HS0].
  unfold dict_get at 1. rewrite bindM_run.
  destruct (dataset !! "valid") as [valid_ds|]; [|exact HS0].
  unfold ret at 1. rewrite bindM_run. unfold lift at 1.
  destruct (DataLoader_new valid_ds _) as [l2|e]; [|exact HS0].
  unfold dict_get at 1. rewrite bindM_run.
  destruct (dataset !! "test") as [test_ds|]; [|exact HS0].
  unfold ret at 1. rewrite bindM_run. unfold lift at 1.
  destruct (DataLoader_new test_ds _) as [l3|e]; [|exact HS0].
  rewrite bindM_run. unfold lift at 1.
  destruct (MutiLoss _ _ _) as [criterion|e]; [|exact HS0].
  rewrite bindM_run.
  match goal with
  | |- context [global_logger_info ?m w] =>
      pose proof (global_logger_info_run m w) as Hlog
  end.
  destruct (g_logger w); [|rewrite Hlog; exact HS0].
  destruct Hlog as (w1 & -> & L).
  rewrite bindM_run. unfold lift at 1.
  destruct (Adam _ _) as [optimizer|e]; [|now apply HS].
  rewrite bindM_run. fold all.
  match goal with
  | |- context [for_M all ?body ?s0 w1] =>
      pose proof (hoare_for_M body
                    (run_inv sp k (fs_trace w) (epoch_trace w))
                    (run_stopped sp k (fs_trace w) (epoch_trace w) all)
                    all) as Hloop;
      specialize (fun Hb => Hloop Hb s0 w1);
      assert (Hrun : match for_M all body s0 w1 with
                     | (Ok loc', w') =>
                         run_inv sp k (fs_trace w) (epoch_trace w) all loc' w'
                     | (Raise _, w') =>
                         run_stopped sp k (fs_trace w) (epoch_trace w) all w'
                     end);
      [|destruct (for_M all body s0 w1) as [[loc'|e] w2]]
  end.
  - apply Hloop.
    + intros done x loc1 Hrest. now apply train_epoch_any.
    + split; [now apply (trace_bound_logged _ sp _ w w1)|].
      destruct L as (G & _ & _ & _ & _ & _ & Hep & _).
      split.
      * simpl. rewrite (fs_grows_pt_files sp _ _ G). unfold k. lia.
      * exists []. split; [exact Hep | reflexivity].
  - unfold ret. destruct Hrun as (Ht & _ & He). split; assumption.
  - exact Hrun.
Qed.

End AnyDirectory.

(** X17.  In any directory, resumed runs included, a call of [train]
    adds at most one checkpoint file: when the directory held k
    checkpoint files at the call, every file system the run goes
    through, and the one it ends in, holds at most k + 1 of them,
    whether the run returns or raises. *)
Theorem X17_a_run_adds_at_most_one_checkpoint {F : Framework}
    (model : Model) (dataset : gmap string Dataset) (args : Args)
    (save_path : string) (start_epoch : Z) (w : World) :
  let k := length (pt_files save_path (fs w)) in
  let w' := snd (train model dataset args save_path start_epoch w) in
  (exists new,
     fs_trace w' = new ++ fs_trace w /\
     Forall (fun f => (length (pt_files save_path f) <= S k)%nat) new) /\
  (length (pt_files save_path (fs w')) <= S k)%nat.
Proof.
  intros k w'.
  pose proof (train_any model dataset args save_path start_epoch w) as H.
  cbv zeta in H. fold k in H. unfold w'.
  destruct (train _ _ _ _ _ w) as [[[]|e] w1]; simpl; apply H.
Qed.

(** A run of one more epoch in the directory that holds the files of
    epochs 9 and 10: the file of epoch 11 is added, none is removed. *)
Lemma X17_a_run_adds_at_most_one_checkpoint_witness :
  let w' := snd (train (Toy.model 8 true) Toy.datasets (Toy.args_n 12 "cos")
                   "d" 11 Toy.world_two) in
  pt_files "d" (fs w')
  = ["d/9-50.0000.pt"; "d/10-60.0000.pt"; "d/11-100.0000.pt"] /\
  (length (pt_files "d" (fs w')) <= 3)%nat.
Proof.
  intros w'. split; [vm_compute; reflexivity|].
  apply (X17_a_run_adds_at_most_one_checkpoint (Toy.model 8 true)
           Toy.datasets (Toy.args_n 12 "cos") "d" 11 Toy.world_two).
Defined.

(** X18.  [train] evaluates the epochs of
    [range(start_epoch, args.epoch)] in ascending order, each once: the
    epochs evaluated by a run are always an initial segment of that
    range, and all of it when the run returns; they lie from the start
    epoch to below [args.epoch]. *)
Theorem X18_epochs_are_run_in_order {F : Framework}
    (model : Model) (dataset : gmap string Dataset) (args : Args)
    (save_path : string) (start_epoch : Z) (w : World) :
  let run := train model dataset args save_path start_epoch w in
  let epochs := range start_epoch (a_epoch args) in
  (exists n obs,
     epoch_trace (snd run) = rev obs ++ epoch_trace w /\
     List.map eo_epoch obs = firstn n epochs) /\
  (fst run = Ok tt ->
   exists obs,
     epoch_trace (snd run) = rev obs ++ epoch_trace w /\
     List.map eo_epoch obs = epochs) /\
  StronglySorted Z.lt epochs /\
  (forall e, In e epochs <-> start_epoch <= e < a_epoch args).
Proof.
  intros run epochs.
  pose proof (train_any model dataset args save_path start_epoch w) as H.
  cbv zeta in H. fold run epochs in H.
  split; [|split; [|split; [apply range_sorted | intros e; apply range_In]]].
  - destruct run as [[[]|e] w1]; simpl.
    + destruct H as (_ & obs & He & Hd).
      exists (length epochs), obs. split; [exact He|].
      now rewrite firstn_all.
    + destruct H as (_ & n & obs & He & Hd). eauto.
  - destruct run as [[[]|e] w1]; simpl; [|discriminate].
    intros _. apply H.
Qed.

(** The two epochs of the toy run. *)
Lemma X18_epochs_are_run_in_order_witness :
  let run := train (Toy.model 0 true) Toy.datasets (Toy.args2 "cos")
               "d" 0 Toy.world0 in
  exists obs : list (@EpochObs Toy.framework),
    epoch_trace (snd run) = rev obs /\ List.map eo_epoch obs = [0; 1].
Proof.
  intros run.
  destruct (X18_epochs_are_run_in_order (Toy.model 0 true) Toy.datasets
              (Toy.args2 "cos") "d" 0 Toy.world0) as (_ & H & _).
  destruct H as (obs & He & Hd); [vm_compute; reflexivity|].
  exists obs. split; [|exact Hd].
  unfold run. rewrite He. apply app_nil_r.
Defined.

(** ** One pair of handlers per fold *)

Section FoldLoggers.

Context {F : Framework}.

Lemma of_Z_inj (a b : Z) : Str.of_Z a = Str.of_Z b -> a = b.
Proof.
  intros H. pose proof (py_int_of_Z a) as Ha. rewrite H, py_int_of_Z in Ha.
  congruence.
Qed.










End FoldLoggers.



(** ** Training touches the checkpoint files of its directory only *)

Section OthersKept.

Context {F : Framework}.

Lemma kept_at_refl (p : string) (f : FS) : kept_at p f f.
Proof.
  unfold kept_at. destruct (fs_lookup p f); [apply node_grows_refl | exact I].
Qed.

Lemma kept_at_trans (p : string) (f g h : FS) :
  kept_at p f g -> kept_at p g h -> kept_at p f h.
Proof.
  unfold kept_at.
  destruct (fs_lookup p f), (fs_lookup p g), (fs_lookup p h); try tauto.
  apply node_grows_trans.
Qed.

Lemma others_kept_refl (sp : string) (f : FS) : others_kept sp f f.
Proof. intros p _. apply kept_at_refl. Qed.

Lemma others_kept_trans (sp : string) (f g h : FS) :
  others_kept sp f g -> others_kept sp g h -> others_kept sp f h.
Proof. intros H1 H2 p Hp. eapply kept_at_trans; eauto. Qed.

Lemma others_kept_grows (sp : string) (f g : FS) :
  fs_grows f g -> others_kept sp f g.
Proof. intros G p _. apply (fs_grows_lookup p f g G). Qed.

Lemma others_kept_remove (sp old : string) (f : FS) :
  is_pt_in sp old = true -> others_kept sp f (fs_remove old f).
Proof.
  intros Ho p Hp. unfold kept_at.
  rewrite fs_lookup_remove_other by congruence. apply kept_at_refl.
Qed.

Lemma others_kept_write (sp name : string) (n : node) (f : FS) :
  is_pt_in sp name = true -> others_kept sp f (fs_write name n f).
Proof.
  intros Hn p Hp. unfold kept_at.
  rewrite fs_lookup_write_other by congruence. apply kept_at_refl.
Qed.

Lemma others_inv_ext sp f0 loc w loc1 w1 :
  fs w1 = fs w -> l_file_name loc1 = l_file_name loc ->
  others_inv sp f0 loc w -> others_inv sp f0 loc1 w1.
Proof. intros H1 H2. unfold others_inv. now rewrite H1, H2. Qed.

Lemma checkpoint_step_others sp f0 epoch valid_acc test_acc loc w :
  others_inv sp f0 loc w ->
  match checkpoint_step sp epoch valid_acc test_acc loc w with
  | (Ok loc', w') => others_inv sp f0 loc' w'
  | (Raise _, w') => others_kept sp f0 (fs w')
  end.
Proof.
  intros [Hk Hf].
  set (name := checkpoint_name sp epoch test_acc).
  set (record := checkpoint_record (params (l_model loc)) epoch).
  assert (Hname : is_pt_in sp name = true) by apply checkpoint_name_is_pt.
  assert (Hsave : forall w1,
             others_kept sp f0 (fs w1) ->
             match (let (r2, w2) := torch_save record name w1 in
                    match r2 with
                    | Ok _ => (Ok (with_best valid_acc name loc), w2)
                    | Raise e => (Raise e, w2)
                    end) with
             | (Ok loc', w') => others_inv sp f0 loc' w'
             | (Raise _, w') => others_kept sp f0 (fs w')
             end).
  { intros w1 Hk1.
    destruct (torch_save_run record name w1) as [[e ->] | ->]; [exact Hk1|].
    split; [|right; exact Hname]. simpl fs.
    eapply others_kept_trans; [exact Hk1 | now apply others_kept_write]. }
  destruct (Qle_bool (l_best_acc loc) valid_acc) eqn:Ele.
  - rewrite (checkpoint_step_run sp epoch valid_acc test_acc loc w Ele).
    fold name record.
    destruct (String.eqb_spec (l_file_name loc) "") as [E|E];
      [now apply Hsave|].
    destruct Hf as [Hf|Hf]; [contradiction|].
    destruct (fs_lookup (l_file_name loc) (fs w)) as [[|c]|];
      [exact Hk | | now apply Hsave].
    apply Hsave. simpl fs.
    eapply others_kept_trans; [exact Hk | now apply others_kept_remove].
  - unfold checkpoint_step. rewrite Ele. unfold ret. split; assumption.
Qed.

Lemma train_epoch_others args criterion dataset l1 l2 l3 sp f0 epoch loc :
  hoare (others_inv sp f0 loc)
    (train_epoch args criterion dataset l1 l2 l3 sp epoch loc)
    (fun loc' => others_inv sp f0 loc')
    (fun w' => others_kept sp f0 (fs w')).
Proof.
  intros w Hinv. unfold train_epoch. rewrite bindM_run.
  pose proof (train_pass_keeps_files args criterion dataset l1 loc w) as Hk.
  pose proof (train_pass_locals args criterion dataset l1 loc w) as Hl.
  destruct (train_pass _ _ _ _ _ w) as [[[loc1 acc]|e] w1]; simpl in Hk.
  2:{ injection Hk as H1 _ _. rewrite H1. apply Hinv. }
  injection Hk as H1 _ _. destruct Hl as [_ Hf].
  assert (Hinv1 : others_inv sp f0 loc1 w1)
    by (apply (others_inv_ext sp f0 loc w); assumption).
  clear Hinv H1 Hf.
  rewrite bindM_run. unfold lift at 1.
  destruct (test (l_model loc1) l2) as [[m2 [va vl]]|e]; [|apply Hinv1].
  rewrite bindM_run. unfold lift at 1.
  destruct (test _ l3) as [[m3 [ta tl]]|e]; [|apply Hinv1].
  rewrite bindM_run. unfold ghost_epoch at 1, bindM at 1, gets, modify.
  cbv beta iota.
  rewrite bindM_run.
  match goal with
  | |- context [checkpoint_step sp epoch va ta ?l ?w0] =>
      pose proof (checkpoint_step_others sp f0 epoch va ta l w0) as Hstep;
      destruct (checkpoint_step sp epoch va ta l w0) as [[loc4|e] w4]
  end; [|apply Hstep; exact Hinv1].
  specialize (Hstep Hinv1).
  rewrite bindM_run.
  match goal with
  | |- context [global_logger_info ?m w4] =>
      pose proof (global_logger_info_run m w4) as Hlog
  end.
  destruct (g_logger w4).
  - destruct Hlog as (w5 & -> & L). unfold ret.
    destruct Hstep as [Hk4 Hf4]. destruct L as (G & _).
    split; [|exact Hf4].
    eapply others_kept_trans; [exact Hk4 | now apply others_kept_grows].
  - rewrite Hlog. apply Hstep.
Qed.

Lemma train_others model dataset args sp start_epoch w :
  others_kept sp (fs w)
    (fs (snd (train model dataset args sp start_epoch w))).
Proof.
  pose proof (others_kept_refl sp (fs w)) as H0.
  unfold train.
  unfold dict_get at 1. rewrite bindM_run.
  destruct (dataset !! "train") as [train_ds|]; [|exact H0].
  unfold ret at 1. rewrite bindM_run. unfold lift at 1.
  destruct (DataLoader_new train_ds _) as [l1|e]; [|exact H0].
  unfold dict_get at 1. rewrite bindM_run.
  destruct (dataset !! "valid") as [valid_ds|]; [|exact H0].
  unfold ret at 1. rewrite bindM_run. unfold lift at 1.
  destruct (DataLoader_new valid_ds _) as [l2|e]; [|exact H0].
  unfold dict_get at 1. rewrite bindM_run.
  destruct (dataset !! "test") as [test_ds|]; [|exact H0].
  unfold ret at 1. rewrite bindM_run. unfold lift at 1.
  destruct (DataLoader_new test_ds _) as [l3|e]; [|exact H0].
  rewrite bindM_run. unfold lift at 1.
  destruct (MutiLoss _ _ _) as [criterion|e]; [|exact H0].
  rewrite bindM_run.
  match goal with
  | |- context [global_logger_info ?m w] =>
      pose proof (global_logger_info_run m w) as Hlog
  end.
  destruct (g_logger w); [|rewrite Hlog; exact H0].
  destruct Hlog as (w1 & -> & L). destruct L as (G & _).
  assert (H1 : others_kept sp (fs w) (fs w1)) by now apply others_kept_grows.
  rewrite bindM_run. unfold lift at 1.
  destruct (Adam _ _) as [optimizer|e]; [|exact H1].
  rewrite bindM_run.
  match goal with
  | |- context [for_M ?l ?body ?s0 w1] =>
      pose proof (hoare_for_M body
                    (fun _ loc w' => others_inv sp (fs w) loc w')
                    (fun w' => others_kept sp (fs w) (fs w')) l) as Hloop;
      specialize (fun Hb => Hloop Hb s0 w1);
      assert (Hrun : match for_M l body s0 w1 with
                     | (Ok loc', w') => others_inv sp (fs w) loc' w'
                     | (Raise _, w') => others_kept sp (fs w) (fs w')
                     end);
      [|destruct (for_M l body s0 w1) as [[loc'|e] w2]]
  end.
  - apply Hloop.
    + intros done x loc1 _. apply train_epoch_others.
    + split; [exact H1 | now left].
  - unfold ret. apply Hrun.
  - exact Hrun.
Qed.

End OthersKept.

(** X20.  [train] creates, removes and rewrites checkpoint files of its
    own directory only: every path that the pattern save_path/*.pt does
    not match (the log file, the directories, the files of other folds)
    is after the run, whether it returns or raises, what it was before,
    absent, a directory, or a file with at most log lines added at its
    end. *)
Theorem X20_train_touches_only_its_checkpoints {F : Framework}
    (model : Model) (dataset : gmap string Dataset) (args : Args)
    (save_path : string) (start_epoch : Z) (w : World) (p : string) :
  is_pt_in save_path p = false ->
  let w' := snd (train model dataset args save_path start_epoch w) in
  match fs_lookup p (fs w), fs_lookup p (fs w') with
  | Some n, Some n' => node_grows n n'
  | None, None => True
  | _, _ => False
  end.
Proof.
  intros Hp w'.
  apply (train_others model dataset args save_path start_epoch w p Hp).
Qed.

(** The toy run in a directory listing that also holds the checkpoint
    of another fold: that file is as it was, and the log file of the
    run is kept. *)
Lemma X20_train_touches_only_its_checkpoints_witness :
  let other := File [Obj (checkpoint_record (F := Toy.framework) 7%Z 9)] in
  let w := with_fs [("d", Dir); ("d/log.txt", File []);
                    ("e", Dir); ("e/9-50.0000.pt", other)] Toy.world0 in
  let w' := snd (train (Toy.model 0 true) Toy.datasets (Toy.args2 "cos")
                   "d" 0 w) in
  match fs_lookup "d/log.txt" (fs w), fs_lookup "d/log.txt" (fs w') with
  | Some n, Some n' => node_grows n n'
  | None, None => True
  | _, _ => False
  end /\
  fs_lookup "e/9-50.0000.pt" (fs w') = Some other /\
  pt_files "d" (fs w') = ["d/1-100.0000.pt"].
Proof.
  intros other w w'. split; [|split].
  - apply (X20_train_touches_only_its_checkpoints (Toy.model 0 true)
             Toy.datasets (Toy.args2 "cos") "d" 0 w "d/log.txt" eq_refl).
  - vm_compute. reflexivity.
  - vm_compute. reflexivity.
Defined.

(** ** The run directories stay *)

Section FoldFiles.

Context {F : Framework}.


Lemma strip_prefix_Some (p s r : string) :
  Str.strip_prefix p s = Some r -> s = p +:+ r.
Proof.
  revert s. induction p as [|x p IH]; intros s; simpl.
  - intros H. now injection H as <-.
  - destruct s as [|y s]; [discriminate|].
    destruct (Ascii.eqb_spec x y) as [<-|_]; [|discriminate].
    intros H. apply IH in H. subst s. reflexivity.
Qed.


Lemma sapp_String (a : string) (c : ascii) (b : string) :
  a +:+ String c b = (a +:+ String c "") +:+ b.
Proof. now rewrite sapp_assoc. Qed.

(** The run directory of a fold is [prefix ++ str(fold)]. *)
Lemma run_dir_split (args : Args) (fold : Z) :
  run_dir args fold
  = ((a_name args +:+ "-" +:+ a_loss args) +:+ "/" +:+ a_dataset args +:+ "/")
      +:+ Str.of_Z fold.
Proof. unfold run_dir. now rewrite !sapp_assoc. Qed.







Lemma get_dataset_keeps_fs (args : Args) : keeps fs (get_dataset args).
Proof. unfold get_dataset, global_fold. keeps_tac. Qed.



End FoldFiles.



(** ** A fold leaves the checkpoints of the other folds alone *)

Section OtherFolds.

Context {F : Framework}.

Lemma is_pt_in_dirname (sp p : string) :
  is_pt_in sp p = true -> Str.dirname p = sp.
Proof.
  unfold is_pt_in.
  destruct (Str.strip_prefix (sp +:+ "/") p) as [name|] eqn:E;
    [|discriminate].
  apply strip_prefix_Some in E. subst p. intros H.
  apply andb_true_iff in H as [H _]. apply andb_true_iff in H as [H _].
  apply negb_true_iff in H. rewrite sapp_assoc. now apply dirname_app.
Qed.

Lemma sapp_inv_head (a b c : string) : a +:+ b = a +:+ c -> b = c.
Proof.
  induction a as [|x a IH]; [trivial|].
  change (String x (a +:+ b) = String x (a +:+ c) -> b = c).
  intros H. injection H as H. now apply IH.
Qed.

Lemma run_dir_inj (args : Args) (x f : Z) :
  run_dir args x = run_dir args f -> x = f.
Proof.
  rewrite !run_dir_split. intros H. apply sapp_inv_head in H.
  now apply of_Z_inj.
Qed.

Lemma checkpoints_kept_refl (sp : string) (f : FS) : checkpoints_kept sp f f.
Proof. intros p n _ H. exists n. split; [exact H | apply node_grows_refl]. Qed.

Lemma checkpoints_kept_trans (sp : string) (f g h : FS) :
  checkpoints_kept sp f g -> checkpoints_kept sp g h ->
  checkpoints_kept sp f h.
Proof.
  intros H1 H2 p n Hp Hl. destruct (H1 p n Hp Hl) as (n1 & L1 & G1).
  destruct (H2 p n1 Hp L1) as (n2 & L2 & G2).
  exists n2. split; [exact L2 | eapply node_grows_trans; eauto].
Qed.

Lemma checkpoints_kept_extends (sp : string) (f g : FS) :
  fs_extends f g -> checkpoints_kept sp f g.
Proof. intros E p n _ Hl. now apply (fs_extends_lookup p f g n). Qed.

(** Training in another directory. *)
Lemma checkpoints_kept_others (sp sp' : string) (f g : FS) :
  sp <> sp' -> others_kept sp' f g -> checkpoints_kept sp f g.
Proof.
  intros Hne Ho p n Hp Hl.
  assert (Hp' : is_pt_in sp' p = false).
  { destruct (is_pt_in sp' p) eqn:E; [|reflexivity].
    apply is_pt_in_dirname in E. apply is_pt_in_dirname in Hp. congruence. }
  specialize (Ho p Hp'). unfold kept_at in Ho. rewrite Hl in Ho.
  destruct (fs_lookup p g) as [n'|]; [eauto | contradiction].
Qed.

Lemma fold_body_other_folds (args : Args) (x f : Z) (w : World) :
  f <> x ->
  checkpoints_kept (run_dir args f) (fs w)
    (fs (snd (fold_body args x tt w))).
Proof.
  intros Hne. set (sp := run_dir args f).
  unfold fold_body, ghost_event, modify, gets.
  repeat (rewrite bindM_run; cbv beta iota).
  match goal with
  | |- context [init_path args ?w0] => set (wa := w0)
  end.
  pose proof (init_path_extends args wa) as E1.
  pose proof (init_path_returns args wa) as R1.
  destruct (init_path args wa) as [[[logger pth]|e] w1]; cbn [snd] in E1.
  2:{ cbn [snd]. now apply checkpoints_kept_extends. }
  assert (H1 : checkpoints_kept sp (fs w) (fs w1))
    by now apply checkpoints_kept_extends.
  destruct (R1 w1 logger pth eq_refl) as (fold' & Hg & Hpth & _).
  simpl in Hg. injection Hg as <-.
  change ((a_name args +:+ "-" +:+ a_loss args) +:+ "/" +:+ a_dataset args
            +:+ "/" +:+ Str.of_Z x) with (run_dir args x) in Hpth.
  subst pth.
  repeat (rewrite bindM_run; cbv beta iota).
  match goal with
  | |- context [get_model args _ ?w0] => set (wb := w0)
  end.
  pose proof (get_model_snd args (run_dir args x) wb) as L2.
  destruct L2 as (G2 & _). simpl fs in G2.
  destruct (get_model args (run_dir args x) wb)
    as [[[model start_epoch]|e] w2]; cbn [snd] in G2.
  2:{ cbn [snd]. eapply checkpoints_kept_trans; [exact H1|].
      now apply checkpoints_kept_extends, fs_grows_extends. }
  assert (H2 : checkpoints_kept sp (fs w) (fs w2)).
  { eapply checkpoints_kept_trans; [exact H1|].
    now apply checkpoints_kept_extends, fs_grows_extends. }
  repeat (rewrite bindM_run; cbv beta iota).
  match goal with
  | |- context [get_dataset args ?w0] => set (wc := w0)
  end.
  pose proof (get_dataset_keeps_fs args wc) as F3.
  destruct (get_dataset args wc) as [[dataset|e] w3]; cbn [snd] in F3.
  2:{ cbn [snd]. rewrite F3. exact H2. }
  repeat (rewrite bindM_run; cbv beta iota).
  match goal with
  | |- context [train model dataset args _ start_epoch ?w0] => set (wd := w0)
  end.
  pose proof (train_others model dataset args (run_dir args x)
                start_epoch wd) as O4.
  eapply checkpoints_kept_trans; [|eapply checkpoints_kept_others; [|exact O4]].
  - simpl fs. rewrite F3. exact H2.
  - unfold sp. intros Heq. apply run_dir_inj in Heq. contradiction.
Qed.

End OtherFolds.

(** X22.  The processing of one fold (paths and logger, model,
    dataset, training) removes and rewrites no checkpoint file of
    another fold: every checkpoint file that the run directory of a
    fold f holds is still there after the processing of a fold x other
    than f, whether that returned or raised, and [torch.load] reads the
    same record from it. *)
Theorem X22_a_fold_keeps_the_checkpoints_of_others {F : Framework}
    (args : Args) (x f : Z) (w : World) (p : string)
    (d : gmap string Value) :
  f <> x ->
  is_pt_in (run_dir args f) p = true ->
  load_of (fs_lookup p (fs w)) = Ok d ->
  let w' := snd (fold_body args x tt w) in
  In p (pt_files (run_dir args f) (fs w')) /\
  load_of (fs_lookup p (fs w')) = Ok d.
Proof.
  intros Hne Hp Hl w'.
  destruct (fs_lookup p (fs w)) as [n|] eqn:El; [|discriminate].
  destruct (fold_body_other_folds args x f w Hne p n Hp El) as (n' & Hl' & G).
  fold w' in Hl'. split.
  - apply pt_files_in; [exact Hp|]. unfold fs_exists. now rewrite Hl'.
  - rewrite Hl', (node_grows_load n n' G). exact Hl.
Qed.

(** Fold 22, with no epoch to train, in a world that holds a
    checkpoint of fold 21. *)
Lemma X22_a_fold_keeps_the_checkpoints_of_others_witness :
  let d := checkpoint_record (F := Toy.framework) 7%Z 9 in
  let w := with_fs [("EE-cos", Dir); ("EE-cos/MASS", Dir);
                    ("EE-cos/MASS/21", Dir);
                    ("EE-cos/MASS/21/9-50.0000.pt", File [Obj d])]
             Toy.empty_world in
  let w' := snd (fold_body (Toy.args_n 0 "cos") 22 tt w) in
  load_of (fs_lookup "EE-cos/MASS/21/9-50.0000.pt" (fs w')) = Ok d.
Proof.
  intros d w w'.
  apply (X22_a_fold_keeps_the_checkpoints_of_others (Toy.args_n 0 "cos")
           22 21 w "EE-cos/MASS/21/9-50.0000.pt" d).
  - discriminate.
  - reflexivity.
  - reflexivity.
Defined.
